(** * A resampling-based inference engine: shallow embedding and properties

    The development follows the Python sources
    [utils/eda/significance/bootstrap.py], [utils/eda/significance/tests.py],
    [utils/eda/significance/wrapper.py] and [utils/eda/calculate.py].

    - NumPy [float64] values are kept abstract behind the class [Float64]; it
      has two instances: IEEE binary64 (Rocq's primitive floats, bit-exact and
      executable) and exact extended rationals (rationals with NaN and the two
      infinities), the idealisation in which order properties are proved.
    - Library functions that the sources call but do not define (NumPy's
      random generator, SciPy's tests and distributions) are the fields of the
      classes [RandomState], [SciPyStats], [Sqrt] and [Resampling].
    - Exceptions and the global random state are threaded by the monad [M]. *)

From Stdlib Require Import String DecimalString ZArith QArith Qabs Qround Lia Lqa Bool List.
From Stdlib Require Import Permutation Sorted Floats.
Import ListNotations.

Set Warnings "-inexact-float,-notation-for-abbreviation".
Local Open Scope string_scope.
Local Open Scope list_scope.
Local Open Scope nat_scope.
Set Implicit Arguments.

(* ------------------------------------------------------------------ *)
(** ** Exceptions and results *)

Inductive exn : Type :=
| ValueError (msg : string)
| TypeError (msg : string)
| IndexError
| ZeroDivisionError.

Inductive result (X : Type) : Type :=
| Ok (x : X)
| Raise (e : exn).

Arguments Ok {X} x.
Arguments Raise {X} e.

(* ------------------------------------------------------------------ *)
(** ** NumPy's float64, abstractly *)

Class Float64 (F : Type) : Type := {
  f_nan : F;                       (* np.nan *)
  f_of_Z : Z -> F;                 (* conversion of a Python int *)
  f_add : F -> F -> F;
  f_sub : F -> F -> F;
  f_mul : F -> F -> F;
  f_div : F -> F -> F;             (* float64 division: x/0 is inf or nan, never an exception *)
  f_abs : F -> F;
  f_ge : F -> F -> bool;           (* x >= y, False as soon as one side is NaN *)
  f_lt : F -> F -> bool;           (* x <  y, False as soon as one side is NaN *)
  f_isnan : F -> bool;
  np_minimum : F -> F -> F;        (* elementwise minimum, propagates NaN *)
  np_round : Z -> F -> F           (* round to a number of decimals *)
}.

Declare Scope num_scope.
Delimit Scope num_scope with num.
Notation "x + y" := (f_add x y) : num_scope.
Notation "x - y" := (f_sub x y) : num_scope.
Notation "x * y" := (f_mul x y) : num_scope.
Notation "x / y" := (f_div x y) : num_scope.
Notation "x >=? y" := (f_ge x y) (at level 70) : num_scope.
Notation "x <? y" := (f_lt x y) (at level 70) : num_scope.

(** The fact about NaN that the tables rely on: rounding keeps it. *)
Class Float64Laws (F : Type) `{Float64 F} : Prop := {
  round_nan : forall d, np_round d f_nan = f_nan
}.

(* ------------------------------------------------------------------ *)
(** ** Array helpers (NumPy semantics on Python lists) *)

Section Arrays.
Context {A : Type}.

(** [np.concatenate]: refuses an empty sequence of arrays. *)
Definition np_concatenate (arrays : list (list A)) : result (list A) :=
  match arrays with
  | [] => Raise (ValueError "need at least one array to concatenate")
  | _ => Ok (concat arrays)
  end.

(** [ary[a:b]] for non-negative bounds. *)
Definition slice (a b : nat) (ary : list A) : list A :=
  firstn (b - a) (skipn a ary).

(** Consecutive slices between division points. *)
Fixpoint sub_arys (ary : list A) (start : nat) (div_points : list nat)
  : list (list A) :=
  match div_points with
  | [] => []
  | p :: rest => slice start p ary :: sub_arys ary p rest
  end.

(** [np.split(ary, indices)]: the division points are [0], the indices and
    the total length. *)
Definition np_split (ary : list A) (indices : list nat) : list (list A) :=
  sub_arys ary 0 (indices ++ [length ary]).
End Arrays.

(** [np.cumsum] on sizes. *)
Fixpoint cumsum_from (acc : nat) (l : list nat) : list nat :=
  match l with
  | [] => []
  | x :: r => (acc + x) :: cumsum_from (acc + x) r
  end.

Definition np_cumsum (l : list nat) : list nat := cumsum_from 0 l.

Definition sum_sizes (l : list nat) : nat := fold_right Nat.add 0 l.

Definition b2z (b : bool) : Z := if b then 1%Z else 0%Z.

(** Stable sort by a comparison. *)
Section InsertionSort.
Context {R : Type} (le : R -> R -> bool).

Fixpoint insert_sorted (r : R) (l : list R) : list R :=
  match l with
  | [] => [r]
  | h :: t => if le r h then r :: l else h :: insert_sorted r t
  end.

Definition insertion_sort (l : list R) : list R := fold_right insert_sorted [] l.
End InsertionSort.

Section Numeric.
Context {F : Type} `{Float64 F}.
Local Open Scope num_scope.

(** Python's built-in [sum]: starts from the int [0], adds left to right. *)
Definition py_sum (l : list F) : F := fold_left f_add l (f_of_Z 0).

(** [a.mean()]; the mean of an empty array is [0/0 = nan]. *)
Definition np_mean (a : list F) : F :=
  py_sum a / f_of_Z (Z.of_nat (length a)).

Definition sq (x : F) : F := x * x.

(** [((a - a.mean())**2).sum()] *)
Definition sum_sq_dev (a : list F) : F :=
  let m := np_mean a in py_sum (map (fun x => sq (x - m)) a).

(** [a.var(ddof=1)] *)
Definition np_var1 (a : list F) : F :=
  sum_sq_dev a / f_of_Z (Z.of_nat (length a) - 1).

(** [Series.dropna()] *)
Definition dropna (a : list F) : list F :=
  filter (fun x => negb (f_isnan x)) a.

(** Ascending order with NaN last, as [sort_values] and [np.sort] place it. *)
Definition key_le (x y : F) : bool :=
  if f_isnan y then true
  else if f_isnan x then false
  else f_ge y x.

(** [DataFrame.sort_values(key)] followed by [reset_index(drop=True)]. *)
Definition sort_values {R : Type} (key : R -> F) (l : list R) : list R :=
  insertion_sort (fun a b => key_le (key a) (key b)) l.

(** [Series.median()]: missing values are skipped; an empty series has a
    missing median. *)
Definition median (a : list F) : F :=
  let s := sort_values (fun x => x) (dropna a) in
  let n := length s in
  match n with
  | O => f_nan
  | _ =>
    if Nat.even n
    then (nth (n / 2 - 1) s f_nan + nth (n / 2) s f_nan) / f_of_Z 2
    else nth (n / 2) s f_nan
  end.

(** Python's [int / int]: true division, an exception on a zero divisor. *)
Definition py_truediv (a b : Z) : result F :=
  if (b =? 0)%Z then Raise ZeroDivisionError
  else Ok (f_of_Z a / f_of_Z b).
End Numeric.

(* ------------------------------------------------------------------ *)
(** ** Library functions taken as given *)

(** The global generator of [np.random].  [np.random.shuffle] permutes its
    argument in place; nothing else is assumed about it. *)
Class RandomState : Type := {
  rng : Type;
  np_random_seed : Z -> rng;
  np_random_shuffle : forall A : Type, list A -> rng -> list A * rng;
  shuffle_Permutation :
    forall (A : Type) (l : list A) (s : rng),
      Permutation (fst (np_random_shuffle l s)) l
}.

Class Sqrt (F : Type) : Type := { np_sqrt : F -> F }.

(** [scipy.stats]: each test returns its statistic and its classical p-value. *)
Class SciPyStats (F : Type) : Type := {
  ttest_ind : list F -> list F -> bool -> F * F;        (* x, y, equal_var *)
  f_oneway : list (list F) -> result (F * F);           (* f_oneway( *groups ) *)
  chi2_contingency : list (list Z) -> result (F * F)    (* correction=False *)
}.

(* ------------------------------------------------------------------ *)
(** ** The monad of the embedded code: exceptions over the random state *)

Section Monad.
Context `{RandomState}.

Definition M (X : Type) : Type := rng -> result X * rng.

Definition ret {X} (x : X) : M X := fun s => (Ok x, s).

Definition bind {X Y} (m : M X) (k : X -> M Y) : M Y :=
  fun s =>
    match m s with
    | (Ok x, s') => k x s'
    | (Raise e, s') => (Raise e, s')
    end.

Definition lift {X} (r : result X) : M X := fun s => (r, s).

Definition raise {X} (e : exn) : M X := lift (Raise e).

(** [np.random.seed(random_seed)] when a seed is given. *)
Definition seed_if_given (random_seed : option Z) : M unit :=
  fun s =>
    match random_seed with
    | Some z => (Ok tt, np_random_seed z)
    | None => (Ok tt, s)
    end.

Definition shuffle {A} (flat : list A) : M (list A) :=
  fun s => let (flat', s') := np_random_shuffle flat s in (Ok flat', s').
End Monad.

Declare Scope monad_scope.
Delimit Scope monad_scope with monad.
Notation "x <- m ;; k" := (bind m (fun x => k))
  (at level 61, m at next level, right associativity) : monad_scope.
Notation "m ;;; k" := (bind m (fun _ => k))
  (at level 61, right associativity) : monad_scope.

(** [np.random.choice] with a shape, [np.quantile] and [scipy.stats.norm.ppf]. *)
Class Resampling (F : Type) `{RandomState} : Type := {
  np_random_choice : list F -> Z -> nat -> M (list (list F));
  np_quantile : list F -> list F -> result (list F);
  norm_ppf : F -> F
}.

(* ------------------------------------------------------------------ *)
(** ** bootstrap.py *)

Module bootstrap.
Section Bootstrap.
Context {F : Type} `{Float64 F} `{RandomState}.
Context {A : Type}.
Local Open Scope num_scope.
Local Open Scope monad_scope.

Variable stat_func : list (list A) -> result F.

(** [(abs(t) >= abs(t_obs)) if two_sided else (t >= t_obs)] *)
Definition hit (two_sided : bool) (t t_obs : F) : bool :=
  if two_sided then f_abs t >=? f_abs t_obs else t >=? t_obs.

(** [np.split(flat, np.cumsum(sizes)[:-1])] *)
Definition regroup (flat : list A) (sizes : list nat) : list (list A) :=
  np_split flat (removelast (np_cumsum sizes)).

(** The loop [for _ in range(num_samples)]; [flat] is shuffled in place, so
    each iteration starts from the previous arrangement. *)
Fixpoint perm_loop (n : nat) (sizes : list nat) (two_sided : bool) (t_obs : F)
         (flat : list A) (hits : Z) : M Z :=
  match n with
  | O => ret hits
  | S n' =>
    flat' <- shuffle flat ;;
    t <- lift (stat_func (regroup flat' sizes)) ;;
    perm_loop n' sizes two_sided t_obs flat' (hits + b2z (hit two_sided t t_obs))
  end.

Definition permutation_pvalue (groups : list (list A)) (num_samples : Z)
           (two_sided : bool) (random_seed : option Z) : M F :=
  seed_if_given random_seed ;;;
  t_obs <- lift (stat_func groups) ;;
  flat <- lift (np_concatenate groups) ;;
  let sizes := map (@length A) groups in
  hits <- perm_loop (Z.to_nat num_samples) sizes two_sided t_obs flat 0 ;;
  lift (py_truediv hits num_samples).

(** What the loop computes, read off its iterations: the successive
    arrangements of [flat], the regrouped samples handed to [stat_func],
    and the number of hits. *)
Fixpoint perm_pools (n : nat) (flat : list A) (s : rng) : list (list A) :=
  match n with
  | O => []
  | S n' =>
    let (flat', s') := np_random_shuffle flat s in
    flat' :: perm_pools n' flat' s'
  end.

Definition perm_iterates (n : nat) (sizes : list nat) (flat : list A) (s : rng)
  : list (list (list A)) :=
  map (fun pool => regroup pool sizes) (perm_pools n flat s).

Fixpoint count_hits (two_sided : bool) (t_obs : F)
         (iterates : list (list (list A))) : result Z :=
  match iterates with
  | [] => Ok 0%Z
  | res :: rest =>
    match stat_func res with
    | Raise e => Raise e
    | Ok t =>
      match count_hits two_sided t_obs rest with
      | Raise e => Raise e
      | Ok c => Ok (b2z (hit two_sided t t_obs) + c)%Z
      end
    end
  end.

(** The generator state once [random_seed] has been handled. *)
Definition seeded (random_seed : option Z) (s : rng) : rng :=
  match random_seed with
  | Some z => np_random_seed z
  | None => s
  end.
End Bootstrap.
End bootstrap.

(* ------------------------------------------------------------------ *)
(** ** tests.py *)

(** [np.unique] on integer labels: the sorted distinct values. *)
Fixpoint insert_unique (z : Z) (l : list Z) : list Z :=
  match l with
  | [] => [z]
  | h :: t =>
    if (z <? h)%Z then z :: l
    else if (z =? h)%Z then l
    else h :: insert_unique z t
  end.

Definition np_unique (l : list Z) : list Z := fold_right insert_unique [] l.

Definition count_label (z : Z) (arr : list Z) : Z :=
  Z.of_nat (length (filter (Z.eqb z) arr)).

Module tests.

Record TTestResult (F : Type) : Type := {
  N_x : nat; N_y : nat;
  Mean_x : F; Mean_y : F;
  t_stat : F; p_classic : F;
  p_perm : F
}.

Record AnovaResult (F : Type) : Type := {
  f_statistic : F; anova_p_parametric : F; anova_p_perm : F
}.

Record Chi2Result (F : Type) : Type := {
  chi2_statistic : F; chi2_p_parametric : F; chi2_p_perm : F
}.

Section Tests.
Context {F : Type} `{Float64 F} `{RandomState} `{SciPyStats F}.
Local Open Scope num_scope.
Local Open Scope monad_scope.

(** [lambda groups: ttest_ind(groups[0], groups[1], equal_var=equal_var)[0]] *)
Definition ttest_stat_func (equal_var : bool) (groups : list (list F)) : result F :=
  match groups with
  | g0 :: g1 :: _ => Ok (fst (ttest_ind g0 g1 equal_var))
  | _ => Raise IndexError
  end.

Definition ttest_two_samples (x y : list F) (equal_var : bool)
           (num_permutations : Z) : M (TTestResult F) :=
  let (t_stat, p_classic) := ttest_ind x y equal_var in
  let stat_func := ttest_stat_func equal_var in
  p_perm <- bootstrap.permutation_pvalue stat_func [x; y] num_permutations
              false None ;;
  ret {| N_x := length x; N_y := length y;
         Mean_x := np_mean x; Mean_y := np_mean y;
         t_stat := t_stat; p_classic := p_classic;
         p_perm := p_perm |}.

Definition _f_statistic (groups : list (list F)) : result F :=
  let k := Z.of_nat (length groups) in
  let N := Z.of_nat (sum_sizes (map (@length F) groups)) in
  match np_concatenate groups with
  | Raise e => Raise e
  | Ok all_data =>
    let grand_mean := np_mean all_data in
    let ss_between :=
      py_sum (map (fun a => f_of_Z (Z.of_nat (length a))
                            * sq (np_mean a - grand_mean)) groups) in
    let ss_within := py_sum (map sum_sq_dev groups) in
    let ms_between := ss_between / f_of_Z (k - 1) in
    let ms_within := ss_within / f_of_Z (N - k) in
    Ok (ms_between / ms_within)
  end.

Definition anova_oneway (groups : list (list F)) (num_permutations : Z)
           (random_seed : option Z) : M (AnovaResult F) :=
  fp <- lift (f_oneway groups) ;;
  p_perm <- bootstrap.permutation_pvalue _f_statistic groups num_permutations
              false random_seed ;;
  ret {| f_statistic := fst fp; anova_p_parametric := snd fp;
         anova_p_perm := p_perm |}.

(** The contingency table: one row per group, one column per level. *)
Definition contingency_table (groups : list (list Z)) : result (list (list Z)) :=
  match np_concatenate groups with
  | Raise e => Raise e
  | Ok all_labels =>
    let levels := np_unique all_labels in
    Ok (map (fun arr => map (fun lvl => count_label lvl arr) levels) groups)
  end.

Definition _chi2_statistic (groups : list (list Z)) : result F :=
  match contingency_table groups with
  | Raise e => Raise e
  | Ok table =>
    match chi2_contingency table with
    | Raise e => Raise e
    | Ok (chi2, _) => Ok chi2
    end
  end.

Definition chi2_independence (groups : list (list Z)) (num_permutations : Z)
           (random_seed : option Z) : M (Chi2Result F) :=
  chi2_stat <- lift (_chi2_statistic groups) ;;
  table <- lift (contingency_table groups) ;;
  cp <- lift (chi2_contingency table) ;;
  p_perm <- bootstrap.permutation_pvalue _chi2_statistic groups num_permutations
              false random_seed ;;
  ret {| chi2_statistic := chi2_stat; chi2_p_parametric := snd cp;
         chi2_p_perm := p_perm |}.
End Tests.
End tests.

(* ------------------------------------------------------------------ *)
(** ** Tables

    A [DataFrame] is a list of rows; a row gives the value of each column by
    name.  Slot names are strings, event counts are integers, the other
    columns are floats (possibly NaN). *)

Record obs (F : Type) : Type := {
  str_col : string -> string;
  int_col : string -> Z;
  num_col : string -> F
}.

Record DataFrame (F : Type) : Type := {
  columns : list string;
  records : list (obs F)
}.

(** [df[time_col].isin(top_times)] on one row. *)
Definition isin {F} (time_col : string) (top_times : list string) (r : obs F) : bool :=
  existsb (String.eqb (str_col r time_col)) top_times.

(** [f"cat_{c}_event_count"] *)
Definition cat_col (c : string) : string := "cat_" ++ c ++ "_event_count".

(** A Python [dict] with string keys, in insertion order. *)
Fixpoint dict_set {V} (k : string) (v : V) (d : list (string * V)) : list (string * V) :=
  match d with
  | [] => [(k, v)]
  | (k', v') :: t =>
    if String.eqb k k' then (k', v) :: t else (k', v') :: dict_set k v t
  end.

(** [{key: f(key) for key in keys}] *)
Definition dict_comprehension {V} (f : string -> V) (keys : list string)
  : list (string * V) :=
  fold_left (fun d k => dict_set k (f k) d) keys [].

(* ------------------------------------------------------------------ *)
(** ** wrapper.py *)

Module wrapper.

Record CategoryAnova (F : Type) : Type := {
  anova : tests.AnovaResult F;
  num_groups : nat;
  group_sizes : list (string * nat)
}.

(** One row of the table of [show_category_ttests]. *)
Record CatRow (F : Type) : Type := {
  Category : string;
  N_with : nat; N_baseline : nat;
  Mean_with : F; Mean_baseline : F;
  t_stat : F; p_perm : F; Cohen_d : F
}.

Record HolmRow (F : Type) : Type := { row : CatRow F; p_perm_holm : F }.

(** One row of the table of [show_news_ttests]: the slot and the dict of
    [ttest_two_samples]. *)
Record NewsRow (F : Type) : Type := { Time : string; stats : tests.TTestResult F }.

Inductive threshold (F : Type) : Type :=
| Median                  (* absret_threshold == "median" *)
| Value (x : F).          (* float(absret_threshold) *)

Arguments Median {F}.
Arguments Value {F} x.

Section Wrapper.
Context {F : Type} `{Float64 F} `{RandomState} `{SciPyStats F} `{Sqrt F}.
Local Open Scope num_scope.
Local Open Scope monad_scope.

Variable df : DataFrame F.
Variable top_times : list string.
Variables return_col event_col time_col : string.
Variable num_permutations : Z.

Let in_top (r : obs F) : bool := isin time_col top_times r.

(** [df.loc[mask, return_col].dropna().to_numpy()] *)
Definition returns_where (mask : obs F -> bool) (rows : list (obs F)) : list F :=
  dropna (map (fun r => num_col r return_col) (filter mask rows)).

(** *** show_category_anova *)

Definition n_cat_active (categories : list string) (r : obs F) : nat :=
  length (filter (fun c => (int_col r (cat_col c) >? 0)%Z) categories).

(** [_dominant]: the first active category, [None] for NaN. *)
Definition _dominant (categories : list string) (r : obs F) : option string :=
  find (fun c => (int_col r (cat_col c) >? 0)%Z) categories.

Definition is_dominant (categories : list string) (cat : string) (r : obs F) : bool :=
  match _dominant categories r with
  | Some c => String.eqb c cat
  | None => false
  end.

(** The groups handed to [anova_oneway], or the [ValueError]. *)
Definition anova_groups (categories : list string)
  : result (list (string * list F)) :=
  let df_news :=
    filter (fun r => in_top r && (int_col r event_col >? 0)%Z) (records df) in
  let df_one :=
    filter (fun r => Nat.eqb (n_cat_active categories r) 1) df_news in
  let groups_dict :=
    dict_comprehension
      (fun cat => returns_where (is_dominant categories cat) df_one)
      categories in
  let groups_dict := filter (fun kv => Nat.ltb 1 (length (snd kv))) groups_dict in
  if Nat.ltb (length groups_dict) 2
  then Raise (ValueError "Need at least two categories with >=2 observations each.")
  else Ok groups_dict.

Definition show_category_anova (categories : list string)
           (random_seed : option Z) : M (CategoryAnova F) :=
  groups_dict <- lift (anova_groups categories) ;;
  let groups := map snd groups_dict in
  res <- tests.anova_oneway groups num_permutations random_seed ;;
  ret {| anova := res;
         num_groups := length groups_dict;
         group_sizes := map (fun kv => (fst kv, length (snd kv))) groups_dict |}.

(** *** show_category_ttests *)

Variable equal_var : bool.

Definition baseline : list F :=
  returns_where (fun r => in_top r && (int_col r event_col =? 0)%Z) (records df).

Definition cat_group (cat : string) : list F :=
  returns_where (fun r => in_top r && (int_col r (cat_col cat) >? 0)%Z) (records df).

(** [(Mean_x - Mean_y) / np.sqrt((group.var(ddof=1) + baseline.var(ddof=1)) / 2)] *)
Definition cohen_d (mean_x mean_y : F) (group base : list F) : F :=
  (mean_x - mean_y) / np_sqrt ((np_var1 group + np_var1 base) / f_of_Z 2).

(** The loop [for cat in categories] that fills [rows]. *)
Fixpoint ttest_rows (categories : list string) : M (list (CatRow F)) :=
  match categories with
  | [] => ret []
  | cat :: rest =>
    let group := cat_group cat in
    if Nat.leb 5 (length group) && Nat.leb 5 (length baseline) then
      stats <- tests.ttest_two_samples group baseline equal_var num_permutations ;;
      rows <- ttest_rows rest ;;
      ret ({| Category := cat;
              N_with := length group;
              N_baseline := length baseline;
              Mean_with := tests.Mean_x stats;
              Mean_baseline := tests.Mean_y stats;
              t_stat := tests.t_stat stats;
              p_perm := tests.p_perm stats;
              Cohen_d := cohen_d (tests.Mean_x stats) (tests.Mean_y stats)
                                 group baseline |} :: rows)
    else ttest_rows rest
  end.

(** [DataFrame.round(6)]: every float column is rounded. *)
Definition round_row (d : Z) (r : CatRow F) : CatRow F :=
  {| Category := Category r;
     N_with := N_with r; N_baseline := N_baseline r;
     Mean_with := np_round d (Mean_with r);
     Mean_baseline := np_round d (Mean_baseline r);
     t_stat := np_round d (t_stat r);
     p_perm := np_round d (p_perm r);
     Cohen_d := np_round d (Cohen_d r) |}.

(** [m - np.arange(m)] *)
Definition holm_factors (m : nat) : list Z :=
  map (fun i => (Z.of_nat m - Z.of_nat i)%Z) (seq 0 m).

(** [np.minimum(1, p_sorted * holm_factors)] *)
Definition holm_p (p_sorted : list F) : list F :=
  map (fun pf => np_minimum (f_of_Z 1) (fst pf * f_of_Z (snd pf)))
      (combine p_sorted (holm_factors (length p_sorted))).

(** The table [res] with its column [p_perm_holm]. *)
Definition holm_table (rows : list (CatRow F)) : list (HolmRow F) :=
  let res := sort_values (@p_perm F) (map (round_row 6) rows) in
  map (fun rp => {| row := fst rp; p_perm_holm := snd rp |})
      (combine res (holm_p (map (@p_perm F) res))).

(** Holm's adjustment of a family of raw p-values, as the table applies it
    to its column [p_perm]. *)
Definition holm_adjust (p_raw : list F) : list F :=
  holm_p (sort_values (fun p => p) p_raw).

(** Returns the displayed table and the significant categories. *)
Definition show_category_ttests (categories : list string) (alpha : F)
  : M (list (HolmRow F) * list string) :=
  rows <- ttest_rows categories ;;
  match rows with
  | [] => raise (ValueError "No category had >=5 observations in both groups.")
  | _ =>
    let res := holm_table rows in
    let sig_cats :=
      map (fun r => Category (row r))
          (filter (fun r => p_perm_holm r <? alpha) res) in
    ret (res, sig_cats)
  end.

(** *** show_priority_return_chi2 *)

(** [max((prio_map[c] for c in prio_map if r[...] > 0), default=np.nan)] *)
Definition news_prio (prio_map : list (string * Z)) (r : obs F) : option Z :=
  fold_left
    (fun acc cp =>
       if (int_col r (cat_col (fst cp)) >? 0)%Z then
         match acc with
         | None => Some (snd cp)
         | Some m => Some (Z.max m (snd cp))
         end
       else acc)
    prio_map None.

(** [rows[return_col] if return_col in rows else rows["Return"].abs()] *)
Definition abs_ret (r : obs F) : F :=
  if existsb (String.eqb return_col) (columns df)
  then num_col r return_col
  else f_abs (num_col r "Return").

(** The rows of the target slots. *)
Definition slot_rows : list (obs F) := filter in_top (records df).

Definition high_threshold (absret_threshold : threshold F) : F :=
  match absret_threshold with
  | Median => median (map abs_ret slot_rows)
  | Value x => x
  end.

(** [(abs_ret >= thr).astype(int)] *)
Definition HighAbsRet (thr : F) (r : obs F) : Z := b2z (abs_ret r >=? thr).

Definition has_prio (prio_map : list (string * Z)) (prio : Z) (r : obs F) : bool :=
  match news_prio prio_map r with
  | Some p => (p =? prio)%Z
  | None => false
  end.

(** The groups handed to [chi2_independence]. *)
Definition priority_groups (prio_map : list (string * Z))
           (absret_threshold : threshold F) : list (list Z) :=
  let rows := slot_rows in
  let thr := high_threshold absret_threshold in
  (* the column HighAbsRet is computed on every row, then rows without a
     priority are dropped *)
  let flagged := map (fun r => (r, HighAbsRet thr r)) rows in
  let kept :=
    filter (fun rh => match news_prio prio_map (fst rh) with
                      | Some _ => true | None => false end) flagged in
  let prios :=
    np_unique (flat_map (fun rh => match news_prio prio_map (fst rh) with
                                   | Some p => [p] | None => [] end) kept) in
  map (fun prio =>
         map snd (filter (fun rh => has_prio prio_map prio (fst rh)) kept))
      prios.

Definition show_priority_return_chi2 (prio_map : list (string * Z))
           (absret_threshold : threshold F) (random_seed : option Z)
  : M (tests.Chi2Result F) :=
  tests.chi2_independence (priority_groups prio_map absret_threshold)
                          num_permutations random_seed.

(** *** show_news_ttests *)

(** The mask of one entry of [top_times + ["All Times"]]. *)
Definition slot_mask (slot : string) (r : obs F) : bool :=
  if String.eqb slot "All Times" then in_top r
  else String.eqb (str_col r time_col) slot.

Definition with_news (slot : string) : list F :=
  returns_where (fun r => slot_mask slot r && (int_col r event_col >? 0)%Z)
                (records df).

Definition no_news (slot : string) : list F :=
  returns_where (fun r => slot_mask slot r && (int_col r event_col =? 0)%Z)
                (records df).

(** The loop [for slot in groups] that fills [rows]. *)
Fixpoint news_rows (groups : list string) : M (list (NewsRow F)) :=
  match groups with
  | [] => ret []
  | slot :: rest =>
    stats <- tests.ttest_two_samples (with_news slot) (no_news slot)
                                     equal_var num_permutations ;;
    rows <- news_rows rest ;;
    ret ({| Time := slot; stats := stats |} :: rows)
  end.

(** [DataFrame.round(6)]: the sample sizes are integers and stay as they
    are. *)
Definition round_news_row (d : Z) (r : NewsRow F) : NewsRow F :=
  {| Time := Time r;
     stats :=
       {| tests.N_x := tests.N_x (stats r);
          tests.N_y := tests.N_y (stats r);
          tests.Mean_x := np_round d (tests.Mean_x (stats r));
          tests.Mean_y := np_round d (tests.Mean_y (stats r));
          tests.t_stat := np_round d (tests.t_stat (stats r));
          tests.p_classic := np_round d (tests.p_classic (stats r));
          tests.p_perm := np_round d (tests.p_perm (stats r)) |} |}.

(** [(res.index != "All Times") & (res["p_val_perm_t"] < alpha)] *)
Definition significant_slot (alpha : F) (r : NewsRow F) : bool :=
  negb (String.eqb (Time r) "All Times") && (tests.p_perm (stats r) <? alpha).

(** Returns the displayed table and the significant slots. *)
Definition show_news_ttests (alpha : F) : M (list (NewsRow F) * list string) :=
  rows <- news_rows (top_times ++ ["All Times"]) ;;
  let res := map (round_news_row 6) rows in
  let sig_times := map (@Time F) (filter (significant_slot alpha) res) in
  ret (res, sig_times).
End Wrapper.
End wrapper.

(* ------------------------------------------------------------------ *)
(** ** calculate.py *)

(** [f"{n:,}"]: decimal digits in groups of three. *)
Fixpoint group_thousands (rev_digits : list Ascii.ascii) (acc : string) : string :=
  match rev_digits with
  | a :: b :: c :: ((_ :: _) as rest) =>
    group_thousands rest ("," ++ String c (String b (String a acc)))
  | _ => fold_left (fun s ch => String ch s) rev_digits acc
  end.

Definition format_thousands (z : Z) : string :=
  let digits :=
    NilZero.string_of_uint (N.to_uint (Z.to_N (Z.abs z))) in
  let body := group_thousands (rev (list_ascii_of_string digits)) "" in
  if (z <? 0)%Z then "-" ++ body else body.

Module calculate.

(** The dict returned by [_classic_ci] and [_bootstrap_ci]. *)
Record CI (F : Type) : Type := {
  mean : F; ci_lower : F; ci_upper : F; n_obs : nat
}.

(** One row of the table of [confidence_intervals]. *)
Record CIRow (F : Type) : Type := {
  Group : string; series : string; method : string; ci : CI F
}.

Section Calculate.
Context {F : Type} `{Float64 F} {RS : RandomState} `{Sqrt F}
        {RE : @Resampling F RS}.
Local Open Scope num_scope.
Local Open Scope monad_scope.

Variable df : DataFrame F.
Variable top_times : list string.
Variables event_col time_col : string.
Variable confidence : F.
Variable n_bootstrap : Z.

Definition nan_ci (n : nat) : CI F :=
  {| mean := f_nan; ci_lower := f_nan; ci_upper := f_nan; n_obs := n |}.

Definition _classic_ci (arr : list F) : CI F :=
  let n := length arr in
  if Nat.ltb n 2 then nan_ci n
  else
    let alpha := f_of_Z 1 - confidence in
    let z := norm_ppf (f_of_Z 1 - alpha / f_of_Z 2) in
    let s := np_sqrt (np_var1 arr) in                 (* arr.std(ddof=1) *)
    let half := z * s / np_sqrt (f_of_Z (Z.of_nat n)) in
    {| mean := np_mean arr;
       ci_lower := np_mean arr - half;
       ci_upper := np_mean arr + half;
       n_obs := n |}.

Definition _bootstrap_ci (arr : list F) : M (CI F) :=
  let n := length arr in
  if Nat.eqb n 0 then ret (nan_ci 0)
  else
    let alpha := f_of_Z 1 - confidence in
    samples <- np_random_choice arr n_bootstrap n ;;
    let boot_means := map np_mean samples in
    q <- lift (np_quantile boot_means
                 [alpha / f_of_Z 2; f_of_Z 1 - alpha / f_of_Z 2]) ;;
    match q with
    | [low; high] =>
      ret {| mean := np_mean arr; ci_lower := low; ci_upper := high; n_obs := n |}
    | _ => raise (ValueError "wrong number of values to unpack")
    end.

Let in_top (r : obs F) : bool := isin time_col top_times r.

(** The dict [masks], in insertion order. *)
Definition masks : list (string * (obs F -> bool)) :=
  [ ("With News", fun r => in_top r && (int_col r event_col >? 0)%Z);
    ("Without News", fun r => in_top r && (int_col r event_col =? 0)%Z);
    ("All Times", in_top) ].

(** [df.loc[mask, col].dropna().to_numpy()] *)
Definition column_data (mask : obs F -> bool) (col : string) : list F :=
  dropna (map (fun r => num_col r col) (filter mask (records df))).

Definition bootstrap_label : string :=
  "Bootstrap (" ++ format_thousands n_bootstrap ++ ")".

(** The pairs visited by [for grp, mask in masks.items(): for col in cols]. *)
Definition visits (cols : list string)
  : list ((string * (obs F -> bool)) * string) :=
  flat_map (fun gm => map (fun col => (gm, col)) cols) masks.

(** The body of the double loop, over the pairs still to visit. *)
Fixpoint ci_rows (todo : list ((string * (obs F -> bool)) * string))
  : M (list (CIRow F)) :=
  match todo with
  | [] => ret []
  | ((grp, mask), col) :: rest =>
    let data := column_data mask col in
    let classic :=
      {| Group := grp; series := col; method := "Classical";
         ci := _classic_ci data |} in
    b <- _bootstrap_ci data ;;
    let boot :=
      {| Group := grp; series := col; method := bootstrap_label; ci := b |} in
    rows <- ci_rows rest ;;
    ret (classic :: boot :: rows)
  end.

(** [DataFrame.round(4)] on the float columns. *)
Definition round_ci_row (d : Z) (r : CIRow F) : CIRow F :=
  {| Group := Group r; series := series r; method := method r;
     ci := {| mean := np_round d (mean (ci r));
              ci_lower := np_round d (ci_lower (ci r));
              ci_upper := np_round d (ci_upper (ci r));
              n_obs := n_obs (ci r) |} |}.

(** The order of [sort_values(["series", "Group", "method"])]. *)
Definition row_le (a b : CIRow F) : bool :=
  match String.compare (series a) (series b) with
  | Lt => true
  | Gt => false
  | Eq =>
    match String.compare (Group a) (Group b) with
    | Lt => true
    | Gt => false
    | Eq => String.leb (method a) (method b)
    end
  end.

Definition confidence_intervals (cols : list string) : M (list (CIRow F)) :=
  rows <- ci_rows (visits cols) ;;
  ret (insertion_sort row_le (map (round_ci_row 4) rows)).
End Calculate.
End calculate.

(* ------------------------------------------------------------------ *)
(** ** data_prep_utils.py *)

Module data_prep_utils.
Local Open Scope Z_scope.

(** A timestamp without time zone: [NaT], or the time in nanoseconds since
    the epoch. *)
Inductive Timestamp : Type :=
| NaT
| At (value : Z).

Definition ns_per_us : Z := 1000.
Definition ns_per_second : Z := 1000000000.
Definition ns_per_minute : Z := 60000000000.
Definition ns_per_hour : Z := 3600000000000.

(** The fields [ts.minute], [ts.second], [ts.microsecond], and the
    nanoseconds below the microsecond. *)
Definition minute (v : Z) : Z := (v / ns_per_minute) mod 60.
Definition second (v : Z) : Z := (v / ns_per_second) mod 60.
Definition microsecond (v : Z) : Z := (v / ns_per_us) mod 1000000.
Definition nanosecond (v : Z) : Z := v mod ns_per_us.

(** [ts.replace(minute=m, second=0, microsecond=0)]: the date, the hour and
    the nanoseconds are kept. *)
Definition replace_minute (m : Z) (v : Z) : Z :=
  v - minute v * ns_per_minute - second v * ns_per_second
    - microsecond v * ns_per_us + m * ns_per_minute.

Section Bounds.
(** The values that a timestamp can hold; at nanosecond resolution these
    are [Timestamp.min.value] and [Timestamp.max.value]. *)
Variables min_value max_value : Z.

(** A timestamp outside of the bounds cannot be built: pandas raises. *)
Definition checked (v : Z) : option Timestamp :=
  if (min_value <=? v) && (v <=? max_value) then Some (At v) else None.

Definition round_up_to_next_half_hour (timestamp : Timestamp) : option Timestamp :=
  match timestamp with
  | NaT => Some NaT
  | At v =>
    if ((minute v =? 0) || (minute v =? 30))
       && (second v =? 0) && (microsecond v =? 0)
    then Some (At v)
    else if minute v <? 30 then checked (replace_minute 30 v)
    else
      match checked (replace_minute 0 v) with
      | Some (At w) => checked (w + ns_per_hour)
      | _ => None
      end
  end.
End Bounds.

(** The column [Return] of [process_chart_data], for one row. *)
Definition chart_return {F : Type} `{Float64 F} (open high low : F) : F :=
  let price_down := f_abs (f_sub open low) in
  let price_up := f_abs (f_sub high open) in
  if f_lt price_up price_down
  then f_mul (f_div (f_sub low open) open) (f_of_Z 100)
  else f_mul (f_div (f_sub high open) open) (f_of_Z 100).

(** The column [|Return|]. *)
Definition chart_abs_return {F : Type} `{Float64 F} (open high low : F) : F :=
  f_abs (chart_return open high low).
End data_prep_utils.

(* ------------------------------------------------------------------ *)
(** ** Instance 1: IEEE binary64 *)

Module Binary64.
Local Open Scope float_scope.

(** Conversion of an integer below [2^63] in absolute value. *)
Definition of_Z (z : Z) : float :=
  match z with
  | Z0 => 0
  | Zpos _ => PrimFloat.of_uint63 (Uint63.of_Z z)
  | Zneg p => - PrimFloat.of_uint63 (Uint63.of_Z (Zpos p))
  end.

Definition minimum (x y : float) : float :=
  if PrimFloat.is_nan x then x
  else if PrimFloat.is_nan y then y
  else if y <? x then y else x.

(** [np.rint]: to the nearest integer, ties to even. *)
Definition rint (x : float) : float :=
  if PrimFloat.abs x <? 0x1p52 then
    if x <? 0 then - ((- x + 0x1p52) - 0x1p52) else (x + 0x1p52) - 0x1p52
  else x.

(** [np.round(x, d)]: scale by a power of ten, [rint], scale back. *)
Definition round (d : Z) (x : float) : float :=
  if PrimFloat.is_nan x then x
  else if (0 <=? d)%Z then rint (x * of_Z (10 ^ d)) / of_Z (10 ^ d)
  else rint (x / of_Z (10 ^ (- d))) * of_Z (10 ^ (- d)).

#[export] Instance float64 : Float64 float := {|
  f_nan := PrimFloat.nan;
  f_of_Z := of_Z;
  f_add := PrimFloat.add;
  f_sub := PrimFloat.sub;
  f_mul := PrimFloat.mul;
  f_div := PrimFloat.div;
  f_abs := PrimFloat.abs;
  f_ge := fun x y => y <=? x;
  f_lt := PrimFloat.ltb;
  f_isnan := PrimFloat.is_nan;
  np_minimum := minimum;
  np_round := round
|}.

#[export] Instance sqrt : Sqrt float := {| np_sqrt := PrimFloat.sqrt |}.
End Binary64.

(* ------------------------------------------------------------------ *)
(** ** Instance 2: exact arithmetic

    Rationals extended with NaN and the two infinities.  Finite results are
    kept in lowest terms, so that equal values are equal terms. *)

Module Exact.
Inductive xq : Type :=
| Fin (q : Q)
| NaN
| PInf
| NInf.

Definition fin (q : Q) : xq := Fin (Qred q).

Definition neg (x : xq) : xq :=
  match x with
  | Fin q => fin (- q)
  | NaN => NaN
  | PInf => NInf
  | NInf => PInf
  end.

Definition add (x y : xq) : xq :=
  match x, y with
  | NaN, _ | _, NaN => NaN
  | Fin a, Fin b => fin (a + b)
  | PInf, NInf | NInf, PInf => NaN
  | PInf, _ | _, PInf => PInf
  | NInf, _ | _, NInf => NInf
  end.

Definition sub (x y : xq) : xq := add x (neg y).

(** Sign of a value: the sign of zero is lost in exact arithmetic. *)
Definition sgn (x : xq) : comparison :=
  match x with
  | Fin q => (0 ?= q)%Q
  | PInf => Lt
  | NInf => Gt
  | NaN => Eq
  end.

Definition inf_of (c : comparison) : xq :=
  match c with Lt => PInf | Gt => NInf | Eq => NaN end.

Definition sgn_mul (a b : comparison) : comparison :=
  match a, b with
  | Eq, _ | _, Eq => Eq
  | Lt, Lt | Gt, Gt => Lt
  | Lt, Gt | Gt, Lt => Gt
  end.

Definition mul (x y : xq) : xq :=
  match x, y with
  | NaN, _ | _, NaN => NaN
  | Fin a, Fin b => fin (a * b)
  | _, _ => inf_of (sgn_mul (sgn x) (sgn y))
  end.

Definition div (x y : xq) : xq :=
  match x, y with
  | NaN, _ | _, NaN => NaN
  | Fin a, Fin b =>
    if Qeq_bool b 0 then inf_of (sgn x) else fin (a / b)
  | Fin _, _ => Fin 0
  | _, Fin b => if Qeq_bool b 0 then x else inf_of (sgn_mul (sgn x) (sgn y))
  | _, _ => NaN
  end.

Definition abs (x : xq) : xq :=
  match x with
  | Fin q => fin (Qabs q)
  | NaN => NaN
  | _ => PInf
  end.

Definition ge (x y : xq) : bool :=
  match x, y with
  | NaN, _ | _, NaN => false
  | Fin a, Fin b => Qle_bool b a
  | PInf, _ | _, NInf => true
  | _, _ => false
  end.

Definition lt (x y : xq) : bool :=
  match x, y with
  | NaN, _ | _, NaN => false
  | _, _ => negb (ge x y)
  end.

Definition isnan (x : xq) : bool :=
  match x with NaN => true | _ => false end.

Definition minimum (x y : xq) : xq :=
  match x, y with
  | NaN, _ | _, NaN => NaN
  | _, _ => if lt y x then y else x
  end.

(** Nearest integer, ties to even. *)
Definition rint (q : Q) : Z :=
  let f := Qfloor q in
  match (q - inject_Z f ?= 1 # 2)%Q with
  | Lt => f
  | Gt => (f + 1)%Z
  | Eq => if Z.even f then f else (f + 1)%Z
  end.

Definition round (d : Z) (x : xq) : xq :=
  match x with
  | Fin q =>
    if (0 <=? d)%Z
    then fin (inject_Z (rint (q * inject_Z (10 ^ d))) / inject_Z (10 ^ d))
    else fin (inject_Z (rint (q / inject_Z (10 ^ (- d)))) * inject_Z (10 ^ (- d)))
  | _ => x
  end.

#[export] Instance float64 : Float64 xq := {|
  f_nan := NaN;
  f_of_Z := fun z => Fin (inject_Z z);
  f_add := add;
  f_sub := sub;
  f_mul := mul;
  f_div := div;
  f_abs := abs;
  f_ge := ge;
  f_lt := lt;
  f_isnan := isnan;
  np_minimum := minimum;
  np_round := round
|}.
End Exact.

(* ------------------------------------------------------------------ *)
(** ** Reference instances of the library functions

    They make the embedded code run on concrete data.  The statistics follow
    the textbook formulas that SciPy implements; the classical p-values need
    the cumulative distribution functions of Student's t, F and chi-square,
    which are outside this development: the reference instance reports them
    as NaN, and nothing below reads them. *)

Section Textbook.
Context {F : Type} `{Float64 F} `{Sqrt F}.
Local Open Scope num_scope.

Definition size_of (a : list F) : F := f_of_Z (Z.of_nat (length a)).

(** Welch's statistic, or Student's with the pooled variance. *)
Definition t_statistic (x y : list F) (equal_var : bool) : F :=
  let v1 := np_var1 x in
  let v2 := np_var1 y in
  let n1 := size_of x in
  let n2 := size_of y in
  let denom :=
    if equal_var then
      let dof := n1 + n2 - f_of_Z 2 in
      let svar := ((n1 - f_of_Z 1) * v1 + (n2 - f_of_Z 1) * v2) / dof in
      np_sqrt (svar * (f_of_Z 1 / n1 + f_of_Z 1 / n2))
    else np_sqrt (v1 / n1 + v2 / n2) in
  (np_mean x - np_mean y) / denom.

(** Pearson's statistic of a table of counts; SciPy refuses a table with a
    zero expected frequency. *)
Definition pearson_chi2 (table : list (list Z)) : result F :=
  let zsum := fold_right Z.add 0%Z in
  let row_sums := map zsum table in
  let ncols := fold_right Nat.max 0 (map (@length Z) table) in
  let col_sums :=
    map (fun j => zsum (map (fun r => nth j r 0%Z) table)) (seq 0 ncols) in
  let total := zsum row_sums in
  if existsb (Z.eqb 0) row_sums || existsb (Z.eqb 0) col_sums then
    Raise (ValueError "The internally computed table of expected frequencies has a zero element.")
  else
    Ok (py_sum
          (flat_map
             (fun ri =>
                map (fun cj =>
                       let expected :=
                         f_of_Z (snd ri) * f_of_Z (snd cj) / f_of_Z total in
                       let observed := f_of_Z (nth (fst cj) (fst ri) 0%Z) in
                       sq (observed - expected) / expected)
                    (combine (seq 0 ncols) col_sums))
             (combine table row_sums))).

Definition textbook_stats : SciPyStats F := {|
  ttest_ind := fun x y equal_var => (t_statistic x y equal_var, f_nan);
  f_oneway := fun groups =>
    if Nat.ltb (length groups) 2
    then Raise (TypeError "at least two inputs are required")
    else match tests._f_statistic groups with
         | Ok f => Ok (f, f_nan)
         | Raise e => Raise e
         end;
  chi2_contingency := fun table =>
    match pearson_chi2 table with
    | Ok c => Ok (c, f_nan)
    | Raise e => Raise e
    end
|}.
End Textbook.

(** A small deterministic generator: the state is an integer advanced by a
    linear congruence, and a shuffle rotates the array by the state. *)
Module Rotation.
Definition step (s : Z) : Z := ((1103515245 * s + 12345) mod 2147483648)%Z.

Definition rotate {A} (k : nat) (l : list A) : list A := skipn k l ++ firstn k l.

Definition rotate_by {A} (l : list A) (s : Z) : list A * Z :=
  (rotate (Z.to_nat (s mod Z.of_nat (length l))) l, step s).

Lemma rotate_Permutation {A} (k : nat) (l : list A) : Permutation (rotate k l) l.
Proof.
  unfold rotate.
  rewrite <- (firstn_skipn k l) at 3.
  apply Permutation_app_comm.
Qed.

#[export] Instance random_state : RandomState := {|
  rng := Z;
  np_random_seed := fun z => Z.abs z;
  np_random_shuffle := fun A l s => rotate_by l s;
  shuffle_Permutation := fun A l s => rotate_Permutation _ l
|}.

(** [rows * cols] draws with replacement. *)
Fixpoint draws {X} (arr : list X) (d : X) (k : nat) (s : Z) : list X * Z :=
  match k with
  | O => ([], s)
  | S k' =>
    let x := nth (Z.to_nat (s mod Z.of_nat (length arr))) arr d in
    let (rest, s') := draws arr d k' (step s) in
    (x :: rest, s')
  end.

Fixpoint choice_rows {X} (arr : list X) (d : X) (rows cols : nat) (s : Z)
  : list (list X) * Z :=
  match rows with
  | O => ([], s)
  | S r' =>
    let (row, s1) := draws arr d cols s in
    let (rest, s2) := choice_rows arr d r' cols s1 in
    (row :: rest, s2)
  end.
End Rotation.

Module Reference.
Import Binary64 Rotation.
Local Open Scope float_scope.

#[export] Instance scipy_stats : SciPyStats float := textbook_stats.

(** The integer part of a non-negative float. *)
Definition floor_nat (x : float) : nat :=
  match Prim2SF x with
  | S754_finite false m e =>
    Z.to_nat (if (0 <=? e)%Z then Z.shiftl (Zpos m) e else Z.shiftr (Zpos m) (- e))
  | _ => 0%nat
  end.

(** [np.quantile] with linear interpolation between order statistics. *)
Definition quantile_linear (sorted : list float) (q : float) : float :=
  let n := length sorted in
  let h := q * of_Z (Z.of_nat n - 1) in
  let j := floor_nat h in
  let lo := nth j sorted nan in
  let hi := nth (Nat.min (j + 1) (n - 1)) sorted nan in
  lo + (hi - lo) * (h - of_Z (Z.of_nat j)).

(** Standard normal quantiles, tabulated at the usual levels. *)
Definition normal_quantile (p : float) : float :=
  if p =? 0.5 then 0
  else if p =? 0.95 then 1.6448536269514722
  else if p =? 0.975 then 1.959963984540054
  else if p =? 0.995 then 2.5758293035489004
  else nan.

#[export] Instance resampling : Resampling float := {|
  np_random_choice := fun arr rows cols s =>
    if (rows <? 0)%Z
    then (Raise (ValueError "negative dimensions are not allowed"), s)
    else let (m, s') := choice_rows arr nan (Z.to_nat rows) cols s in (Ok m, s');
  np_quantile := fun a qs =>
    match a with
    | [] => Raise IndexError
    | _ => Ok (map (quantile_linear (sort_values (fun x => x) a)) qs)
    end;
  norm_ppf := normal_quantile
|}.
End Reference.

(* ------------------------------------------------------------------ *)
(** ** Sample tables, for concrete runs *)

Module Sample.
Import Binary64.
Local Open Scope float_scope.

(** A row of a table with the columns [time], [event_count], [|Return|] and
    one event count per category. *)
Definition mk_row (slot : string) (events : Z) (cat_events : list (string * Z))
           (ret : float) : obs float :=
  {| str_col := fun _ => slot;
     int_col := fun c =>
       if String.eqb c "event_count" then events
       else match find (fun kv => String.eqb (cat_col (fst kv)) c) cat_events with
            | Some kv => snd kv
            | None => 0%Z
            end;
     num_col := fun _ => ret |}.

(** Five rows with macro news, seven rows without any news, one slot. *)
Definition news_table : DataFrame float :=
  {| columns := ["time"; "event_count"; "cat_macro_event_count"; "|Return|"];
     records := map (mk_row "09:00" 1 [("macro", 1%Z)]) [2; 4; 6; 8; 10]
                ++ map (mk_row "09:00" 0 []) [1; 1; 1; 1; 1; 1; 8] |}.

(** Three rows without news in the slot of interest, none with news. *)
Definition quiet_table : DataFrame float :=
  {| columns := ["time"; "event_count"; "|Return|"];
     records := map (mk_row "09:00" 0 []) [1; 2; 4] ++ [mk_row "10:00" 2 [] 7] |}.

(** Two rows with macro news (priority 2) and three rows without any
    prioritized category, all in the slot of interest. *)
Definition priority_table : DataFrame float :=
  {| columns := ["time"; "event_count"; "cat_macro_event_count"; "|Return|"];
     records := map (mk_row "09:00" 1 [("macro", 1%Z)]) [5; 7]
                ++ map (mk_row "09:00" 0 []) [1; 1; 1] |}.

(** A row of the table of the category t-tests with a given permutation
    p-value. *)
Definition row_with_p (cat : string) (p : float) : wrapper.CatRow float :=
  {| wrapper.Category := cat; wrapper.N_with := 5; wrapper.N_baseline := 5;
     wrapper.Mean_with := 1; wrapper.Mean_baseline := 0;
     wrapper.t_stat := 2; wrapper.p_perm := p; wrapper.Cohen_d := 1 |}.

(** Single-category rows: three with macro news, three with earnings news and
    one with a rumor; one more row has two active categories. *)
Definition category_table : DataFrame float :=
  {| columns := ["time"; "event_count"; "cat_macro_event_count";
                 "cat_earnings_event_count"; "cat_rumor_event_count"; "|Return|"];
     records := map (mk_row "09:00" 1 [("macro", 1%Z)]) [1; 2; 3]
                ++ map (mk_row "09:00" 2 [("earnings", 2%Z)]) [2; 3; 7]
                ++ [mk_row "09:00" 1 [("rumor", 1%Z)] 4;
                    mk_row "09:00" 2 [("macro", 1%Z); ("rumor", 1%Z)] 9] |}.
End Sample.

(* ================================================================== *)
(** * Properties *)

Ltac destruct_match :=
  match goal with
  | |- context [match ?x with _ => _ end] => destruct x eqn:?
  end.

(** ** Arrays *)

Section ArrayFacts.
Context {A : Type}.

Lemma firstn_plus (a b : nat) (l : list A) :
  firstn (a + b) l = firstn a l ++ firstn b (skipn a l).
Proof.
  revert l; induction a as [|a IH]; intros l; simpl.
  - reflexivity.
  - destruct l as [|x l]; simpl.
    + now rewrite firstn_nil.
    + now rewrite IH.
Qed.

Lemma sub_arys_cumsum (sizes : list nat) :
  forall (acc : nat) (ary : list A),
    acc + sum_sizes sizes <= length ary ->
    map (@length A) (sub_arys ary acc (cumsum_from acc sizes)) = sizes
    /\ concat (sub_arys ary acc (cumsum_from acc sizes))
       = firstn (sum_sizes sizes) (skipn acc ary).
Proof.
  induction sizes as [|x sizes IH]; intros acc ary Hlen; simpl in *.
  - split; reflexivity.
  - destruct (IH (acc + x) ary) as [Hl Hc]; [lia|].
    unfold slice. replace (acc + x - acc) with x by lia.
    split.
    + rewrite Hl. f_equal.
      rewrite length_firstn, length_skipn. lia.
    + rewrite Hc, firstn_plus, skipn_skipn.
      now replace (x + acc) with (acc + x) by lia.
Qed.

Lemma cumsum_from_last (sizes : list nat) :
  forall acc, sizes <> [] ->
    removelast (cumsum_from acc sizes) ++ [acc + sum_sizes sizes]
    = cumsum_from acc sizes.
Proof.
  induction sizes as [|x sizes IH]; intros acc Hne; [congruence|].
  destruct sizes as [|y sizes].
  - simpl. now rewrite Nat.add_0_r.
  - change (cumsum_from acc (x :: y :: sizes))
      with ((acc + x) :: cumsum_from (acc + x) (y :: sizes)).
    change (sum_sizes (x :: y :: sizes)) with (x + sum_sizes (y :: sizes)).
    assert (Hc : cumsum_from (acc + x) (y :: sizes) <> []) by (simpl; congruence).
    change (removelast ((acc + x) :: cumsum_from (acc + x) (y :: sizes)))
      with (match cumsum_from (acc + x) (y :: sizes) with
            | [] => []
            | _ :: _ => (acc + x) :: removelast (cumsum_from (acc + x) (y :: sizes))
            end).
    destruct (cumsum_from (acc + x) (y :: sizes)) as [|c cs] eqn:E; [congruence|].
    rewrite <- E. simpl app. f_equal.
    rewrite Nat.add_assoc. apply IH. congruence.
Qed.
End ArrayFacts.

(** ** The permutation engine *)

Section EngineFacts.
Context {F : Type} `{Float64 F} `{RandomState} {A : Type}.
Variable stat_func : list (list A) -> result F.

Import bootstrap.

(** Regrouping a pool of the right length gives back the original sizes, and
    the chunks are contiguous: concatenated they are the pool. *)
Lemma regroup_sizes (sizes : list nat) (pool : list A) :
  sizes <> [] ->
  length pool = sum_sizes sizes ->
  map (@length A) (regroup pool sizes) = sizes
  /\ concat (regroup pool sizes) = pool.
Proof.
  intros Hne Hlen. unfold regroup, np_split, np_cumsum.
  rewrite Hlen.
  change (sum_sizes sizes) with (0 + sum_sizes sizes) at 1 2.
  rewrite (cumsum_from_last 0 Hne).
  destruct (@sub_arys_cumsum A sizes 0 pool) as [Hl Hc]; [simpl; lia|].
  split; [exact Hl|].
  rewrite Hc. simpl skipn. rewrite <- Hlen. apply firstn_all.
Qed.

Lemma length_concat_sizes (groups : list (list A)) :
  length (concat groups) = sum_sizes (map (@length A) groups).
Proof.
  induction groups as [|g gs IH]; simpl; [reflexivity|].
  now rewrite length_app, IH.
Qed.

Lemma perm_pools_Permutation (n : nat) :
  forall (flat : list A) (s : rng),
    Forall (fun pool => Permutation pool flat) (perm_pools n flat s).
Proof.
  induction n as [|n IH]; intros flat s; simpl; [constructor|].
  pose proof (shuffle_Permutation flat s) as Hp.
  destruct (np_random_shuffle flat s) as [flat' s']; simpl in Hp.
  constructor; [exact Hp|].
  eapply Forall_impl; [|apply IH].
  intros pool Hpool. now rewrite Hpool.
Qed.

Lemma length_perm_pools (n : nat) :
  forall (flat : list A) (s : rng), length (perm_pools n flat s) = n.
Proof.
  induction n as [|n IH]; intros flat s; simpl; [reflexivity|].
  destruct (np_random_shuffle flat s) as [flat' s']. simpl. now rewrite IH.
Qed.

(** The loop adds to [hits] the number of hits among its iterations, and
    stops at the first exception of the statistic. *)
Lemma perm_loop_spec (sizes : list nat) (two_sided : bool) (t_obs : F) (n : nat) :
  forall (flat : list A) (hits : Z) (s : rng),
    fst (perm_loop stat_func n sizes two_sided t_obs flat hits s)
    = match count_hits stat_func two_sided t_obs (perm_iterates n sizes flat s) with
      | Ok c => Ok (hits + c)%Z
      | Raise e => Raise e
      end.
Proof.
  unfold perm_iterates.
  induction n as [|n IH]; intros flat hits s; simpl.
  - now rewrite Z.add_0_r.
  - unfold bind at 1, shuffle.
    destruct (np_random_shuffle flat s) as [flat' s']. simpl.
    unfold bind at 1, lift at 1.
    destruct (stat_func (regroup flat' sizes)) as [t|e]; [|reflexivity].
    rewrite IH.
    destruct (count_hits stat_func two_sided t_obs _) as [c|e]; [|reflexivity].
    now rewrite Z.add_assoc.
Qed.

Lemma count_hits_bounds (two_sided : bool) (t_obs : F) (iterates : list (list (list A))) :
  forall c, count_hits stat_func two_sided t_obs iterates = Ok c ->
            (0 <= c <= Z.of_nat (length iterates))%Z.
Proof.
  induction iterates as [|res rest IH]; simpl; intros c Hc.
  - injection Hc as <-. lia.
  - destruct (stat_func res) as [t|e]; [|discriminate].
    destruct (count_hits stat_func two_sided t_obs rest) as [c'|e]; [|discriminate].
    injection Hc as <-. specialize (IH c' eq_refl).
    unfold b2z. destruct (hit two_sided t t_obs); lia.
Qed.

(** The value of [permutation_pvalue], step by step. *)
Lemma permutation_pvalue_spec (groups : list (list A)) (num_samples : Z)
      (two_sided : bool) (random_seed : option Z) (s : rng) :
  fst (permutation_pvalue stat_func groups num_samples two_sided random_seed s)
  = match stat_func groups with
    | Raise e => Raise e
    | Ok t_obs =>
      match np_concatenate groups with
      | Raise e => Raise e
      | Ok flat =>
        match count_hits stat_func two_sided t_obs
                (perm_iterates (Z.to_nat num_samples) (map (@length A) groups)
                               flat (seeded random_seed s)) with
        | Raise e => Raise e
        | Ok hits => py_truediv hits num_samples
        end
      end
    end.
Proof.
  unfold permutation_pvalue, bind, lift, seed_if_given, seeded.
  set (s1 := match random_seed with Some z => np_random_seed z | None => s end).
  assert (Hs : (let (_, s') := match random_seed with
                                | Some z => (Ok tt, np_random_seed z)
                                | None => (Ok tt, s)
                                end in s') = s1)
    by (subst s1; destruct random_seed; reflexivity).
  destruct random_seed as [z|]; simpl in Hs; subst s1;
    (destruct (stat_func groups) as [t_obs|e]; [|reflexivity];
     destruct (np_concatenate groups) as [flat|e]; [|reflexivity];
     match goal with
     | |- context [perm_loop ?f ?n ?sz ?ts ?t ?fl ?h ?st] =>
       pose proof (perm_loop_spec sz ts t n fl h st) as Hl;
       destruct (perm_loop f n sz ts t fl h st) as [[hits|e] s2]; simpl in Hl
     end;
     destruct (count_hits stat_func two_sided t_obs _) as [c|e'];
     try discriminate;
     [ injection Hl as ->; reflexivity | injection Hl as ->; reflexivity ]).
Qed.

(** For [num_samples >= 1] a returned value is a ratio of integers
    [hits / num_samples] with [0 <= hits <= num_samples]. *)
Lemma permutation_pvalue_is_ratio (groups : list (list A)) (num_samples : Z)
      (two_sided : bool) (random_seed : option Z) (s : rng) (p : F) :
  (1 <= num_samples)%Z ->
  fst (permutation_pvalue stat_func groups num_samples two_sided random_seed s)
  = Ok p ->
  exists hits : Z,
    (0 <= hits <= num_samples)%Z
    /\ py_truediv hits num_samples = Ok p
    /\ p = f_div (f_of_Z hits) (f_of_Z num_samples).
Proof.
  intros Hn Hp. rewrite permutation_pvalue_spec in Hp.
  destruct (stat_func groups) as [t_obs|e]; [|discriminate].
  destruct (np_concatenate groups) as [flat|e]; [|discriminate].
  destruct (count_hits stat_func two_sided t_obs _) as [hits|e] eqn:Ec;
    [|discriminate].
  apply count_hits_bounds in Ec.
  unfold perm_iterates in Ec.
  rewrite length_map, length_perm_pools in Ec.
  exists hits. split; [lia|]. split; [exact Hp|].
  unfold py_truediv in Hp.
  destruct (Z.eqb_spec num_samples 0); [lia|]. now injection Hp as <-.
Qed.
End EngineFacts.

(** ** Claims about [permutation_pvalue] *)

(** What one iteration hands to the statistic, relative to the input groups:
    [res] cuts [pool] into contiguous chunks, [pool] rearranges the pooled
    observations, and the chunk sizes are the original group sizes. *)
Definition regrouped_like {A} (groups : list (list A)) (pool : list A)
           (res : list (list A)) : Prop :=
  Permutation pool (concat groups)
  /\ concat res = pool
  /\ map (@length A) res = map (@length A) groups
  /\ sum_sizes (map (@length A) res) = sum_sizes (map (@length A) groups).

Section EngineClaims.
Context {F : Type} `{Float64 F} `{RandomState} {A : Type}.
Variable stat_func : list (list A) -> result F.
Import bootstrap.
Local Open Scope num_scope.

(** C9: in every iteration of the loop of [permutation_pvalue] the sample
    handed to the statistic consists of contiguous chunks of the shuffled
    pool, of the original sizes in the original order; so the sizes sum to
    the same total before and after each shuffle.  The last part says that
    these iterations are the ones [permutation_pvalue] evaluates. *)
Theorem reshuffle_keeps_group_sizes
        (groups : list (list A)) (num_samples : Z) (two_sided : bool)
        (random_seed : option Z) (s : rng) :
  groups <> [] ->
  let n := Z.to_nat num_samples in
  let sizes := map (@length A) groups in
  let start := seeded random_seed s in
  Forall2 (regrouped_like groups)
          (perm_pools n (concat groups) start)
          (perm_iterates n sizes (concat groups) start)
  /\ fst (permutation_pvalue stat_func groups num_samples two_sided random_seed s)
     = match stat_func groups with
       | Raise e => Raise e
       | Ok t_obs =>
         match count_hits stat_func two_sided t_obs
                 (perm_iterates n sizes (concat groups) start) with
         | Raise e => Raise e
         | Ok hits => py_truediv hits num_samples
         end
       end.
Proof.
  intros Hne n sizes start. split.
  - unfold perm_iterates.
    pose proof (perm_pools_Permutation n (concat groups) start) as Hp.
    induction Hp as [|pool pools Hpool _ IH]; simpl; constructor; [|exact IH].
    assert (Hsz : sizes <> []) by (subst sizes; destruct groups; simpl; congruence).
    assert (Hlen : length pool = sum_sizes sizes).
    { rewrite (Permutation_length Hpool). apply length_concat_sizes. }
    destruct (regroup_sizes pool Hsz Hlen) as [Hl Hc].
    unfold regrouped_like. fold sizes. rewrite Hl. auto.
  - rewrite permutation_pvalue_spec.
    destruct groups as [|g gs]; [congruence|]. reflexivity.
Qed.

Lemma permutation_pvalue_no_iteration (groups : list (list A)) (n : Z)
      (two_sided : bool) (random_seed : option Z) (s : rng) :
  (n <= 0)%Z ->
  permutation_pvalue stat_func groups n two_sided random_seed s
  = (match stat_func groups with
     | Raise e => Raise e
     | Ok _ =>
       match np_concatenate groups with
       | Raise e => Raise e
       | Ok _ => py_truediv 0 n
       end
     end, seeded random_seed s).
Proof.
  intros Hn.
  assert (Hz : Z.to_nat n = 0%nat) by lia.
  unfold permutation_pvalue, bind, lift, seed_if_given, seeded.
  rewrite Hz. simpl.
  destruct random_seed; destruct (stat_func groups); try reflexivity;
    destruct (np_concatenate groups); reflexivity.
Qed.

(** C2 (amended): [permutation_pvalue] does not validate [num_samples].
    With [num_samples = 0] it evaluates the observed statistic, runs no
    iteration and fails in the final division with [ZeroDivisionError];
    with a negative [num_samples] it runs no iteration and returns
    [0 / num_samples].  In both cases no shuffle has been drawn. *)
Theorem permutation_pvalue_nonpositive_samples
        (groups : list (list A)) (two_sided : bool) (random_seed : option Z)
        (s : rng) (t_obs : F) :
  stat_func groups = Ok t_obs ->
  groups <> [] ->
  permutation_pvalue stat_func groups 0 two_sided random_seed s
  = (Raise ZeroDivisionError, seeded random_seed s)
  /\ forall n : Z,
      (n < 0)%Z ->
      permutation_pvalue stat_func groups n two_sided random_seed s
      = (Ok (f_of_Z 0 / f_of_Z n), seeded random_seed s).
Proof.
  intros Hobs Hne. split; [|intros n Hn];
    rewrite permutation_pvalue_no_iteration by lia;
    rewrite Hobs; destruct groups as [|g gs]; try congruence; simpl.
  - reflexivity.
  - unfold py_truediv. destruct (Z.eqb_spec n 0); [lia|reflexivity].
Qed.
End EngineClaims.

(** ** Claims about [ttest_two_samples] *)

Section TTestClaims.
Context {F : Type} `{Float64 F} `{RandomState} `{SciPyStats F}.
Import bootstrap tests.
Local Open Scope num_scope.

(** The t-statistic of a regrouped sample. *)
Definition t_of (equal_var : bool) (res : list (list F)) : F :=
  fst (ttest_ind (nth 0 res []) (nth 1 res []) equal_var).

Lemma count_hits_ttest (equal_var : bool) (t_obs : F) (a b : nat)
      (pools : list (list F)) :
  count_hits (ttest_stat_func equal_var) false t_obs
             (map (fun pool => regroup pool [a; b]) pools)
  = Ok (Z.of_nat
          (length (filter (fun res => t_of equal_var res >=? t_obs)
                          (map (fun pool => regroup pool [a; b]) pools)))).
Proof.
  induction pools as [|pool pools IH]; [reflexivity|].
  cbn [map count_hits filter]. rewrite IH.
  change (ttest_stat_func equal_var (regroup pool [a; b]))
    with (Ok (t_of equal_var (regroup pool [a; b]))).
  cbn [hit].
  destruct (t_of equal_var (regroup pool [a; b]) >=? t_obs);
    cbn [b2z length]; f_equal; lia.
Qed.

(** C1 (amended): the permutation p-value of [ttest_two_samples] is
    one-sided.  An iteration counts as a hit exactly when the reshuffled
    t-statistic is at least the observed one, signs included; the p-value is
    the number of such iterations divided by [num_permutations]. *)
Theorem ttest_permutation_pvalue_one_sided
        (x y : list F) (equal_var : bool) (num_permutations : Z) (s : rng) :
  let t_obs := fst (ttest_ind x y equal_var) in
  let reshuffled :=
    perm_iterates (Z.to_nat num_permutations) [length x; length y] (x ++ y) s in
  let hits :=
    Z.of_nat (length (filter (fun res => t_of equal_var res >=? t_obs) reshuffled)) in
  fst (ttest_two_samples x y equal_var num_permutations s)
  = match py_truediv hits num_permutations with
    | Raise e => Raise e
    | Ok p =>
      Ok {| N_x := length x; N_y := length y;
            Mean_x := np_mean x; Mean_y := np_mean y;
            t_stat := t_obs; p_classic := snd (ttest_ind x y equal_var);
            p_perm := p |}
    end.
Proof.
  intros t_obs reshuffled hits.
  unfold ttest_two_samples.
  destruct (ttest_ind x y equal_var) as [t p] eqn:Ett.
  unfold bind.
  pose proof (permutation_pvalue_spec (ttest_stat_func equal_var) [x; y]
                num_permutations false None s) as Hspec.
  destruct (permutation_pvalue (ttest_stat_func equal_var) [x; y]
              num_permutations false None s) as [[pv|e] s'];
    simpl in Hspec; rewrite Ett in Hspec; simpl in Hspec;
    rewrite app_nil_r in Hspec;
    unfold perm_iterates in Hspec; rewrite count_hits_ttest in Hspec;
    subst hits reshuffled t_obs; unfold perm_iterates; simpl fst;
    rewrite <- Hspec; reflexivity.
Qed.
End TTestClaims.

(** ** When the tests return *)

Section Returns.
Context {F : Type} `{Float64 F} `{RandomState} `{SciPyStats F}.
Import bootstrap tests.
Local Open Scope num_scope.

Lemma regroup_nonempty {A} (pool : list A) (sizes : list nat) :
  regroup pool sizes <> [].
Proof.
  unfold regroup, np_split.
  destruct (removelast (np_cumsum sizes)); simpl; congruence.
Qed.

Lemma count_hits_defined {A} (stat_func : list (list A) -> result F)
      (two_sided : bool) (t_obs : F) (iterates : list (list (list A))) :
  Forall (fun res => exists t, stat_func res = Ok t) iterates ->
  exists c, count_hits stat_func two_sided t_obs iterates = Ok c.
Proof.
  induction 1 as [|res rest [t Ht] _ [c IH]]; simpl.
  - now exists 0%Z.
  - rewrite Ht, IH. eauto.
Qed.

Lemma permutation_pvalue_returns {A} (stat_func : list (list A) -> result F)
      (groups : list (list A)) (n : Z) (two_sided : bool)
      (random_seed : option Z) (s : rng) :
  groups <> [] ->
  n <> 0%Z ->
  (forall res, res <> [] -> exists t, stat_func res = Ok t) ->
  exists p s',
    permutation_pvalue stat_func groups n two_sided random_seed s = (Ok p, s').
Proof.
  intros Hne Hn Hstat.
  pose proof (permutation_pvalue_spec stat_func groups n two_sided random_seed s)
    as Hspec.
  destruct (Hstat groups Hne) as [t_obs Hobs]. rewrite Hobs in Hspec.
  destruct groups as [|g gs]; [congruence|]. cbn [np_concatenate] in Hspec.
  destruct (@count_hits_defined A stat_func two_sided t_obs
              (perm_iterates (Z.to_nat n) (map (@length A) (g :: gs))
                             (concat (g :: gs)) (seeded random_seed s)))
    as [c Hc].
  { unfold perm_iterates. apply Forall_forall. intros res Hin.
    apply in_map_iff in Hin. destruct Hin as [pool [<- _]].
    apply Hstat, regroup_nonempty. }
  rewrite Hc in Hspec. unfold py_truediv in Hspec.
  destruct (Z.eqb_spec n 0); [congruence|].
  destruct (permutation_pvalue stat_func (g :: gs) n two_sided random_seed s)
    as [r s'].
  simpl in Hspec. subst r. eauto.
Qed.

Lemma f_statistic_defined (groups : list (list F)) :
  groups <> [] -> exists f, _f_statistic groups = Ok f.
Proof.
  intros Hne. unfold _f_statistic.
  destruct groups as [|g gs]; [congruence|]. cbn [np_concatenate]. eauto.
Qed.

Lemma anova_oneway_returns (groups : list (list F)) (n : Z)
      (random_seed : option Z) (s : rng) (fp : F * F) :
  f_oneway groups = Ok fp ->
  groups <> [] ->
  n <> 0%Z ->
  exists p s',
    anova_oneway groups n random_seed s
    = (Ok {| f_statistic := fst fp; anova_p_parametric := snd fp;
             anova_p_perm := p |}, s').
Proof.
  intros Hf Hne Hn. unfold anova_oneway, bind, lift. rewrite Hf.
  destruct (permutation_pvalue_returns _f_statistic false random_seed s Hne Hn
              f_statistic_defined) as [p [s' ->]].
  exists p, s'. reflexivity.
Qed.

Lemma ttest_two_samples_returns (x y : list F) (equal_var : bool) (n : Z) (s : rng) :
  n <> 0%Z ->
  exists r s',
    ttest_two_samples x y equal_var n s = (Ok r, s')
    /\ Mean_x r = np_mean x /\ Mean_y r = np_mean y.
Proof.
  intros Hn. unfold ttest_two_samples.
  destruct (ttest_ind x y equal_var) as [t p] eqn:Ett. unfold bind.
  pose proof (permutation_pvalue_spec (ttest_stat_func equal_var) [x; y]
                n false None s) as Hspec.
  simpl in Hspec. unfold perm_iterates in Hspec.
  rewrite count_hits_ttest in Hspec. unfold py_truediv in Hspec.
  destruct (Z.eqb_spec n 0); [congruence|].
  destruct (permutation_pvalue (ttest_stat_func equal_var) [x; y] n false None s)
    as [r s'].
  simpl in Hspec. subst r. eexists _, s'. repeat split.
Qed.
End Returns.

(** ** Claims about one-way ANOVA *)

Section AnovaClaims.
Context {F : Type} `{Float64 F} `{RandomState} `{SciPyStats F}.
Import tests wrapper.

Variable df : DataFrame F.
Variable top_times : list string.
Variables return_col event_col time_col : string.
Variable num_permutations : Z.

Lemma sum_sizes_at_least (k : nat) (sizes : list nat) :
  Forall (fun n => k <= n) sizes -> k * length sizes <= sum_sizes sizes.
Proof.
  induction 1 as [|n sizes Hn _ IH]; simpl; lia.
Qed.

(** C3 (amended): the preconditions of the ANOVA are enforced by the caller
    [show_category_anova], not by [anova_oneway].  [show_category_anova]
    drops the categories with fewer than 2 observations and raises a
    [ValueError] when fewer than 2 categories are left; otherwise the groups
    it hands to [anova_oneway] are at least 2, each of at least 2
    observations, hence more observations than groups.  [anova_oneway]
    itself returns whenever SciPy's [f_oneway] does (for a non-empty list of
    groups and a non-zero number of permutations). *)
Theorem anova_preconditions_enforced_by_caller
        (categories : list string) (random_seed : option Z) (s : rng) :
  match anova_groups df top_times return_col event_col time_col categories with
  | Raise e =>
    (exists msg, e = ValueError msg)
    /\ show_category_anova df top_times return_col event_col time_col
                           num_permutations categories random_seed s
       = (Raise e, s)
  | Ok groups_dict =>
    let groups := map snd groups_dict in
    2 <= length groups
    /\ Forall (fun g => 2 <= length g) groups
    /\ length groups < sum_sizes (map (@length F) groups)
    /\ show_category_anova df top_times return_col event_col time_col
                           num_permutations categories random_seed s
       = match anova_oneway groups num_permutations random_seed s with
         | (Ok res, s') =>
           (Ok {| anova := res;
                  num_groups := length groups_dict;
                  group_sizes :=
                    map (fun kv => (fst kv, length (snd kv))) groups_dict |}, s')
         | (Raise e, s') => (Raise e, s')
         end
  end
  /\ forall (groups : list (list F)) (fp : F * F),
      f_oneway groups = Ok fp ->
      groups <> [] ->
      num_permutations <> 0%Z ->
      exists p s',
        anova_oneway groups num_permutations random_seed s
        = (Ok {| f_statistic := fst fp; anova_p_parametric := snd fp;
                 anova_p_perm := p |}, s').
Proof.
  split.
  - unfold show_category_anova.
    destruct (anova_groups df top_times return_col event_col time_col categories)
      as [gd|e] eqn:Eg.
    + unfold anova_groups in Eg.
      match type of Eg with
      | (if Nat.ltb (length ?l) 2 then _ else _) = _ =>
        set (kept := l) in *; destruct (Nat.ltb_spec (length kept) 2) as [Hlt|Hge]
      end; [discriminate|].
      injection Eg as <-.
      assert (Hall : Forall (fun g : list F => 2 <= length g) (map snd kept)).
      { apply Forall_forall. intros g Hin.
        apply in_map_iff in Hin. destruct Hin as [kv [<- Hkv]].
        subst kept. apply filter_In in Hkv. destruct Hkv as [_ Hsz].
        apply Nat.ltb_lt in Hsz. lia. }
      cbv zeta. rewrite length_map. split; [lia|]. split; [exact Hall|]. split.
      * pose proof (@sum_sizes_at_least 2 (map (@length F) (map snd kept))) as Hs.
        rewrite !length_map in Hs.
        assert (2 * length kept <= sum_sizes (map (@length F) (map snd kept))).
        { apply Hs. apply Forall_forall. intros n Hin.
          apply in_map_iff in Hin. destruct Hin as [g [<- Hg]].
          rewrite Forall_forall in Hall. now apply Hall. }
        lia.
      * unfold bind, lift, ret.
        destruct (anova_oneway (map snd kept) num_permutations random_seed s)
          as [[res|e] s']; reflexivity.
    + unfold anova_groups in Eg.
      destruct (Nat.ltb _ 2); [|discriminate].
      injection Eg as <-. split; [eexists|]; reflexivity.
  - intros groups fp Hf Hne Hn. now apply anova_oneway_returns.
Qed.
End AnovaClaims.

(** ** Sorting *)

Section SortFacts.
Context {R : Type} (le : R -> R -> bool).

Lemma insert_sorted_Permutation (r : R) (l : list R) :
  Permutation (insert_sorted le r l) (r :: l).
Proof.
  induction l as [|h t IH]; simpl; [reflexivity|].
  destruct (le r h); [reflexivity|].
  rewrite IH. apply perm_swap.
Qed.

Lemma insertion_sort_Permutation (l : list R) :
  Permutation (insertion_sort le l) l.
Proof.
  induction l as [|h t IH]; simpl; [reflexivity|].
  rewrite insert_sorted_Permutation. now constructor.
Qed.

(** With a total comparison the result is locally sorted. *)
Hypothesis le_total : forall a b, le a b = false -> le b a = true.

Lemma insert_sorted_LocallySorted (r : R) (l : list R) :
  LocallySorted (fun a b => le a b = true) l ->
  LocallySorted (fun a b => le a b = true) (insert_sorted le r l).
Proof.
  induction 1 as [|a|a b l Hl IH Hab]; simpl.
  - constructor.
  - destruct (le r a) eqn:E; repeat constructor; auto.
  - destruct (le r a) eqn:E.
    + repeat constructor; auto.
    + simpl in IH. destruct (le r b) eqn:E'.
      * repeat constructor; auto.
      * constructor; auto.
Qed.

Lemma insertion_sort_LocallySorted (l : list R) :
  LocallySorted (fun a b => le a b = true) (insertion_sort le l).
Proof.
  induction l as [|h t IH]; simpl; [constructor|].
  now apply insert_sorted_LocallySorted.
Qed.
End SortFacts.

(** Sorting rows by a key and reading the key off commutes with sorting the
    keys themselves. *)
Lemma map_insertion_sort {R K} (key : R -> K) (le : K -> K -> bool) (l : list R) :
  map key (insertion_sort (fun a b => le (key a) (key b)) l)
  = insertion_sort le (map key l).
Proof.
  induction l as [|h t IH]; simpl; [reflexivity|].
  rewrite <- IH.
  generalize (insertion_sort (fun a b => le (key a) (key b)) t) as s.
  induction s as [|x s IHs]; simpl; [reflexivity|].
  destruct (le (key h) (key x)); simpl; [reflexivity|]. now rewrite IHs.
Qed.

(** ** Holm's adjustment *)

Section HolmFacts.
Context {F : Type} `{Float64 F}.
Import wrapper.
Local Open Scope num_scope.

Lemma length_holm_factors (m : nat) : length (holm_factors m) = m.
Proof. unfold holm_factors. now rewrite length_map, length_seq. Qed.

Lemma length_holm_p (p_sorted : list F) : length (holm_p p_sorted) = length p_sorted.
Proof.
  unfold holm_p.
  rewrite length_map, length_combine, length_holm_factors. apply Nat.min_id.
Qed.

Lemma nth_holm_factors (m i : nat) :
  i < m -> nth i (holm_factors m) 0%Z = (Z.of_nat m - Z.of_nat i)%Z.
Proof.
  intros Hi. unfold holm_factors.
  set (g := fun i : nat => (Z.of_nat m - Z.of_nat i)%Z).
  rewrite (nth_indep _ 0%Z (g 0)) by now rewrite length_map, length_seq.
  rewrite map_nth, seq_nth by exact Hi. reflexivity.
Qed.

Lemma nth_holm_p (p_sorted : list F) (i : nat) :
  i < length p_sorted ->
  nth i (holm_p p_sorted) f_nan
  = np_minimum (f_of_Z 1)
               (nth i p_sorted f_nan
                * f_of_Z (Z.of_nat (length p_sorted) - Z.of_nat i)).
Proof.
  intros Hi. unfold holm_p.
  set (g := fun pf : F * Z => np_minimum (f_of_Z 1) (fst pf * f_of_Z (snd pf))).
  rewrite (nth_indep _ f_nan (g (f_nan, 0%Z)))
    by now rewrite length_map, length_combine, length_holm_factors, Nat.min_id.
  rewrite map_nth, combine_nth by now rewrite length_holm_factors.
  unfold g. simpl. now rewrite nth_holm_factors.
Qed.

Lemma map_fst_combine {X Y} (l : list X) (l' : list Y) :
  length l = length l' -> map fst (combine l l') = l.
Proof.
  revert l'; induction l as [|x l IH]; intros [|y l'] Hlen; simpl in *;
    try discriminate; [reflexivity|].
  f_equal. apply IH. lia.
Qed.

Lemma map_snd_combine {X Y} (l : list X) (l' : list Y) :
  length l = length l' -> map snd (combine l l') = l'.
Proof.
  revert l'; induction l as [|x l IH]; intros [|y l'] Hlen; simpl in *;
    try discriminate; [reflexivity|].
  f_equal. apply IH. lia.
Qed.

(** The two columns of the table: raw p-values in ascending order, and their
    Holm adjustment. *)
Lemma holm_table_columns (rows : list (CatRow F)) :
  let family := map (@p_perm F) (map (round_row 6) rows) in
  map (fun r => p_perm (row r)) (holm_table rows) = sort_values (fun p => p) family
  /\ map (@p_perm_holm F) (holm_table rows) = holm_adjust family.
Proof.
  intros family. unfold holm_table, holm_adjust.
  set (res := sort_values (@p_perm F) (map (round_row 6) rows)).
  assert (Hres : map (@p_perm F) res = sort_values (fun p => p) family).
  { subst res family. unfold sort_values.
    apply (map_insertion_sort (@p_perm F) key_le). }
  assert (Hlen : length res = length (holm_p (map (@p_perm F) res)))
    by now rewrite length_holm_p, length_map.
  split; rewrite map_map; cbn [row p_perm_holm]; rewrite <- Hres.
  - rewrite <- (map_map fst (@p_perm F)).
    now rewrite (map_fst_combine _ _ Hlen).
  - change (fun x : CatRow F * F => snd x) with (@snd (CatRow F) F).
    now rewrite (map_snd_combine _ _ Hlen).
Qed.

Lemma holm_adjust_formula (p_raw : list F) :
  let sorted := sort_values (fun p => p) p_raw in
  let m := length p_raw in
  Permutation sorted p_raw
  /\ length (holm_adjust p_raw) = m
  /\ forall i, i < m ->
       nth i (holm_adjust p_raw) f_nan
       = np_minimum (f_of_Z 1)
                    (nth i sorted f_nan * f_of_Z (Z.of_nat m - Z.of_nat i)).
Proof.
  intros sorted m.
  assert (Hp : Permutation sorted p_raw) by apply insertion_sort_Permutation.
  assert (Hm : length sorted = m) by apply (Permutation_length Hp).
  unfold holm_adjust. fold sorted.
  split; [exact Hp|]. split; [now rewrite length_holm_p|].
  intros i Hi. rewrite nth_holm_p by lia. now rewrite Hm.
Qed.
End HolmFacts.

(** ** Exact arithmetic *)

Module ExactFacts.
Import Exact.
Local Open Scope Q_scope.

(** A finite value between 0 and 1. *)
Definition in_unit_interval (x : xq) : Prop :=
  match x with
  | Fin q => 0 <= q <= 1
  | _ => False
  end.

(** The comparisons of the embedded code, as propositions. *)
Definition le (x y : xq) : Prop := f_ge y x = true.

Lemma fin_unit (q : Q) : 0 <= q <= 1 -> in_unit_interval (fin q).
Proof. unfold fin; simpl. now rewrite Qred_correct. Qed.

Lemma inject_Z_nonzero (n : Z) : n <> 0%Z -> Qeq_bool (inject_Z n) 0 = false.
Proof.
  intros Hn. destruct (Qeq_bool (inject_Z n) 0) eqn:E; [|reflexivity].
  apply Qeq_bool_eq in E. unfold Qeq in E. simpl in E. lia.
Qed.

Lemma ratio_in_unit_interval (hits n : Z) :
  (1 <= n)%Z -> (0 <= hits <= n)%Z ->
  0 <= inject_Z hits / inject_Z n <= 1.
Proof.
  intros Hn Hh.
  assert (Hpos : 0 < inject_Z n) by (unfold Qlt; simpl; lia).
  split.
  - apply Qle_shift_div_l; [exact Hpos|].
    rewrite Qmult_0_l. unfold Qle; simpl; lia.
  - apply Qle_shift_div_r; [exact Hpos|].
    rewrite Qmult_1_l. rewrite <- Zle_Qle. lia.
Qed.

Lemma truediv_in_unit_interval (hits n : Z) :
  (1 <= n)%Z -> (0 <= hits <= n)%Z ->
  py_truediv hits n = Ok (fin (inject_Z hits / inject_Z n))
  /\ in_unit_interval (fin (inject_Z hits / inject_Z n)).
Proof.
  intros Hn Hh. split.
  - unfold py_truediv. destruct (Z.eqb_spec n 0); [lia|].
    simpl. now rewrite inject_Z_nonzero by lia.
  - now apply fin_unit, ratio_in_unit_interval.
Qed.

Lemma key_le_total (a b : xq) : key_le a b = false -> key_le b a = true.
Proof.
  unfold key_le; simpl.
  destruct a as [qa| | |], b as [qb| | |]; simpl; try reflexivity; try discriminate.
  intros Hab. apply Qle_bool_iff.
  destruct (Qlt_le_dec qa qb) as [Hlt|Hle]; [|exact Hle].
  apply Qlt_le_weak, Qle_bool_iff in Hlt. congruence.
Qed.

Lemma key_le_Fin (a b : Q) : key_le (Fin a) (Fin b) = true <-> a <= b.
Proof. unfold key_le; simpl. apply Qle_bool_iff. Qed.

(** One step of Holm's adjustment on a value of the unit interval. *)
Lemma holm_step (p : xq) (factor : Z) :
  in_unit_interval p ->
  (1 <= factor)%Z ->
  let adj := np_minimum (f_of_Z 1) (f_mul p (f_of_Z factor)) in
  le p adj /\ le adj (f_of_Z 1) /\ in_unit_interval adj.
Proof.
  intros Hp Hf. destruct p as [q| | |]; simpl in Hp; try contradiction.
  assert (Hq : q <= q * inject_Z factor).
  { assert (Hf' : 1 <= inject_Z factor) by (unfold Qle; simpl; lia).
    nra. }
  cbv zeta.
  change (np_minimum (f_of_Z 1) (f_mul (Fin q) (f_of_Z factor)))
    with (if negb (Qle_bool 1 (Qred (q * inject_Z factor)))
          then Fin (Qred (q * inject_Z factor)) else Fin 1).
  pose proof (Qred_correct (q * inject_Z factor)) as Hr.
  set (r := Qred (q * inject_Z factor)) in *.
  unfold le. change (f_of_Z 1) with (Fin 1).
  destruct (Qle_bool 1 r) eqn:E; cbn [negb].
  - change (f_ge (Fin 1) (Fin q)) with (Qle_bool q 1).
    change (f_ge (Fin 1) (Fin 1)) with (Qle_bool 1 1).
    cbn [in_unit_interval]. rewrite !Qle_bool_iff.
    split; [lra|]. split; lra.
  - assert (Hlt : r < 1).
    { apply Qnot_le_lt. intros Hle. apply Qle_bool_iff in Hle. congruence. }
    change (f_ge (Fin r) (Fin q)) with (Qle_bool q r).
    change (f_ge (Fin 1) (Fin r)) with (Qle_bool r 1).
    cbn [in_unit_interval]. rewrite !Qle_bool_iff.
    split; [lra|]. split; lra.
Qed.

Lemma rint_bounds (x : Q) (N : Z) :
  0 <= x <= inject_Z N -> (0 <= rint x <= N)%Z.
Proof.
  intros [Hlo Hhi]. unfold rint.
  pose proof (Qfloor_le x) as Hfl.
  pose proof (Qlt_floor x) as Hfu.
  assert (H0 : (0 <= Qfloor x)%Z).
  { change 0%Z with (Qfloor 0). now apply Qfloor_resp_le. }
  assert (HN : (Qfloor x <= N)%Z).
  { rewrite <- (Qfloor_Z N). now apply Qfloor_resp_le. }
  assert (Hstep : x - inject_Z (Qfloor x) == (1 # 2) \/ (1 # 2) < x - inject_Z (Qfloor x)
                  -> (Qfloor x + 1 <= N)%Z).
  { intros Hhalf.
    assert (Hne : Qfloor x <> N).
    { intros Heq. rewrite Heq in Hhalf. destruct Hhalf as [Hh|Hh]; lra. }
    lia. }
  destruct (x - inject_Z (Qfloor x) ?= 1 # 2) eqn:E.
  - apply Qeq_alt in E.
    destruct (Z.even (Qfloor x)); [lia|].
    assert ((Qfloor x + 1 <= N)%Z) by (apply Hstep; left; lra). lia.
  - lia.
  - apply Qgt_alt in E.
    assert ((Qfloor x + 1 <= N)%Z) by (apply Hstep; right; lra). lia.
Qed.

Lemma round_in_unit_interval (x : xq) :
  in_unit_interval x -> in_unit_interval (np_round 6 x).
Proof.
  destruct x as [q| | |]; cbn [in_unit_interval]; try contradiction. intros Hq.
  change (np_round 6 (Fin q))
    with (fin (inject_Z (rint (q * inject_Z (10 ^ 6))) / inject_Z (10 ^ 6))).
  apply fin_unit.
  assert (Hb : (0 <= rint (q * inject_Z (10 ^ 6)) <= 10 ^ 6)%Z).
  { apply rint_bounds. change (inject_Z (10 ^ 6)) with (1000000 # 1). lra. }
  apply ratio_in_unit_interval; [now vm_compute|exact Hb].
Qed.
End ExactFacts.

(** ** Claims in exact arithmetic *)

Section ExactClaims.
Context `{RandomState} {A : Type}.
Import Exact ExactFacts bootstrap wrapper.

(** C5: for [num_samples >= 1] every value returned by [permutation_pvalue]
    is the number of hits divided by the number of samples, with
    [0 <= hits <= num_samples] (for any model of float64); in exact
    arithmetic this ratio lies in [[0, 1]]; and a value is returned whenever
    the groups are non-empty and the statistic is defined on every sample. *)
Theorem permutation_pvalue_in_unit_interval
        (groups : list (list A)) (num_samples : Z) (two_sided : bool)
        (random_seed : option Z) (s : rng) :
  (1 <= num_samples)%Z ->
  (forall (F : Type) (H0 : Float64 F) (stat_func : list (list A) -> result F) (p : F),
      fst (permutation_pvalue stat_func groups num_samples two_sided random_seed s)
      = Ok p ->
      exists hits : Z,
        (0 <= hits <= num_samples)%Z
        /\ p = f_div (f_of_Z hits) (f_of_Z num_samples))
  /\ (forall (stat_func : list (list A) -> result xq) (p : xq),
         fst (permutation_pvalue stat_func groups num_samples two_sided random_seed s)
         = Ok p ->
         in_unit_interval p)
  /\ (forall (F : Type) (H0 : Float64 F) (stat_func : list (list A) -> result F),
         groups <> [] ->
         (forall res, res <> [] -> exists t, stat_func res = Ok t) ->
         exists p s',
           permutation_pvalue stat_func groups num_samples two_sided random_seed s
           = (Ok p, s')).
Proof.
  intros Hn. split; [|split].
  - intros F H0 stat_func p Hp.
    destruct (permutation_pvalue_is_ratio _ _ _ _ _ Hn Hp) as [hits [Hh [_ Heq]]].
    eauto.
  - intros stat_func p Hp.
    destruct (permutation_pvalue_is_ratio _ _ _ _ _ Hn Hp) as [hits [Hh [Hdiv _]]].
    destruct (truediv_in_unit_interval Hn Hh) as [Hdiv' Hunit].
    rewrite Hdiv' in Hdiv. now injection Hdiv as <-.
  - intros F H0 stat_func Hne Hstat.
    apply permutation_pvalue_returns; [exact Hne|lia|exact Hstat].
Qed.

Lemma holm_factors_positive (m : nat) :
  Forall (fun f => (1 <= f)%Z) (holm_factors m).
Proof.
  unfold holm_factors. apply Forall_forall. intros f Hin.
  apply in_map_iff in Hin. destruct Hin as [i [<- Hi]].
  apply in_seq in Hi. lia.
Qed.

Lemma holm_p_bounds (p_sorted : list xq) :
  Forall in_unit_interval p_sorted ->
  Forall2 (fun raw adj => le raw adj /\ le adj (f_of_Z 1))
          p_sorted (holm_p p_sorted).
Proof.
  unfold holm_p.
  pose proof (holm_factors_positive (length p_sorted)) as Hf.
  pose proof (length_holm_factors (length p_sorted)) as Hlen.
  revert Hf Hlen. generalize (holm_factors (length p_sorted)) as fs.
  induction p_sorted as [|p l IH]; intros [|f fs] Hf Hlen Hall;
    simpl in *; try discriminate; constructor.
  - apply Forall_inv in Hall. apply Forall_inv in Hf.
    destruct (@holm_step p f Hall Hf) as [Hlo [Hhi _]]. now split.
  - apply Forall_inv_tail in Hall. apply Forall_inv_tail in Hf.
    apply IH; auto.
Qed.

(** C6: on raw p-values in [[0, 1]], every Holm-adjusted p-value is at
    least the raw p-value it adjusts, and at most 1.  The pairing is the one
    of the table: the i-th adjusted value goes with the i-th raw value in
    ascending order.  The second part states it on the rows of the table of
    [show_category_ttests]. *)
Theorem holm_adjusted_between_raw_and_one (p_raw : list xq) :
  Forall in_unit_interval p_raw ->
  Forall2 (fun raw adj => le raw adj /\ le adj (f_of_Z 1))
          (sort_values (fun p => p) p_raw) (holm_adjust p_raw)
  /\ forall rows : list (CatRow xq),
      map (@p_perm xq) (map (round_row 6) rows) = p_raw ->
      Forall (fun r => le (p_perm (row r)) (p_perm_holm r)
                       /\ le (p_perm_holm r) (f_of_Z 1))
             (holm_table rows).
Proof.
  intros Hall.
  assert (Hmain : Forall2 (fun raw adj => le raw adj /\ le adj (f_of_Z 1))
                          (sort_values (fun p => p) p_raw) (holm_adjust p_raw)).
  { unfold holm_adjust. apply holm_p_bounds.
    eapply Permutation_Forall; [|exact Hall].
    symmetry. apply insertion_sort_Permutation. }
  split; [exact Hmain|].
  intros rows Hrows.
  destruct (holm_table_columns rows) as [Hraw Hadj].
  cbv zeta in Hraw, Hadj. rewrite Hrows in Hraw, Hadj.
  rewrite <- Hraw, <- Hadj in Hmain.
  clear - Hmain. induction (holm_table rows) as [|r t IH]; [constructor|].
  simpl in Hmain. inversion Hmain; subst. constructor; auto.
Qed.
End ExactClaims.

(** ** Claim about Holm's formula *)

Section HolmClaim.
Import Exact ExactFacts wrapper.
Local Open Scope float_scope.

(** C4: Holm's adjustment sorts the raw p-values in ascending order and
    gives the value of rank [i] (from 0) the adjusted value
    [min(1, raw * (m - i))]; there is no cumulative maximum, so the adjusted
    values may decrease.  [[0.01, 0.02, 0.20]] is adjusted to
    [[0.03, 0.04, 0.20]], both in binary64 and in exact arithmetic, also
    when the three p-values come unsorted in the rows of the table. *)
Theorem holm_adjust_formula_and_example :
  (forall (F : Type) (H : Float64 F) (p_raw : list F),
      let sorted := sort_values (fun p => p) p_raw in
      let m := length p_raw in
      Permutation sorted p_raw
      /\ length (holm_adjust p_raw) = m
      /\ forall i, (i < m)%nat ->
           nth i (holm_adjust p_raw) f_nan
           = np_minimum (f_of_Z 1)
                        (f_mul (nth i sorted f_nan)
                               (f_of_Z (Z.of_nat m - Z.of_nat i))))
  /\ (forall (F : Type) (H : Float64 F) (rows : list (CatRow F)),
         map (@p_perm_holm F) (holm_table rows)
         = holm_adjust (map (@p_perm F) (map (round_row 6) rows)))
  /\ (forall p_raw : list xq,
         LocallySorted (fun a b => key_le a b = true)
                       (sort_values (fun p => p) p_raw))
  /\ (forall a b : Q, key_le (Fin a) (Fin b) = true <-> (a <= b)%Q)
  /\ holm_adjust (H := Binary64.float64) [0.01; 0.02; 0.20] = [0.03; 0.04; 0.20]
  /\ holm_adjust (H := Exact.float64) [Fin (1 # 100); Fin (1 # 50); Fin (1 # 5)]
     = [Fin (3 # 100); Fin (1 # 25); Fin (1 # 5)]
  /\ map (fun r => (Category (row r), p_perm_holm r))
         (holm_table (H := Binary64.float64)
            [Sample.row_with_p "a" 0.20; Sample.row_with_p "b" 0.01;
             Sample.row_with_p "c" 0.02])
     = [("b", 0.03); ("c", 0.04); ("a", 0.20)]
  /\ holm_adjust (H := Binary64.float64) [0.02; 0.021] = [0.04; 0.021]
  /\ holm_adjust (H := Exact.float64) [Fin (1 # 50); Fin (21 # 1000)]
     = [Fin (1 # 25); Fin (21 # 1000)].
Proof.
  split; [intros F H p_raw; apply holm_adjust_formula|].
  split; [intros F H rows; apply (holm_table_columns rows)|].
  split.
  { intros p_raw. unfold sort_values.
    apply insertion_sort_LocallySorted.
    intros a b. apply key_le_total. }
  split; [exact key_le_Fin|].
  repeat split; vm_compute; reflexivity.
Qed.
End HolmClaim.

(** ** Claim about the effect size of the category t-tests *)

(** The pooled standard deviation of two samples, as the specification words
    it: the square root of the two sample variances weighted by their degrees
    of freedom. *)
Definition pooled_sd {F : Type} `{Float64 F} `{Sqrt F} (x y : list F) : F :=
  let n1 := Z.of_nat (length x) in
  let n2 := Z.of_nat (length y) in
  np_sqrt (f_div (f_add (f_mul (f_of_Z (n1 - 1)) (np_var1 x))
                        (f_mul (f_of_Z (n2 - 1)) (np_var1 y)))
                 (f_of_Z (n1 + n2 - 2))).

Section EffectSizeClaim.
Context {F : Type} `{Float64 F} `{RandomState} `{SciPyStats F} `{Sqrt F}.
Import tests wrapper.
Local Open Scope num_scope.

Variable df : DataFrame F.
Variable top_times : list string.
Variables return_col event_col time_col : string.
Variable num_permutations : Z.
Variable equal_var : bool.

Notation baseline := (baseline df top_times return_col event_col time_col).
Notation cat_group := (cat_group df top_times return_col time_col).
Notation ttest_rows :=
  (ttest_rows df top_times return_col event_col time_col num_permutations equal_var).

Definition qualifies (cat : string) : Prop :=
  5 <= length (cat_group cat) /\ 5 <= length baseline.

Lemma ttest_rows_spec (categories : list string) :
  num_permutations <> 0%Z ->
  forall s, exists rows s',
    ttest_rows categories s = (Ok rows, s')
    /\ forall cat, In cat categories -> qualifies cat ->
         exists r, In r rows
                   /\ Category r = cat
                   /\ Cohen_d r = cohen_d (np_mean (cat_group cat)) (np_mean baseline)
                                          (cat_group cat) baseline.
Proof.
  intros Hn. induction categories as [|c cats IH]; intros s.
  - exists [], s. split; [reflexivity|]. intros cat [].
  - cbn [wrapper.ttest_rows].
    destruct (Nat.leb 5 (length (cat_group c)) && Nat.leb 5 (length baseline))
      eqn:Eq.
    + destruct (ttest_two_samples_returns (cat_group c) baseline equal_var s Hn)
        as [st [s1 [Ht [Hmx Hmy]]]].
      destruct (IH s1) as [rows [s2 [Hrows Hin]]].
      unfold bind at 1. rewrite Ht. unfold bind at 1. rewrite Hrows.
      eexists _, s2. split; [reflexivity|].
      intros cat [<-|Hcat] Hq.
      * eexists. split; [left; reflexivity|]. cbn. now rewrite Hmx, Hmy.
      * destruct (Hin cat Hcat Hq) as [r [Hr Hrest]].
        exists r. split; [right; exact Hr|exact Hrest].
    + destruct (IH s) as [rows [s2 [Hrows Hin]]].
      exists rows, s2. split; [exact Hrows|].
      intros cat [<-|Hcat] Hq.
      * destruct Hq as [Hg Hb].
        apply Nat.leb_le in Hg, Hb. rewrite Hg, Hb in Eq. discriminate.
      * now apply Hin.
Qed.

Lemma holm_table_rows (rows : list (CatRow F)) :
  map (@row F) (holm_table rows) = sort_values (@p_perm F) (map (round_row 6) rows).
Proof.
  unfold holm_table. rewrite map_map. cbn [row].
  change (fun x : CatRow F * F => fst x) with (@fst (CatRow F) F).
  apply map_fst_combine. now rewrite length_holm_p, length_map.
Qed.

(** C7 (amended): every category with at least 5 observations, against a
    baseline of at least 5 observations, has a row in the table, and its
    effect size is the difference of the two group means divided by the
    square root of the mean of the two sample variances; like the other
    float columns it is rounded to 6 decimals. *)
Theorem category_effect_size
        (categories : list string) (alpha : F) (s : rng) (cat : string) :
  num_permutations <> 0%Z ->
  In cat categories ->
  5 <= length (cat_group cat) ->
  5 <= length baseline ->
  exists res sig_cats s',
    show_category_ttests df top_times return_col event_col time_col
                         num_permutations equal_var categories alpha s
    = (Ok (res, sig_cats), s')
    /\ exists r, In r res
         /\ Category (row r) = cat
         /\ Cohen_d (row r)
            = np_round 6
                ((np_mean (cat_group cat) - np_mean baseline)
                 / np_sqrt ((np_var1 (cat_group cat) + np_var1 baseline)
                            / f_of_Z 2)).
Proof.
  intros Hn Hcat Hg Hb.
  destruct (@ttest_rows_spec categories Hn s) as [rows [s' [Hrows Hin]]].
  destruct (Hin cat Hcat (conj Hg Hb)) as [r [Hr [Hc Hd]]].
  unfold show_category_ttests, bind. rewrite Hrows.
  destruct rows as [|r0 rows0] eqn:Erows; [contradiction|].
  rewrite <- Erows in *. clear Erows.
  eexists _, _, s'. split; [reflexivity|].
  assert (Hmem : In (round_row 6 r) (map (@row F) (holm_table rows))).
  { rewrite holm_table_rows.
    eapply Permutation_in;
      [symmetry; apply insertion_sort_Permutation|].
    now apply in_map. }
  apply in_map_iff in Hmem. destruct Hmem as [hr [Hhr Hinhr]].
  exists hr. split; [exact Hinhr|]. rewrite Hhr. cbn [Category Cohen_d round_row].
  split; [exact Hc|]. now rewrite Hd.
Qed.
End EffectSizeClaim.

(** ** Claim about missing confidence intervals *)

Section IntervalClaim.
Context {F : Type} `{Float64 F} {FL : @Float64Laws F _} {RS : RandomState} `{Sqrt F}
        {RE : @Resampling F RS}.
Import calculate.

Variable df : DataFrame F.
Variable top_times : list string.
Variables event_col time_col : string.
Variable confidence : F.
Variable n_bootstrap : Z.

Notation _classic_ci := (_classic_ci confidence).
Notation _bootstrap_ci := (_bootstrap_ci confidence n_bootstrap).
Notation ci_rows := (ci_rows df confidence n_bootstrap).
Notation column_data := (column_data df).

(** A row of the table whose mean and bounds are missing. *)
Definition missing_row (grp col meth : string) (n : nat) : CIRow F :=
  {| Group := grp; series := col; method := meth; ci := nan_ci n |}.

Lemma round_missing_row (d : Z) (grp col meth : string) (n : nat) :
  round_ci_row d (missing_row grp col meth n) = missing_row grp col meth n.
Proof.
  unfold round_ci_row, missing_row, nan_ci. cbn. now rewrite round_nan.
Qed.

(** C8: for a sample of fewer than 2 observations [_classic_ci] returns
    missing values (NaN) for the mean and both bounds, and for an empty
    sample so does [_bootstrap_ci], without raising and without drawing from
    the generator.  The loop goes on: the classical row of such a sample is
    followed by its bootstrap row and by the rows of the remaining groups and
    columns (for an empty sample both rows are missing and nothing can be
    raised), and the missing values are still missing in the rounded, sorted
    table that is returned. *)
Theorem missing_intervals_do_not_stop_the_table
        (arr : list F) (grp col : string) (mask : obs F -> bool)
        (rest : list ((string * (obs F -> bool)) * string))
        (cols : list string) (s : rng) :
  length arr < 2 ->
  _classic_ci arr = nan_ci (length arr)
  /\ _bootstrap_ci [] s = (Ok (nan_ci 0), s)
  /\ (column_data mask col = arr ->
      ci_rows (((grp, mask), col) :: rest) s
      = match _bootstrap_ci arr s with
        | (Ok b, s1) =>
          match ci_rows rest s1 with
          | (Ok rows, s') =>
            (Ok (missing_row grp col "Classical" (length arr)
                 :: {| Group := grp; series := col;
                       method := bootstrap_label n_bootstrap; ci := b |}
                 :: rows), s')
          | (Raise e, s') => (Raise e, s')
          end
        | (Raise e, s1) => (Raise e, s1)
        end)
  /\ (column_data mask col = [] ->
      ci_rows (((grp, mask), col) :: rest) s
      = match ci_rows rest s with
        | (Ok rows, s') =>
          (Ok (missing_row grp col "Classical" 0
               :: missing_row grp col (bootstrap_label n_bootstrap) 0
               :: rows), s')
        | (Raise e, s') => (Raise e, s')
        end)
  /\ (forall rows s',
         ci_rows (visits top_times event_col time_col cols) s = (Ok rows, s') ->
         exists table,
           confidence_intervals df top_times event_col time_col confidence
                                n_bootstrap cols s = (Ok table, s')
           /\ Permutation table (map (round_ci_row 4) rows)
           /\ forall g c m n, In (missing_row g c m n) rows ->
                              In (missing_row g c m n) table).
Proof.
  intros Hlen.
  assert (Hclassic : _classic_ci arr = nan_ci (length arr)).
  { unfold calculate._classic_ci.
    destruct (Nat.ltb_spec (length arr) 2); [reflexivity|lia]. }
  split; [exact Hclassic|]. split; [reflexivity|]. split; [|split].
  - intros Hdata. cbn [calculate.ci_rows]. rewrite Hdata, Hclassic.
    unfold bind, ret.
    destruct (_bootstrap_ci arr s) as [[b|e] s1]; [|reflexivity].
    destruct (ci_rows rest s1) as [[rows|e] s']; reflexivity.
  - intros Hdata. cbn [calculate.ci_rows]. rewrite Hdata.
    unfold bind at 1. cbn [calculate._bootstrap_ci length Nat.eqb ret].
    unfold bind, ret.
    destruct (ci_rows rest s) as [[rows|e] s']; reflexivity.
  - intros rows s' Hrows.
    unfold confidence_intervals, bind, ret. rewrite Hrows.
    eexists. split; [reflexivity|].
    split; [apply insertion_sort_Permutation|].
    intros g c m n Hin.
    eapply Permutation_in; [symmetry; apply insertion_sort_Permutation|].
    rewrite <- (round_missing_row 4). now apply in_map.
Qed.
End IntervalClaim.

(** ** Claim about the threshold of the priority test *)

Section PriorityClaim.
Context {F : Type} `{Float64 F}.
Import wrapper.
Local Open Scope num_scope.

Variable df : DataFrame F.
Variable top_times : list string.
Variables return_col time_col : string.

Notation slot_rows := (slot_rows df top_times time_col).
Notation abs_ret := (abs_ret df return_col).

Lemma filter_map_pair {X Y} (f : X -> Y) (keep : X -> bool) (l : list X) :
  map snd (filter (fun xy => keep (fst xy)) (map (fun x => (x, f x)) l))
  = map f (filter keep l).
Proof.
  induction l as [|x l IH]; simpl; [reflexivity|].
  destruct (keep x); simpl; now rewrite IH.
Qed.

Lemma filter_filter_pair {X Y} (keep1 keep2 : X -> bool) (l : list (X * Y)) :
  (forall x, keep2 x = true -> keep1 x = true) ->
  filter (fun xy => keep2 (fst xy)) (filter (fun xy => keep1 (fst xy)) l)
  = filter (fun xy => keep2 (fst xy)) l.
Proof.
  intros Himp. induction l as [|[x y] l IH]; simpl; [reflexivity|].
  destruct (keep1 x) eqn:E1; simpl.
  - destruct (keep2 x); now rewrite IH.
  - destruct (keep2 x) eqn:E2; [|exact IH].
    apply Himp in E2. congruence.
Qed.

(** C10: with the threshold argument ["median"], the threshold is the median
    of the magnitude column over all the rows of the target slots, whether
    or not they have a prioritized category; the binary outcome of every row
    is computed against it, and only then are the rows without a priority
    left out: each group holds the outcomes of the rows of one priority
    level, in increasing order of the levels. *)
Theorem priority_threshold_is_median_of_all_slot_rows
        (prio_map : list (string * Z)) :
  let all_rows := filter (isin time_col top_times) (records df) in
  let thr := median (map abs_ret all_rows) in
  let prios :=
    np_unique (flat_map (fun r => match news_prio prio_map r with
                                  | Some p => [p]
                                  | None => []
                                  end) all_rows) in
  high_threshold df top_times return_col time_col Median = thr
  /\ priority_groups df top_times return_col time_col prio_map Median
     = map (fun prio =>
              map (fun r => b2z (abs_ret r >=? thr))
                  (filter (has_prio prio_map prio) all_rows))
           prios.
Proof.
  intros all_rows thr prios. split; [reflexivity|].
  unfold priority_groups. fold all_rows. cbn [high_threshold]. fold all_rows thr.
  assert (Hprios :
            forall (t : F) (l : list (obs F)),
              flat_map (fun rh : obs F * Z =>
                          match news_prio prio_map (fst rh) with
                          | Some p => [p] | None => [] end)
                       (filter (fun rh : obs F * Z =>
                                  match news_prio prio_map (fst rh) with
                                  | Some _ => true | None => false end)
                               (map (fun r => (r, HighAbsRet df return_col t r)) l))
              = flat_map (fun r => match news_prio prio_map r with
                                   | Some p => [p] | None => [] end) l).
  { intros t l. induction l as [|r l IH]; simpl; [reflexivity|].
    destruct (news_prio prio_map r) eqn:E; simpl; rewrite ?E, IH; reflexivity. }
  unfold slot_rows. fold all_rows. rewrite Hprios. fold prios.
  apply map_ext. intros prio.
  rewrite (@filter_filter_pair (obs F) Z
             (fun r => match news_prio prio_map r with
                       | Some _ => true | None => false end)
             (has_prio prio_map prio)).
  - apply (filter_map_pair (HighAbsRet df return_col thr)
                           (has_prio prio_map prio)).
  - intros r. unfold has_prio. destruct (news_prio prio_map r); congruence.
Qed.
End PriorityClaim.

(* ================================================================== *)
(** * Concrete runs *)

#[export] Instance binary64_laws : @Float64Laws float Binary64.float64.
Proof. split; reflexivity. Qed.

#[export] Instance exact_laws : @Float64Laws Exact.xq Exact.float64.
Proof. split; reflexivity. Qed.

Section Runs.
Import Binary64 Rotation Reference Sample.
Import bootstrap tests wrapper calculate.
Local Open Scope float_scope.

(** C1, counterexample: for [x = [4, 5, 6]] and [y = [1, 2, 3]] the single
    reshuffle swaps the two groups, so its t-statistic is the opposite of the
    observed one: equal in absolute value, a hit for a two-sided test, yet the
    p-value returned is [0 / 1 = 0]. *)
Lemma ttest_permutation_pvalue_not_two_sided :
  let x := [4; 5; 6] in
  let y := [1; 2; 3] in
  let t_obs := fst (ttest_ind x y false) in
  perm_iterates 1 [3; 3]%nat (x ++ y) 3%Z = [[[1; 2; 3]; [4; 5; 6]]]
  /\ t_obs = 3.6742346141747673
  /\ t_of false [[1; 2; 3]; [4; 5; 6]] = -3.6742346141747673
  /\ f_ge (f_abs (t_of false [[1; 2; 3]; [4; 5; 6]])) (f_abs t_obs) = true
  /\ fst (ttest_two_samples x y false 1 3%Z)
     = Ok {| N_x := 3; N_y := 3; Mean_x := 5; Mean_y := 2;
             tests.t_stat := 3.6742346141747673; p_classic := nan;
             tests.p_perm := 0 |}.
Proof. repeat split; vm_compute; reflexivity. Qed.

(** C2, counterexample: with [num_samples = -3] the call returns the number
    [-0.0] instead of raising. *)
Lemma permutation_pvalue_negative_samples_returns :
  (-3 < 1)%Z
  /\ permutation_pvalue (ttest_stat_func false) [[4; 5; 6]; [1; 2; 3]] (-3)
                        false None 3%Z
     = (Ok (-0), 3%Z).
Proof. split; vm_compute; reflexivity. Qed.

(** C2, witness. *)
Lemma permutation_pvalue_nonpositive_samples_witness :
  permutation_pvalue (ttest_stat_func false) [[4; 5; 6]; [1; 2; 3]] 0 false None 3%Z
  = (Raise ZeroDivisionError, 3%Z)
  /\ forall n : Z,
      (n < 0)%Z ->
      permutation_pvalue (ttest_stat_func false) [[4; 5; 6]; [1; 2; 3]] n
                         false None 3%Z
      = (Ok (f_div (f_of_Z 0) (f_of_Z n)), 3%Z).
Proof.
  apply (@permutation_pvalue_nonpositive_samples
           float Binary64.float64 Rotation.random_state float
           (ttest_stat_func false) [[4; 5; 6]; [1; 2; 3]] false None
           3%Z 3.6742346141747673).
  - vm_compute. reflexivity.
  - discriminate.
Defined.

(** C3, counterexample: groups with fewer than 2 observations are accepted.
    With one observation against two, the F statistic is 3 and a result is
    returned; with two groups of one observation each (so [N = k = 2]) the F
    statistic is [0/0], and a result with a NaN statistic is returned. *)
Lemma anova_oneway_accepts_small_groups :
  let one_small : list (list float) := [[1]; [2; 3]] in
  let all_small : list (list float) := [[1]; [2]] in
  Exists (fun g => Nat.lt (length g) 2) one_small
  /\ fst (anova_oneway one_small 10 None 3%Z)
     = Ok {| f_statistic := 3; anova_p_parametric := nan; anova_p_perm := 0.7 |}
  /\ Forall (fun g => Nat.lt (length g) 2) all_small
  /\ Nat.le (sum_sizes (map (@length float) all_small)) (length all_small)
  /\ _f_statistic all_small = Ok nan
  /\ fst (anova_oneway all_small 10 None 3%Z)
     = Ok {| f_statistic := nan; anova_p_parametric := nan; anova_p_perm := 0 |}.
Proof.
  cbv zeta.
  split; [constructor; simpl; unfold Nat.lt; lia|].
  split; [vm_compute; reflexivity|].
  split; [repeat constructor|]. split; [simpl; unfold Nat.le; lia|].
  split; vm_compute; reflexivity.
Qed.

(** C3, witness: in [category_table] the rumor category, with one
    single-category row, is dropped and two groups of three are left. *)
Lemma anova_preconditions_witness :
  anova_groups category_table ["09:00"] "|Return|" "event_count" "time"
               ["macro"; "earnings"; "rumor"]
  = Ok [("macro", [1; 2; 3]); ("earnings", [2; 3; 7])]
  /\ exists p s',
      anova_oneway [[1; 2; 3]; [2; 3; 7]] 5 None 3%Z
      = (Ok {| f_statistic := 1.5; anova_p_parametric := nan; anova_p_perm := p |},
         s').
Proof.
  split; [vm_compute; reflexivity|].
  apply (proj2 (@anova_preconditions_enforced_by_caller
                  float Binary64.float64 Rotation.random_state
                  Reference.scipy_stats category_table ["09:00"] "|Return|"
                  "event_count" "time" 5 ["macro"; "earnings"; "rumor"] None 3%Z)
               [[1; 2; 3]; [2; 3; 7]] (1.5, nan)).
  - vm_compute. reflexivity.
  - discriminate.
  - discriminate.
Defined.

(** With a single category of 2 or more observations [show_category_anova]
    raises before calling [anova_oneway]. *)
Example show_category_anova_needs_two_categories :
  show_category_anova category_table ["09:00"] "|Return|" "event_count" "time" 5
                      ["macro"; "rumor"] None 3%Z
  = (Raise (ValueError "Need at least two categories with >=2 observations each."),
     3%Z).
Proof. vm_compute. reflexivity. Qed.

(** C7, counterexample: 5 observations with macro news (variance 10) against
    7 baseline observations (variance 7).  The table reports
    [4 / sqrt((10 + 7) / 2)], rounded; with the pooled standard deviation the
    effect size would be [4 / sqrt((4 * 10 + 6 * 7) / 10)]. *)
Lemma cohen_d_differs_from_pooled_effect_size :
  let g := cat_group news_table ["09:00"] "|Return|" "time" "macro" in
  let b := baseline news_table ["09:00"] "|Return|" "event_count" "time" in
  g = [2; 4; 6; 8; 10]
  /\ b = [1; 1; 1; 1; 1; 1; 8]
  /\ fst (show_category_ttests news_table ["09:00"] "|Return|" "event_count" "time"
                               10 false ["macro"] 0.05 3%Z)
     = Ok ([{| row := {| Category := "macro"; N_with := 5; N_baseline := 7;
                         Mean_with := 6; Mean_baseline := 2;
                         t_stat := 2.309401; p_perm := 0.1;
                         Cohen_d := 1.371989 |};
               p_perm_holm := 0.1 |}], [])
  /\ f_div (f_sub (np_mean g) (np_mean b)) (pooled_sd g b) = 1.3968605915391565
  /\ np_round 6 (f_div (f_sub (np_mean g) (np_mean b)) (pooled_sd g b)) = 1.396861.
Proof. repeat split; vm_compute; reflexivity. Qed.

(** C7, witness. *)
Lemma category_effect_size_witness :
  exists res sig_cats s',
    show_category_ttests news_table ["09:00"] "|Return|" "event_count" "time"
                         10 false ["macro"] 0.05 3%Z
    = (Ok (res, sig_cats), s')
    /\ exists r, In r res
         /\ Category (row r) = "macro"
         /\ Cohen_d (row r)
            = np_round 6
                (f_div (f_sub (np_mean (cat_group news_table ["09:00"] "|Return|"
                                                  "time" "macro"))
                              (np_mean (baseline news_table ["09:00"] "|Return|"
                                                 "event_count" "time")))
                       (np_sqrt
                          (f_div (f_add (np_var1 (cat_group news_table ["09:00"]
                                                            "|Return|" "time" "macro"))
                                        (np_var1 (baseline news_table ["09:00"]
                                                           "|Return|" "event_count"
                                                           "time")))
                                 (f_of_Z 2)))).
Proof.
  apply (@category_effect_size float Binary64.float64 Rotation.random_state
           Reference.scipy_stats Binary64.sqrt news_table ["09:00"] "|Return|"
           "event_count" "time" 10 false ["macro"] 0.05 3%Z "macro").
  - discriminate.
  - simpl. auto.
  - vm_compute. lia.
  - vm_compute. lia.
Defined.

(** C9, witness. *)
Lemma reshuffle_keeps_group_sizes_witness :
  Forall2 (regrouped_like [[4; 5; 6]; [1; 2; 3; 7]])
          (perm_pools 2 [4; 5; 6; 1; 2; 3; 7] 3%Z)
          (perm_iterates 2 [3; 4]%nat [4; 5; 6; 1; 2; 3; 7] 3%Z).
Proof.
  apply (@reshuffle_keeps_group_sizes float Binary64.float64 Rotation.random_state
           float (ttest_stat_func false)
           [[4; 5; 6]; [1; 2; 3; 7]] 2 false None 3%Z).
  discriminate.
Defined.

(** C8, witness: a sample of one observation, and the "With News" group of
    [quiet_table], which is empty. *)
Lemma missing_intervals_witness :
  _classic_ci 0.95 [1.5] = nan_ci 1
  /\ _bootstrap_ci 0.95 4 [] 3%Z = (Ok (nan_ci 0), 3%Z).
Proof.
  pose proof (@missing_intervals_do_not_stop_the_table
                float Binary64.float64 binary64_laws Rotation.random_state
                Binary64.sqrt Reference.resampling quiet_table ["09:00"] "event_count" "time" 0.95 4
                [1.5] "With News" "|Return|" (fun _ => false) [] ["|Return|"] 3%Z)
    as Hw.
  destruct Hw as [Hc [Hb _]]; [simpl; lia|].
  split; [exact Hc|exact Hb].
Defined.

(** The table of [quiet_table]: the empty "With News" group has missing
    intervals, the other two groups have theirs. *)
Example confidence_intervals_quiet_table :
  fst (confidence_intervals quiet_table ["09:00"] "event_count" "time" 0.95 4
                            ["|Return|"] 3%Z)
  = Ok [ {| Group := "All Times"; series := "|Return|"; method := "Bootstrap (4)";
            ci := {| mean := 2.3333; ci_lower := 2.025; ci_upper := 2.975;
                     n_obs := 3 |} |};
         {| Group := "All Times"; series := "|Return|"; method := "Classical";
            ci := {| mean := 2.3333; ci_lower := 0.6048; ci_upper := 4.0619;
                     n_obs := 3 |} |};
         missing_row "With News" "|Return|" "Bootstrap (4)" 0;
         missing_row "With News" "|Return|" "Classical" 0;
         {| Group := "Without News"; series := "|Return|"; method := "Bootstrap (4)";
            ci := {| mean := 2.3333; ci_lower := 1.3333; ci_upper := 2.5917;
                     n_obs := 3 |} |};
         {| Group := "Without News"; series := "|Return|"; method := "Classical";
            ci := {| mean := 2.3333; ci_lower := 0.6048; ci_upper := 4.0619;
                     n_obs := 3 |} |} ].
Proof. vm_compute. reflexivity. Qed.

(** The threshold of [priority_table] is the median 1 of all five rows, so
    both prioritized rows count as high; the median of the two prioritized
    rows alone would be 6. *)
Example priority_groups_use_the_overall_median :
  high_threshold priority_table ["09:00"] "|Return|" "time" Median = 1
  /\ priority_groups priority_table ["09:00"] "|Return|" "time"
                     [("macro", 2%Z)] Median
     = [[1%Z; 1%Z]]
  /\ median [5; 7] = 6.
Proof. repeat split; vm_compute; reflexivity. Qed.
End Runs.

Section ExactRuns.
Import Exact ExactFacts Rotation.
Import bootstrap tests wrapper.
Local Open Scope Q_scope.

(** C5, witness: 7 permutations of two groups of three, with the F statistic. *)
Lemma permutation_pvalue_in_unit_interval_witness :
  fst (permutation_pvalue _f_statistic
         [[Fin 1; Fin 2; Fin 3]; [Fin 2; Fin 3; Fin 7]] 7 false None 2%Z)
  = Ok (Fin (3 # 7))
  /\ in_unit_interval (Fin (3 # 7)).
Proof.
  assert (Hrun : fst (permutation_pvalue _f_statistic
                        [[Fin 1; Fin 2; Fin 3]; [Fin 2; Fin 3; Fin 7]] 7 false
                        None 2%Z) = Ok (Fin (3 # 7)))
    by (vm_compute; reflexivity).
  split; [exact Hrun|].
  assert (Hn : (1 <= 7)%Z) by lia.
  exact (proj1 (proj2 (@permutation_pvalue_in_unit_interval
                         Rotation.random_state xq
                         [[Fin 1; Fin 2; Fin 3]; [Fin 2; Fin 3; Fin 7]] 7 false
                         None 2%Z Hn))
               _f_statistic (Fin (3 # 7)) Hrun).
Defined.

(** C6, witness. *)
Lemma holm_adjusted_between_raw_and_one_witness :
  Forall2 (fun raw adj => le raw adj /\ le adj (f_of_Z 1))
          (sort_values (fun p => p) [Fin (1 # 5); Fin (1 # 100); Fin (1 # 50)])
          (holm_adjust [Fin (1 # 5); Fin (1 # 100); Fin (1 # 50)]).
Proof.
  apply (@holm_adjusted_between_raw_and_one
           [Fin (1 # 5); Fin (1 # 100); Fin (1 # 50)]).
  repeat constructor; unfold Qle; simpl; lia.
Defined.
End ExactRuns.

(* ================================================================== *)
(** * Further properties of the permutation engine *)

Section EngineMore.
Context {F : Type} `{Float64 F} `{RandomState} {A : Type}.
Variable stat_func : list (list A) -> result F.
Import bootstrap.

Lemma sub_arys_concat (groups : list (list A)) :
  forall (acc : nat) (ary tail : list A),
    skipn acc ary = concat groups ++ tail ->
    sub_arys ary acc (cumsum_from acc (map (@length A) groups)) = groups.
Proof.
  induction groups as [|g gs IH]; intros acc ary tail Hskip; simpl in *.
  - reflexivity.
  - unfold slice. replace (acc + length g - acc) with (length g) by lia.
    rewrite Hskip, <- app_assoc, firstn_app, firstn_all, Nat.sub_diag.
    simpl. rewrite app_nil_r. f_equal.
    apply (IH (acc + length g) ary tail).
    replace (acc + length g) with (length g + acc) by lia.
    rewrite <- skipn_skipn, Hskip, <- app_assoc.
    rewrite skipn_app, skipn_all, Nat.sub_diag. reflexivity.
Qed.

(** X3: [np.split] at the cumulated sizes undoes [np.concatenate]: cutting
    the pooled observations of a non-empty list of groups gives the groups
    back.  So an iteration whose shuffle leaves the pool as it is evaluates
    the statistic on the observed groups. *)
Theorem regroup_concat (groups : list (list A)) :
  groups <> [] ->
  regroup (concat groups) (map (@length A) groups) = groups.
Proof.
  intros Hne. unfold regroup, np_split, np_cumsum.
  rewrite length_concat_sizes.
  change (sum_sizes (map (@length A) groups))
    with (0 + sum_sizes (map (@length A) groups)).
  rewrite cumsum_from_last by (destruct groups; simpl; congruence).
  apply (sub_arys_concat groups 0 (concat groups) []).
  simpl. now rewrite app_nil_r.
Qed.

(** X2: exceptions of [permutation_pvalue].  An exception of the statistic on
    the observed groups is raised as it is, before any shuffle; an empty list
    of groups on which the statistic is defined fails in [np.concatenate]
    with a [ValueError]; and an exception of the statistic on the first
    reshuffled sample is raised as it is. *)
Theorem permutation_pvalue_exceptions
        (groups : list (list A)) (num_samples : Z) (two_sided : bool)
        (random_seed : option Z) (s : rng) :
  (forall e, stat_func groups = Raise e ->
             permutation_pvalue stat_func groups num_samples two_sided random_seed s
             = (Raise e, seeded random_seed s))
  /\ (forall t, stat_func [] = Ok t ->
                permutation_pvalue stat_func [] num_samples two_sided random_seed s
                = (Raise (ValueError "need at least one array to concatenate"),
                   seeded random_seed s))
  /\ (forall t e,
         stat_func groups = Ok t ->
         groups <> [] ->
         (1 <= num_samples)%Z ->
         stat_func (regroup (fst (np_random_shuffle (concat groups)
                                                    (seeded random_seed s)))
                            (map (@length A) groups)) = Raise e ->
         fst (permutation_pvalue stat_func groups num_samples two_sided
                                 random_seed s) = Raise e).
Proof.
  split; [|split].
  - intros e He. unfold permutation_pvalue, bind, lift, seed_if_given, seeded.
    destruct random_seed; rewrite He; reflexivity.
  - intros t Ht. unfold permutation_pvalue, bind, lift, seed_if_given, seeded.
    destruct random_seed; rewrite Ht; reflexivity.
  - intros t e Ht Hne Hn He.
    rewrite permutation_pvalue_spec, Ht.
    destruct groups as [|g gs]; [congruence|]. cbn [np_concatenate].
    destruct (Z.to_nat num_samples) as [|n] eqn:En; [lia|].
    unfold perm_iterates. cbn [perm_pools].
    destruct (np_random_shuffle (concat (g :: gs)) (seeded random_seed s))
      as [flat' s'] eqn:Es.
    rewrite map_cons. cbn [count_hits]. simpl fst in He. now rewrite He.
Qed.
End EngineMore.

Section EngineSides.
Context `{RandomState} {A : Type}.
Import Exact ExactFacts bootstrap.
Local Open Scope Q_scope.

Lemma one_sided_hit_is_two_sided (t : xq) (q : Q) :
  0 <= q -> hit false t (Fin q) = true -> hit true t (Fin q) = true.
Proof.
  intros Hq. unfold hit.
  destruct t as [a| | |]; try discriminate.
  - change (f_ge (Fin a) (Fin q)) with (Qle_bool q a).
    change (f_ge (f_abs (Fin a)) (f_abs (Fin q)))
      with (Qle_bool (Qred (Qabs q)) (Qred (Qabs a))).
    rewrite !Qle_bool_iff, !Qred_correct. intros Ha.
    rewrite !Qabs_pos; lra.
  - reflexivity.
Qed.

Lemma count_hits_sides (stat_func : list (list A) -> result xq) (q : Q)
      (iterates : list (list (list A))) :
  0 <= q ->
  forall c1 c2,
    count_hits stat_func false (Fin q) iterates = Ok c1 ->
    count_hits stat_func true (Fin q) iterates = Ok c2 ->
    (c1 <= c2)%Z.
Proof.
  intros Hq. induction iterates as [|res rest IH]; cbn [count_hits];
    intros c1 c2 H1 H2.
  - injection H1 as <-. injection H2 as <-. lia.
  - destruct (stat_func res) as [t|e]; [|discriminate].
    destruct (count_hits stat_func false (Fin q) rest) as [d1|e]; [|discriminate].
    destruct (count_hits stat_func true (Fin q) rest) as [d2|e]; [|discriminate].
    injection H1 as <-. injection H2 as <-.
    specialize (IH d1 d2 eq_refl eq_refl).
    pose proof (@one_sided_hit_is_two_sided t q Hq) as Hhit.
    change (b2z (hit false t (Fin q)) + d1 <= b2z (hit true t (Fin q)) + d2)%Z.
    destruct (hit false t (Fin q)).
    + rewrite Hhit by reflexivity. unfold b2z. lia.
    + destruct (hit true t (Fin q)); unfold b2z; lia.
Qed.

Lemma ratio_monotone (c1 c2 n : Z) :
  (1 <= n)%Z -> (c1 <= c2)%Z ->
  inject_Z c1 / inject_Z n <= inject_Z c2 / inject_Z n.
Proof.
  intros Hn Hc. unfold Qdiv. apply Qmult_le_compat_r.
  - now rewrite <- Zle_Qle.
  - apply Qinv_le_0_compat. unfold Qle; simpl; lia.
Qed.

(** X4: in exact arithmetic, when the observed statistic is finite and not
    negative, the two-sided p-value is at least the one-sided p-value computed
    from the same generator state: a reshuffled statistic that reaches the
    observed one also reaches it in absolute value. *)
Theorem two_sided_pvalue_at_least_one_sided
        (stat_func : list (list A) -> result xq) (groups : list (list A))
        (num_samples : Z) (random_seed : option Z) (s : rng)
        (q : Q) (p1 p2 : xq) :
  (1 <= num_samples)%Z ->
  stat_func groups = Ok (Fin q) ->
  0 <= q ->
  fst (permutation_pvalue stat_func groups num_samples false random_seed s) = Ok p1 ->
  fst (permutation_pvalue stat_func groups num_samples true random_seed s) = Ok p2 ->
  le p1 p2.
Proof.
  intros Hn Hobs Hq H1 H2.
  rewrite permutation_pvalue_spec, Hobs in H1, H2.
  destruct (np_concatenate groups) as [flat|e]; [|discriminate].
  destruct (count_hits stat_func false (Fin q) _) as [c1|e] eqn:E1; [|discriminate].
  destruct (count_hits stat_func true (Fin q) _) as [c2|e] eqn:E2; [|discriminate].
  pose proof (@count_hits_sides stat_func q _ Hq c1 c2 E1 E2) as Hc.
  apply count_hits_bounds in E1, E2.
  unfold perm_iterates in E1, E2.
  rewrite length_map, length_perm_pools in E1, E2.
  assert (Hb1 : (0 <= c1 <= num_samples)%Z) by lia.
  assert (Hb2 : (0 <= c2 <= num_samples)%Z) by lia.
  destruct (truediv_in_unit_interval Hn Hb1) as [Hd1 _].
  destruct (truediv_in_unit_interval Hn Hb2) as [Hd2 _].
  rewrite Hd1 in H1. rewrite Hd2 in H2.
  injection H1 as <-. injection H2 as <-.
  unfold le, fin.
  change (f_ge (Fin (Qred (inject_Z c2 / inject_Z num_samples)))
               (Fin (Qred (inject_Z c1 / inject_Z num_samples))))
    with (Qle_bool (Qred (inject_Z c1 / inject_Z num_samples))
                   (Qred (inject_Z c2 / inject_Z num_samples))).
  rewrite Qle_bool_iff, !Qred_correct. now apply ratio_monotone.
Qed.
End EngineSides.

(* ================================================================== *)
(** * Further properties of the chi-square test *)

(** The margins of a table of counts. *)
Definition zsum (l : list Z) : Z := fold_right Z.add 0%Z l.

Definition row_sums (table : list (list Z)) : list Z := map zsum table.

Definition col_sums (ncols : nat) (table : list (list Z)) : list Z :=
  map (fun j => zsum (map (fun r => nth j r 0%Z) table)) (seq 0 ncols).

(** A table of counts that [chi2_contingency] is documented to accept: it
    is a non-empty rectangle of non-negative counts, and no row or column
    is empty, so that no expected frequency is zero. *)
Definition positive_margins (table : list (list Z)) : Prop :=
  table <> []
  /\ Forall (Forall (Z.le 0)) table
  /\ exists k : nat,
      (0 < k)%nat
      /\ Forall (fun row => length row = k) table
      /\ Forall (Z.lt 0) (row_sums table)
      /\ Forall (Z.lt 0) (col_sums k table).

Section UniqueFacts.

Lemma insert_unique_In (z x : Z) (l : list Z) :
  In x (insert_unique z l) <-> x = z \/ In x l.
Proof.
  induction l as [|h t IH]; simpl; [intuition|].
  destruct (Z.ltb_spec z h); [simpl; intuition|].
  destruct (Z.eqb_spec z h); simpl; [subst; intuition|].
  rewrite IH. intuition.
Qed.

Lemma np_unique_In (x : Z) (l : list Z) : In x (np_unique l) <-> In x l.
Proof.
  induction l as [|h t IH]; simpl; [reflexivity|].
  rewrite insert_unique_In, IH. intuition.
Qed.

Lemma insert_unique_sorted (z : Z) (l : list Z) :
  StronglySorted Z.lt l -> StronglySorted Z.lt (insert_unique z l).
Proof.
  induction 1 as [|h t Hs IH Hall]; simpl; [repeat constructor|].
  destruct (Z.ltb_spec z h).
  - constructor; [now constructor|].
    constructor; [exact H|].
    eapply Forall_impl; [|exact Hall]. intros; simpl in *; lia.
  - destruct (Z.eqb_spec z h); [now constructor|].
    constructor; [exact IH|].
    apply Forall_forall. intros x Hx.
    apply insert_unique_In in Hx. destruct Hx as [->|Hx]; [lia|].
    rewrite Forall_forall in Hall. now apply Hall.
Qed.

Lemma np_unique_sorted (l : list Z) : StronglySorted Z.lt (np_unique l).
Proof.
  induction l as [|h t IH]; simpl; [constructor|].
  now apply insert_unique_sorted.
Qed.

Lemma sorted_same_elements (l1 : list Z) :
  forall l2,
    StronglySorted Z.lt l1 -> StronglySorted Z.lt l2 ->
    (forall x, In x l1 <-> In x l2) -> l1 = l2.
Proof.
  induction l1 as [|a l1 IH]; intros [|b l2] H1 H2 Hin.
  - reflexivity.
  - exfalso. apply (proj2 (Hin b)). now left.
  - exfalso. apply (proj1 (Hin a)). now left.
  - apply StronglySorted_inv in H1, H2.
    destruct H1 as [H1 Ha], H2 as [H2 Hb].
    rewrite Forall_forall in Ha, Hb.
    assert (a = b).
    { destruct (proj1 (Hin a) (or_introl eq_refl)) as [->|Hab]; [reflexivity|].
      destruct (proj2 (Hin b) (or_introl eq_refl)) as [->|Hba]; [reflexivity|].
      specialize (Ha _ Hba). specialize (Hb _ Hab). lia. }
    subst b. f_equal. apply IH; [exact H1|exact H2|].
    intros x. split; intros Hx.
    + destruct (proj1 (Hin x) (or_intror Hx)) as [<-|Hx']; [|exact Hx'].
      specialize (Ha _ Hx). lia.
    + destruct (proj2 (Hin x) (or_intror Hx)) as [<-|Hx']; [|exact Hx'].
      specialize (Hb _ Hx). lia.
Qed.

Lemma np_unique_Permutation (l l' : list Z) :
  Permutation l l' -> np_unique l = np_unique l'.
Proof.
  intros Hp. apply sorted_same_elements; try apply np_unique_sorted.
  intros x. rewrite !np_unique_In.
  split; apply Permutation_in; [exact Hp|now symmetry].
Qed.

Lemma count_label_cons (z x : Z) (arr : list Z) :
  count_label z (x :: arr) = (b2z (z =? x)%Z + count_label z arr)%Z.
Proof.
  unfold count_label. simpl. destruct (z =? x)%Z; simpl length; unfold b2z; lia.
Qed.

Lemma count_label_app (z : Z) (a b : list Z) :
  count_label z (a ++ b) = (count_label z a + count_label z b)%Z.
Proof.
  unfold count_label. rewrite filter_app, length_app. lia.
Qed.

Lemma count_label_concat (z : Z) (groups : list (list Z)) :
  count_label z (concat groups) = zsum (map (count_label z) groups).
Proof.
  induction groups as [|g gs IH]; simpl; [reflexivity|].
  now rewrite count_label_app, IH.
Qed.

Lemma count_label_Permutation (z : Z) (l l' : list Z) :
  Permutation l l' -> count_label z l = count_label z l'.
Proof.
  induction 1; rewrite ?count_label_cons; lia.
Qed.

Lemma zsum_indicator (x : Z) (levels : list Z) :
  StronglySorted Z.lt levels -> In x levels ->
  zsum (map (fun lvl => b2z (lvl =? x)%Z) levels) = 1%Z.
Proof.
  induction 1 as [|h t Hs IH Hall]; simpl; [contradiction|].
  rewrite Forall_forall in Hall. intros [->|Hx].
  - rewrite Z.eqb_refl.
    assert (Hz : zsum (map (fun lvl => b2z (lvl =? x)%Z) t) = 0%Z).
    { clear - Hall. induction t as [|y t IHt]; simpl; [reflexivity|].
      assert (x < y)%Z by (apply Hall; now left).
      destruct (Z.eqb_spec y x); [lia|].
      rewrite IHt; [reflexivity|]. intros z Hz. apply Hall. now right. }
    rewrite Hz. reflexivity.
  - specialize (Hall _ Hx). destruct (Z.eqb_spec h x); [lia|].
    rewrite (IH Hx). reflexivity.
Qed.

Lemma zsum_map_add (f g : Z -> Z) (l : list Z) :
  zsum (map (fun x => f x + g x)%Z l) = (zsum (map f l) + zsum (map g l))%Z.
Proof. induction l as [|x l IH]; simpl; lia. Qed.

Lemma zsum_counts (levels arr : list Z) :
  StronglySorted Z.lt levels ->
  (forall x, In x arr -> In x levels) ->
  zsum (map (fun lvl => count_label lvl arr) levels) = Z.of_nat (length arr).
Proof.
  intros Hs. induction arr as [|x arr IH]; intros Hin.
  - clear. induction levels; simpl; [reflexivity|]. rewrite IHlevels. reflexivity.
  - rewrite (map_ext _ (fun lvl => (b2z (lvl =? x)%Z + count_label lvl arr)%Z))
      by (intros; apply count_label_cons).
    rewrite zsum_map_add, zsum_indicator, IH; simpl length; try lia.
    + intros y Hy. apply Hin. now right.
    + exact Hs.
    + apply Hin. now left.
Qed.
End UniqueFacts.

Section ContingencyFacts.
Import bootstrap tests.

Lemma nth_map_lt {X Y : Type} (f : X -> Y) (l : list X) (d : Y) (d' : X) :
  forall j, (j < length l)%nat -> nth j (map f l) d = f (nth j l d').
Proof.
  induction l as [|x l IH]; simpl; intros [|j] Hj; try lia; [reflexivity|].
  apply IH. lia.
Qed.

Lemma col_sums_counts (levels : list Z) (groups : list (list Z)) :
  col_sums (length levels)
           (map (fun arr => map (fun lvl => count_label lvl arr) levels) groups)
  = map (fun lvl => count_label lvl (concat groups)) levels.
Proof.
  unfold col_sums.
  apply nth_ext with (d := 0%Z) (d' := 0%Z).
  - now rewrite !length_map, length_seq.
  - intros j Hj. rewrite length_map, length_seq in Hj.
    rewrite (nth_map_lt _ (seq 0 (length levels)) 0%Z 0%nat)
      by now rewrite length_seq.
    rewrite seq_nth by exact Hj. simpl Nat.add.
    rewrite (nth_map_lt _ levels 0%Z 0%Z) by exact Hj.
    rewrite map_map, count_label_concat.
    f_equal. apply map_ext. intros arr.
    now rewrite (nth_map_lt _ levels 0%Z 0%Z) by exact Hj.
Qed.

Lemma contingency_table_value (groups : list (list Z)) :
  groups <> [] ->
  contingency_table groups
  = Ok (map (fun arr => map (fun lvl => count_label lvl arr)
                            (np_unique (concat groups))) groups).
Proof. destruct groups; [congruence|reflexivity]. Qed.

Lemma row_sums_counts (levels : list Z) (groups : list (list Z)) :
  StronglySorted Z.lt levels ->
  (forall x, In x (concat groups) -> In x levels) ->
  row_sums (map (fun arr => map (fun lvl => count_label lvl arr) levels) groups)
  = map (fun arr => Z.of_nat (length arr)) groups.
Proof.
  intros Hs Hin. unfold row_sums. rewrite map_map.
  apply map_ext_in. intros arr Harr. apply zsum_counts; [exact Hs|].
  intros x Hx. apply Hin. apply in_concat. eauto.
Qed.
End ContingencyFacts.

Section ChiSquare.
Context {F : Type} `{Float64 F} `{RandomState} `{SciPyStats F}.
Import bootstrap tests.

Lemma count_label_pos (z : Z) (l : list Z) : In z l -> (0 < count_label z l)%Z.
Proof.
  induction l as [|x l IH]; simpl; [contradiction|].
  rewrite count_label_cons. intros [->|Hin].
  - rewrite Z.eqb_refl. unfold count_label, b2z. lia.
  - specialize (IH Hin). unfold b2z. destruct (z =? x)%Z; lia.
Qed.

Lemma contingency_table_shape (groups : list (list Z)) :
  groups <> [] ->
  let levels := np_unique (concat groups) in
  exists table,
    contingency_table groups = Ok table
    /\ length table = length groups
    /\ Forall (fun row => length row = length levels) table
    /\ (forall x, In x levels <-> In x (concat groups))
    /\ row_sums table = map (fun arr => Z.of_nat (length arr)) groups
    /\ col_sums (length levels) table
       = map (fun lvl => count_label lvl (concat groups)) levels.
Proof.
  intros Hne levels. eexists. split; [now apply contingency_table_value|].
  fold levels. split; [now rewrite length_map|]. split.
  { apply Forall_forall. intros row Hrow. apply in_map_iff in Hrow.
    destruct Hrow as [arr [<- _]]. now rewrite length_map. }
  split; [intros x; apply np_unique_In|]. split.
  - apply row_sums_counts; [apply np_unique_sorted|].
    intros x Hx. now apply np_unique_In.
  - apply col_sums_counts.
Qed.

Lemma zsum_lengths (groups : list (list Z)) :
  zsum (map (fun arr => Z.of_nat (length arr)) groups)
  = Z.of_nat (length (concat groups)).
Proof.
  induction groups as [|g gs IH]; simpl; [reflexivity|].
  rewrite length_app, IH. lia.
Qed.

(** X5: the table that [_chi2_statistic] and [chi2_independence] build has
    one row per group and one column per distinct label, the columns in
    increasing order of the labels without repetition; every row sums to the
    size of its group and every column to the number of occurrences of its
    label in the pooled data, so both margins add up to the number of pooled
    observations. *)
Theorem contingency_table_margins (groups : list (list Z)) :
  groups <> [] ->
  let levels := np_unique (concat groups) in
  exists table,
    contingency_table groups = Ok table
    /\ length table = length groups
    /\ Forall (fun row => length row = length levels) table
    /\ StronglySorted Z.lt levels
    /\ (forall x, In x levels <-> In x (concat groups))
    /\ row_sums table = map (fun arr => Z.of_nat (length arr)) groups
    /\ col_sums (length levels) table
       = map (fun lvl => count_label lvl (concat groups)) levels
    /\ zsum (row_sums table) = Z.of_nat (length (concat groups))
    /\ zsum (col_sums (length levels) table) = Z.of_nat (length (concat groups)).
Proof.
  intros Hne levels.
  destruct (contingency_table_shape Hne)
    as [table [Ht [Hlen [Hcols [Hin [Hrow Hcol]]]]]].
  fold levels in Hcols, Hin, Hcol.
  exists table. repeat (split; [assumption|]).
  split; [apply np_unique_sorted|].
  repeat (split; [assumption|]). split.
  - rewrite Hrow. apply zsum_lengths.
  - rewrite Hcol. apply zsum_counts; [apply np_unique_sorted|].
    intros x Hx. now apply Hin.
Qed.

(** X6: the permutation test of the chi-square statistic keeps both margins
    of the table fixed: in every iteration the reshuffled groups give a table
    with the same levels, the same row sums and the same column sums as the
    observed table. *)
Theorem permutation_keeps_table_margins
        (groups : list (list Z)) (n : nat) (s : rng) :
  groups <> [] ->
  let k := length (np_unique (concat groups)) in
  exists table,
    contingency_table groups = Ok table
    /\ Forall (fun res =>
                 exists table',
                   contingency_table res = Ok table'
                   /\ np_unique (concat res) = np_unique (concat groups)
                   /\ length table' = length table
                   /\ Forall (fun row => length row = k) table'
                   /\ row_sums table' = row_sums table
                   /\ col_sums k table' = col_sums k table)
              (perm_iterates n (map (@length Z) groups) (concat groups) s).
Proof.
  intros Hne k.
  destruct (contingency_table_shape Hne)
    as [table [Ht [Hlen [_ [_ [Hrow Hcol]]]]]].
  exists table. split; [exact Ht|].
  unfold perm_iterates. apply Forall_forall. intros res Hres.
  apply in_map_iff in Hres. destruct Hres as [pool [<- Hpool]].
  pose proof (perm_pools_Permutation n (concat groups) s) as Hperm.
  rewrite Forall_forall in Hperm. specialize (Hperm _ Hpool).
  assert (Hsz : map (@length Z) groups <> [])
    by (destruct groups; simpl; congruence).
  assert (Hl : length pool = sum_sizes (map (@length Z) groups)).
  { rewrite (Permutation_length Hperm). apply length_concat_sizes. }
  destruct (regroup_sizes pool Hsz Hl) as [Hsizes Hconcat].
  set (res := regroup pool (map (@length Z) groups)) in *.
  assert (Hres : res <> []).
  { intros E. rewrite E in Hsizes. simpl in Hsizes. now symmetry in Hsizes. }
  destruct (contingency_table_shape Hres)
    as [table' [Ht' [Hlen' [Hcols' [_ [Hrow' Hcol']]]]]].
  assert (Hlev : np_unique (concat res) = np_unique (concat groups)).
  { rewrite Hconcat. now apply np_unique_Permutation. }
  rewrite Hlev in Hcols', Hcol'. fold k in Hcols', Hcol'.
  exists table'. split; [exact Ht'|]. split; [exact Hlev|]. split.
  { rewrite Hlen', Hlen, <- (length_map (@length Z) res), Hsizes.
    now rewrite length_map. }
  split; [exact Hcols'|]. split.
  - rewrite Hrow', Hrow.
    rewrite <- (map_map (@length Z) Z.of_nat res), Hsizes.
    now rewrite map_map.
  - rewrite Hcol'. fold k in Hcol. rewrite Hcol.
    apply map_ext. intros lvl. rewrite Hconcat.
    now apply count_label_Permutation.
Qed.

Lemma table_positive_margins (groups : list (list Z)) :
  groups <> [] ->
  Forall (fun g => g <> []) groups ->
  exists table, contingency_table groups = Ok table /\ positive_margins table.
Proof.
  intros Hne Hall.
  destruct (contingency_table_shape Hne)
    as [table [Ht [Hlen [Hcols [Hin [Hrow Hcol]]]]]].
  exists table. split; [exact Ht|]. split.
  { intros E. rewrite E in Hlen. destruct groups; simpl in Hlen; congruence. }
  split.
  { rewrite contingency_table_value in Ht by exact Hne. injection Ht as <-.
    apply Forall_forall. intros row Hr. apply in_map_iff in Hr.
    destruct Hr as [arr [<- _]]. apply Forall_forall. intros c Hc.
    apply in_map_iff in Hc. destruct Hc as [lvl [<- _]].
    unfold count_label. lia. }
  exists (length (np_unique (concat groups))). split.
  { destruct groups as [|g gs]; [congruence|].
    apply Forall_inv in Hall. destruct g as [|x g]; [congruence|].
    assert (Hx : In x (np_unique (concat ((x :: g) :: gs))))
      by (apply Hin; now left).
    destruct (np_unique (concat ((x :: g) :: gs))); [contradiction|simpl; lia]. }
  split; [exact Hcols|]. split.
  - rewrite Hrow. apply Forall_forall. intros z Hz. apply in_map_iff in Hz.
    destruct Hz as [arr [<- Harr]]. rewrite Forall_forall in Hall.
    specialize (Hall _ Harr). destruct arr; [congruence|simpl length; lia].
  - rewrite Hcol. apply Forall_forall. intros z Hz. apply in_map_iff in Hz.
    destruct Hz as [lvl [<- Hlvl]]. apply count_label_pos. now apply Hin.
Qed.

Lemma permutation_pvalue_returns_on {A} (stat_func : list (list A) -> result F)
      (groups : list (list A)) (n : Z) (two_sided : bool)
      (random_seed : option Z) (s : rng) (t_obs : F) :
  groups <> [] ->
  n <> 0%Z ->
  stat_func groups = Ok t_obs ->
  Forall (fun res => exists t, stat_func res = Ok t)
         (perm_iterates (Z.to_nat n) (map (@length A) groups) (concat groups)
                        (seeded random_seed s)) ->
  exists hits s',
    permutation_pvalue stat_func groups n two_sided random_seed s
    = (Ok (f_div (f_of_Z hits) (f_of_Z n)), s')
    /\ count_hits stat_func two_sided t_obs
         (perm_iterates (Z.to_nat n) (map (@length A) groups) (concat groups)
                        (seeded random_seed s)) = Ok hits.
Proof.
  intros Hne Hn Hobs Hall.
  pose proof (permutation_pvalue_spec stat_func groups n two_sided random_seed s)
    as Hspec.
  rewrite Hobs in Hspec.
  destruct groups as [|g gs]; [congruence|]. cbn [np_concatenate] in Hspec.
  destruct (count_hits_defined stat_func two_sided t_obs Hall) as [c Hc].
  rewrite Hc in Hspec. unfold py_truediv in Hspec.
  destruct (Z.eqb_spec n 0); [congruence|].
  destruct (permutation_pvalue stat_func (g :: gs) n two_sided random_seed s)
    as [r s'].
  simpl in Hspec. subst r. eauto.
Qed.

Lemma chi2_independence_value
        (groups : list (list Z)) (n : Z) (random_seed : option Z) (s : rng) :
  (forall table, positive_margins table ->
                 exists r, chi2_contingency table = Ok r) ->
  groups <> [] ->
  Forall (fun g => g <> []) groups ->
  n <> 0%Z ->
  exists table chi2 p hits s',
    contingency_table groups = Ok table
    /\ chi2_contingency table = Ok (chi2, p)
    /\ (0 <= hits <= Z.of_nat (Z.to_nat n))%Z
    /\ chi2_independence groups n random_seed s
       = (Ok {| chi2_statistic := chi2; chi2_p_parametric := p;
                chi2_p_perm := f_div (f_of_Z hits) (f_of_Z n) |}, s').
Proof.
  intros Hacc Hne Hall Hn.
  assert (Hstat : forall gs, gs <> [] -> Forall (fun g => g <> []) gs ->
            exists table c p,
              contingency_table gs = Ok table
              /\ chi2_contingency table = Ok (c, p)
              /\ _chi2_statistic gs = Ok c).
  { intros gs Hgs Hgall.
    destruct (table_positive_margins Hgs Hgall) as [t [Ht Hpos]].
    destruct (Hacc t Hpos) as [[c p] Hc].
    exists t, c, p. split; [exact Ht|]. split; [exact Hc|].
    unfold _chi2_statistic. now rewrite Ht, Hc. }
  destruct (Hstat groups Hne Hall) as [table [chi2 [p [Ht [Hc Hobs]]]]].
  assert (Hiter : Forall (fun res => exists t, _chi2_statistic res = Ok t)
            (perm_iterates (Z.to_nat n) (map (@length Z) groups) (concat groups)
                           (seeded random_seed s))).
  { unfold perm_iterates. apply Forall_forall. intros res Hres.
    apply in_map_iff in Hres. destruct Hres as [pool [<- Hpool]].
    pose proof (perm_pools_Permutation (Z.to_nat n) (concat groups)
                  (seeded random_seed s)) as Hperm.
    rewrite Forall_forall in Hperm. specialize (Hperm _ Hpool).
    assert (Hsz : map (@length Z) groups <> [])
      by (destruct groups; simpl; congruence).
    assert (Hl : length pool = sum_sizes (map (@length Z) groups)).
    { rewrite (Permutation_length Hperm). apply length_concat_sizes. }
    destruct (regroup_sizes pool Hsz Hl) as [Hsizes _].
    set (res := regroup pool (map (@length Z) groups)) in *.
    destruct (Hstat res) as [t' [c' [p' [_ [_ Hs]]]]]; [| |eauto].
    - apply regroup_nonempty.
    - apply Forall_forall. intros g Hg E. subst g.
      assert (Hz : In 0%nat (map (@length Z) groups)).
      { rewrite <- Hsizes. apply in_map_iff. exists []. auto. }
      apply in_map_iff in Hz. destruct Hz as [g [Hg0 Hgin]].
      rewrite Forall_forall in Hall. specialize (Hall _ Hgin).
      destruct g; [congruence|discriminate]. }
  destruct (permutation_pvalue_returns_on _chi2_statistic false random_seed s
              Hne Hn Hobs Hiter) as [hits [s' [Hp Hcount]]].
  apply count_hits_bounds in Hcount. unfold perm_iterates in Hcount.
  rewrite length_map, length_perm_pools in Hcount.
  exists table, chi2, p, hits, s'.
  split; [exact Ht|]. split; [exact Hc|]. split; [exact Hcount|].
  unfold chi2_independence, bind, lift, ret.
  rewrite Hobs, Ht, Hc, Hp. reflexivity.
Qed.

(** X7: [chi2_independence] returns whenever there is at least one group, no
    group is empty and the number of permutations is not zero, given that
    [chi2_contingency] accepts every table of non-negative counts without an
    empty row or column.  The result carries the statistic and classical
    p-value of the observed table, and as permutation p-value the number of
    hits divided by the number of permutations. *)
Theorem chi2_independence_returns
        (groups : list (list Z)) (n : Z) (random_seed : option Z) (s : rng) :
  (forall table, positive_margins table ->
                 exists r, chi2_contingency table = Ok r) ->
  groups <> [] ->
  Forall (fun g => g <> []) groups ->
  n <> 0%Z ->
  exists table chi2 p hits s',
    contingency_table groups = Ok table
    /\ chi2_contingency table = Ok (chi2, p)
    /\ (0 <= hits <= Z.of_nat (Z.to_nat n))%Z
    /\ chi2_independence groups n random_seed s
       = (Ok {| chi2_statistic := chi2; chi2_p_parametric := p;
                chi2_p_perm := f_div (f_of_Z hits) (f_of_Z n) |}, s').
Proof. apply chi2_independence_value. Qed.
End ChiSquare.

(** The textbook statistic accepts the tables described by
    [positive_margins]. *)
Section TextbookAccepts.
Context {F : Type} `{Float64 F}.

Lemma max_length_rectangle (k : nat) (table : list (list Z)) :
  table <> [] ->
  Forall (fun row => length row = k) table ->
  fold_right Nat.max 0%nat (map (@length Z) table) = k.
Proof.
  intros Hne Hall. induction Hall as [|row rest Hrow Hrest IH]; [congruence|].
  simpl. destruct rest as [|r rest'].
  - simpl. lia.
  - rewrite IH by congruence. lia.
Qed.

Lemma existsb_zero_positive (l : list Z) :
  Forall (Z.lt 0) l -> existsb (Z.eqb 0) l = false.
Proof.
  induction 1 as [|z l Hz _ IH]; cbn [existsb]; [reflexivity|].
  rewrite IH. destruct z; [lia|reflexivity|lia].
Qed.

Lemma pearson_chi2_accepts (table : list (list Z)) :
  positive_margins table -> exists c : F, pearson_chi2 table = Ok c.
Proof.
  intros [Hne [_ [k [_ [Hrect [Hrows Hcols]]]]]].
  unfold pearson_chi2. cbv zeta.
  rewrite (max_length_rectangle Hne Hrect).
  change (map (fold_right Z.add 0%Z) table) with (row_sums table).
  change (map (fun j => fold_right Z.add 0%Z (map (fun r => nth j r 0%Z) table))
              (seq 0 k)) with (col_sums k table).
  rewrite (existsb_zero_positive Hrows), (existsb_zero_positive Hcols).
  simpl orb. eauto.
Qed.

Lemma textbook_chi2_accepts `{Sqrt F} (table : list (list Z)) :
  positive_margins table ->
  exists r, @chi2_contingency F textbook_stats table = Ok r.
Proof.
  intros Hpos. destruct (pearson_chi2_accepts Hpos) as [c Hc].
  simpl. rewrite Hc. eauto.
Qed.
End TextbookAccepts.

(** ** Concrete runs of the further properties *)

Section MoreRuns.
Import Binary64 Rotation Reference.
Import bootstrap tests.
Local Open Scope Z_scope.

(** X3, witness: two groups of sizes 2 and 1. *)
Lemma regroup_concat_witness :
  regroup (concat [[1; 2]; [3]]) (map (@length Z) [[1; 2]; [3]]) = [[1; 2]; [3]].
Proof.
  apply (@regroup_concat Z [[1; 2]; [3]]). discriminate.
Defined.

(** X5, witness: two groups over the labels 0 and 1. *)
Lemma contingency_table_margins_witness :
  exists table,
    contingency_table [[0; 1; 1]; [0; 0; 1]] = Ok table
    /\ row_sums table = [3; 3]
    /\ col_sums 2 table = [3; 3].
Proof.
  destruct (@contingency_table_margins [[0; 1; 1]; [0; 0; 1]])
    as [table [Ht [_ [_ [_ [_ [Hrow [Hcol _]]]]]]]]; [discriminate|].
  exists table. split; [exact Ht|]. split; [exact Hrow|exact Hcol].
Defined.

(** X6, witness: three reshuffles of the same two groups. *)
Lemma permutation_keeps_table_margins_witness :
  exists table,
    contingency_table [[0; 1; 1]; [0; 0; 1]] = Ok table
    /\ Forall (fun res =>
                 exists table',
                   contingency_table res = Ok table'
                   /\ row_sums table' = row_sums table
                   /\ col_sums 2 table' = col_sums 2 table)
              (perm_iterates 3 [3; 3]%nat [0; 1; 1; 0; 0; 1] 5).
Proof.
  destruct (@permutation_keeps_table_margins Rotation.random_state
              [[0; 1; 1]; [0; 0; 1]] 3 5)
    as [table [Ht Hall]]; [discriminate|].
  exists table. split; [exact Ht|].
  eapply Forall_impl; [|exact Hall].
  intros res [table' [Ht' [_ [_ [_ [Hr Hc]]]]]].
  exists table'. split; [exact Ht'|]. split; [exact Hr|exact Hc].
Defined.

(** X7, witness: the same groups with the textbook statistic. *)
Lemma chi2_independence_returns_witness :
  exists table chi2 p hits s',
    contingency_table [[0; 1; 1]; [0; 0; 1]] = Ok table
    /\ chi2_contingency table = Ok (chi2, p)
    /\ (0 <= hits <= Z.of_nat (Z.to_nat 3))%Z
    /\ chi2_independence [[0; 1; 1]; [0; 0; 1]] 3 None 5
       = (Ok {| chi2_statistic := chi2; chi2_p_parametric := p;
                chi2_p_perm := f_div (f_of_Z hits) (f_of_Z 3) |}, s').
Proof.
  apply (@chi2_independence_returns float Binary64.float64 Rotation.random_state
           Reference.scipy_stats [[0; 1; 1]; [0; 0; 1]] 3 None 5).
  - intros table Hpos. apply (textbook_chi2_accepts Hpos).
  - discriminate.
  - repeat (constructor; [discriminate|]). constructor.
  - lia.
Defined.
End MoreRuns.

(* ================================================================== *)
(** * Further properties of the wrappers *)

Section TTestRuns.
Context {F : Type} `{Float64 F} `{RandomState} `{SciPyStats F}.
Import bootstrap tests.
Local Open Scope num_scope.

Lemma ttest_two_samples_value (x y : list F) (equal_var : bool) (n : Z) (s : rng) :
  n <> 0%Z ->
  exists p s',
    ttest_two_samples x y equal_var n s
    = (Ok {| N_x := length x; N_y := length y;
             Mean_x := np_mean x; Mean_y := np_mean y;
             t_stat := fst (ttest_ind x y equal_var);
             p_classic := snd (ttest_ind x y equal_var);
             p_perm := p |}, s').
Proof.
  intros Hn. unfold ttest_two_samples.
  destruct (ttest_ind x y equal_var) as [t p] eqn:Ett. unfold bind.
  pose proof (permutation_pvalue_spec (ttest_stat_func equal_var) [x; y]
                n false None s) as Hspec.
  simpl in Hspec. unfold perm_iterates in Hspec.
  rewrite count_hits_ttest in Hspec. unfold py_truediv in Hspec.
  destruct (Z.eqb_spec n 0); [congruence|].
  destruct (permutation_pvalue (ttest_stat_func equal_var) [x; y] n false None s)
    as [r s'].
  simpl in Hspec. subst r. eexists _, s'. reflexivity.
Qed.

Lemma ttest_two_samples_zero (x y : list F) (equal_var : bool) (s : rng) :
  ttest_two_samples x y equal_var 0 s = (Raise ZeroDivisionError, s).
Proof.
  unfold ttest_two_samples.
  destruct (ttest_ind x y equal_var) as [t p] eqn:Ett. unfold bind.
  rewrite permutation_pvalue_no_iteration by lia.
  reflexivity.
Qed.
End TTestRuns.

Section NewsTests.
Context {F : Type} `{Float64 F} `{RandomState} `{SciPyStats F} `{Sqrt F}.
Import tests wrapper.
Local Open Scope num_scope.

Variable df : DataFrame F.
Variable top_times : list string.
Variables return_col event_col time_col : string.
Variable equal_var : bool.

Notation with_news := (with_news df top_times return_col event_col time_col).
Notation no_news := (no_news df top_times return_col event_col time_col).

(** What [ttest_two_samples] reports about the samples of one slot. *)
Definition describes_slot (r : NewsRow F) : Prop :=
  N_x (stats r) = length (with_news (Time r))
  /\ N_y (stats r) = length (no_news (Time r))
  /\ Mean_x (stats r) = np_mean (with_news (Time r))
  /\ Mean_y (stats r) = np_mean (no_news (Time r)).

Lemma news_rows_spec (num_permutations : Z) (groups : list string) :
  num_permutations <> 0%Z ->
  forall s, exists rows s',
    news_rows df top_times return_col event_col time_col num_permutations
              equal_var groups s = (Ok rows, s')
    /\ map (@Time F) rows = groups
    /\ Forall describes_slot rows.
Proof.
  intros Hn. induction groups as [|slot rest IH]; intros s.
  - exists [], s. repeat split. constructor.
  - cbn [news_rows].
    destruct (ttest_two_samples_value (with_news slot) (no_news slot)
                equal_var s Hn) as [p [s1 Ht]].
    destruct (IH s1) as [rows [s2 [Hrows [Htimes Hall]]]].
    unfold bind at 1. rewrite Ht. unfold bind at 1. rewrite Hrows.
    eexists _, s2. split; [reflexivity|]. split.
    + cbn. now rewrite Htimes.
    + constructor; [|exact Hall]. unfold describes_slot. cbn. auto.
Qed.

(** X8: with a non-zero number of permutations [show_news_ttests] returns.
    Its table has one row per entry of [top_times], in that order, followed
    by the row ["All Times"]; the sample sizes in a row are the numbers of
    non-missing returns of the slot with and without news.  The slots it
    returns are exactly the slots other than ["All Times"] whose rounded
    permutation p-value is below [alpha], so they are all among
    [top_times]. *)
Theorem show_news_ttests_slots (num_permutations : Z) (alpha : F) (s : rng) :
  num_permutations <> 0%Z ->
  exists res sig_times s',
    show_news_ttests df top_times return_col event_col time_col
                     num_permutations equal_var alpha s
    = (Ok (res, sig_times), s')
    /\ map (@Time F) res = top_times ++ ["All Times"]
    /\ Forall (fun r => N_x (stats r) = length (with_news (Time r))
                        /\ N_y (stats r) = length (no_news (Time r))) res
    /\ (forall t, In t sig_times <->
                  t <> "All Times"
                  /\ exists r, In r res /\ Time r = t
                               /\ (tests.p_perm (stats r) <? alpha) = true)
    /\ incl sig_times top_times
    /\ length sig_times <= length top_times.
Proof.
  intros Hn.
  destruct (@news_rows_spec num_permutations (top_times ++ ["All Times"]) Hn s)
    as [rows [s' [Hrows [Htimes Hall]]]].
  unfold show_news_ttests, bind, ret. rewrite Hrows.
  eexists _, _, s'. split; [reflexivity|].
  set (res := map (round_news_row 6) rows).
  assert (Hres : map (@Time F) res = top_times ++ ["All Times"]).
  { subst res. rewrite map_map. cbn [round_news_row Time]. exact Htimes. }
  assert (Hmem : forall t, In t (map (@Time F) (filter (significant_slot alpha) res))
                           <-> t <> "All Times"
                               /\ exists r, In r res /\ Time r = t
                                            /\ (tests.p_perm (stats r) <? alpha) = true).
  { intros t. rewrite in_map_iff. split.
    - intros [r [Ht Hr]]. apply filter_In in Hr. destruct Hr as [Hr Hs].
      unfold significant_slot in Hs. apply andb_true_iff in Hs.
      destruct Hs as [Hne Hp]. apply negb_true_iff in Hne.
      apply String.eqb_neq in Hne. subst t. split; [exact Hne|]. eauto.
    - intros [Hne [r [Hr [Ht Hp]]]]. exists r. split; [exact Ht|].
      apply filter_In. split; [exact Hr|].
      unfold significant_slot. rewrite Hp, Ht.
      apply String.eqb_neq in Hne. now rewrite Hne. }
  split; [exact Hres|]. split.
  { subst res. apply Forall_forall. intros r Hr. apply in_map_iff in Hr.
    destruct Hr as [r0 [<- Hr0]]. rewrite Forall_forall in Hall.
    destruct (Hall _ Hr0) as [Hx [Hy _]]. cbn. auto. }
  split; [exact Hmem|]. split.
  - intros t Ht. apply Hmem in Ht. destruct Ht as [Hne [r [Hr [Ht _]]]].
    assert (Hin : In t (top_times ++ ["All Times"])).
    { rewrite <- Hres. apply in_map_iff. eauto. }
    apply in_app_or in Hin. destruct Hin as [Hin|[Heq|[]]]; [exact Hin|].
    congruence.
  - assert (Hsplit : exists body last,
               res = body ++ [last] /\ Time last = "All Times"
               /\ length body = length top_times).
    { destruct (@exists_last _ res) as [body [last Hbl]].
      { intros E. rewrite E in Hres. destruct top_times; discriminate. }
      exists body, last. split; [exact Hbl|].
      rewrite Hbl, map_app in Hres. cbn [map] in Hres.
      apply app_inj_tail in Hres. destruct Hres as [Hb Hl].
      split; [exact Hl|]. now rewrite <- Hb, length_map. }
    destruct Hsplit as [body [last [Hbl [Hlast Hlen]]]].
    rewrite Hbl, filter_app, map_app, length_app. cbn [filter].
    unfold significant_slot at 2. rewrite Hlast, String.eqb_refl.
    cbn [negb andb map length app].
    rewrite length_map, Nat.add_0_r, <- Hlen. apply filter_length_le.
Qed.

(** X9: with zero permutations [show_news_ttests] raises
    [ZeroDivisionError] in the t-test of its first slot, whatever the table
    and the slots, also for an empty list of slots, since the row
    ["All Times"] is always tested; the generator is left untouched. *)
Theorem show_news_ttests_zero_permutations (alpha : F) (s : rng) :
  show_news_ttests df top_times return_col event_col time_col 0 equal_var alpha s
  = (Raise ZeroDivisionError, s).
Proof.
  unfold show_news_ttests, bind.
  destruct (top_times ++ ["All Times"]) as [|slot rest] eqn:E.
  - destruct top_times; discriminate.
  - cbn [news_rows]. unfold bind. now rewrite ttest_two_samples_zero.
Qed.
End NewsTests.

Section CategoryTests.
Context {F : Type} `{Float64 F} `{RandomState} `{SciPyStats F} `{Sqrt F}.
Import tests wrapper.
Local Open Scope num_scope.

Variable df : DataFrame F.
Variable top_times : list string.
Variables return_col event_col time_col : string.
Variable num_permutations : Z.
Variable equal_var : bool.

Notation baseline := (baseline df top_times return_col event_col time_col).
Notation cat_group := (cat_group df top_times return_col time_col).
Notation ttest_rows :=
  (ttest_rows df top_times return_col event_col time_col num_permutations equal_var).
Notation show_category_ttests :=
  (show_category_ttests df top_times return_col event_col time_col
                        num_permutations equal_var).

(** [group.size >= 5 and baseline.size >= 5] *)
Definition large_enough (cat : string) : bool :=
  Nat.leb 5 (length (cat_group cat)) && Nat.leb 5 (length baseline).


Lemma ttest_rows_categories (categories : list string) :
  num_permutations <> 0%Z ->
  forall s, exists rows s',
    ttest_rows categories s = (Ok rows, s')
    /\ map (@Category F) rows = filter large_enough categories
    /\ Forall (fun r => N_with r = length (cat_group (Category r))
                        /\ N_baseline r = length baseline) rows.
Proof.
  intros Hn. induction categories as [|c cats IH]; intros s.
  - exists [], s. repeat split. constructor.
  - cbn [wrapper.ttest_rows filter]. unfold large_enough at 1.
    destruct (Nat.leb 5 (length (cat_group c)) && Nat.leb 5 (length baseline)).
    + destruct (ttest_two_samples_value (cat_group c) baseline equal_var s Hn)
        as [p [s1 Ht]].
      destruct (IH s1) as [rows [s2 [Hrows [Hcats Hall]]]].
      unfold bind at 1. rewrite Ht. unfold bind at 1. rewrite Hrows.
      eexists _, s2. split; [reflexivity|]. split.
      * cbn. now rewrite Hcats.
      * constructor; [cbn; auto|exact Hall].
    + apply IH.
Qed.


(** X11: with a non-zero number of permutations and at least one category
    of at least 5 observations against a baseline of at least 5,
    [show_category_ttests] returns.  The table has one row per such
    category (as often as it is listed), with the sizes of its two samples;
    the categories returned are exactly those of the rows whose
    Holm-adjusted p-value is below [alpha]. *)
Theorem show_category_ttests_table
        (categories : list string) (alpha : F) (s : rng) (cat : string) :
  num_permutations <> 0%Z ->
  In cat categories ->
  5 <= length (cat_group cat) ->
  5 <= length baseline ->
  exists res sig_cats s',
    show_category_ttests categories alpha s = (Ok (res, sig_cats), s')
    /\ Permutation (map (fun r => Category (row r)) res)
                   (filter large_enough categories)
    /\ Forall (fun r => N_with (row r) = length (cat_group (Category (row r)))
                        /\ N_baseline (row r) = length baseline
                        /\ 5 <= N_with (row r) /\ 5 <= N_baseline (row r)) res
    /\ (forall c, In c sig_cats <->
                  exists r, In r res /\ Category (row r) = c
                            /\ (p_perm_holm r <? alpha) = true)
    /\ incl sig_cats categories
    /\ length sig_cats <= length res <= length categories.
Proof.
  intros Hn Hcat Hg Hb.
  destruct (@ttest_rows_categories categories Hn s)
    as [rows [s' [Hrows [Hcats Hall]]]].
  assert (Hq : In cat (filter large_enough categories)).
  { apply filter_In. split; [exact Hcat|]. unfold large_enough.
    apply andb_true_iff. split; apply Nat.leb_le; lia. }
  unfold wrapper.show_category_ttests, bind. rewrite Hrows.
  destruct rows as [|r0 rows0] eqn:Erows.
  { simpl in Hcats. rewrite <- Hcats in Hq. contradiction. }
  rewrite <- Erows in *. clear Erows r0 rows0.
  eexists _, _, s'. split; [reflexivity|].
  set (res := holm_table rows).
  assert (Hperm : Permutation (map (@row F) res) (map (round_row 6) rows)).
  { subst res. rewrite holm_table_rows. apply insertion_sort_Permutation. }
  assert (Hnames : Permutation (map (fun r => Category (row r)) res)
                               (filter large_enough categories)).
  { rewrite <- Hcats.
    change (fun r : HolmRow F => Category (row r))
      with (fun r : HolmRow F => @Category F (row r)).
    rewrite <- (map_map (@row F) (@Category F)).
    rewrite (Permutation_map (@Category F) Hperm).
    rewrite map_map. cbn [round_row Category]. reflexivity. }
  assert (Hmem : forall c,
             In c (map (fun r => Category (row r))
                       (filter (fun r => p_perm_holm r <? alpha) res))
             <-> exists r, In r res /\ Category (row r) = c
                           /\ (p_perm_holm r <? alpha) = true).
  { intros c. rewrite in_map_iff. split.
    - intros [r [Hc Hr]]. apply filter_In in Hr. destruct Hr as [Hr Hp]. eauto.
    - intros [r [Hr [Hc Hp]]]. exists r. split; [exact Hc|].
      apply filter_In. auto. }
  split; [exact Hnames|]. split.
  { apply Forall_forall. intros hr Hhr.
    assert (Hin : In (row hr) (map (round_row 6) rows)).
    { eapply Permutation_in; [exact Hperm|]. now apply in_map. }
    apply in_map_iff in Hin. destruct Hin as [r [Hr Hrin]].
    rewrite Forall_forall in Hall. destruct (Hall _ Hrin) as [Hw Hbase].
    assert (Hlarge : In (Category r) (filter large_enough categories)).
    { rewrite <- Hcats. now apply in_map. }
    apply filter_In in Hlarge. destruct Hlarge as [_ Hlarge].
    unfold large_enough in Hlarge. apply andb_true_iff in Hlarge.
    destruct Hlarge as [H5 H5b]. apply Nat.leb_le in H5, H5b.
    rewrite <- Hr. cbn [round_row N_with N_baseline Category].
    rewrite Hw, Hbase. auto. }
  split; [exact Hmem|]. split.
  - intros c Hc. apply Hmem in Hc. destruct Hc as [r [Hr [Hc _]]].
    assert (Hin : In c (filter large_enough categories)).
    { eapply Permutation_in; [exact Hnames|].
      apply in_map_iff. exists r. auto. }
    now apply filter_In in Hin.
  - split.
    + rewrite length_map. apply filter_length_le.
    + rewrite <- (length_map (fun r => Category (row r)) res).
      rewrite (Permutation_length Hnames). apply filter_length_le.
Qed.
End CategoryTests.

Section PriorityTests.
Context {F : Type} `{Float64 F} `{RandomState} `{SciPyStats F}.
Import tests wrapper.
Local Open Scope num_scope.

Variable df : DataFrame F.
Variable top_times : list string.
Variables return_col time_col : string.
Variable num_permutations : Z.
Variable prio_map : list (string * Z).

Notation slot_rows := (slot_rows df top_times time_col).
Notation priority_groups := (priority_groups df top_times return_col time_col prio_map).

(** The row has news of category [c]. *)
Definition active (r : obs F) (c : string) : bool := (int_col r (cat_col c) >? 0)%Z.

Definition prioritized (r : obs F) : bool :=
  match news_prio prio_map r with Some _ => true | None => false end.

Definition prio_of (r : obs F) : list Z :=
  match news_prio prio_map r with Some p => [p] | None => [] end.

Lemma news_prio_fold (r : obs F) (l : list (string * Z)) :
  forall acc : option Z,
    match fold_left
            (fun acc cp =>
               if (int_col r (cat_col (fst cp)) >? 0)%Z then
                 match acc with
                 | None => Some (snd cp)
                 | Some m => Some (Z.max m (snd cp))
                 end
               else acc) l acc with
    | None => acc = None /\ forall c p, In (c, p) l -> active r c = false
    | Some m =>
      (acc = Some m \/ exists c, In (c, m) l /\ active r c = true)
      /\ (forall a, acc = Some a -> (a <= m)%Z)
      /\ (forall c p, In (c, p) l -> active r c = true -> (p <= m)%Z)
    end.
Proof.
  induction l as [|[c p] l IH]; intros acc; cbn [fold_left fst snd].
  - destruct acc as [a|].
    + split; [now left|]. split; [intros a' [= <-]; lia|intros c p []].
    + split; [reflexivity|intros c p []].
  - destruct (int_col r (cat_col c) >? 0)%Z eqn:Ec.
    + set (acc' := match acc with
                   | Some m => Some (Z.max m p) | None => Some p end).
      specialize (IH acc').
      destruct (fold_left _ l acc') as [m|].
      * destruct IH as [Hwit [Hacc Hall]].
        assert (Hp : (p <= m)%Z).
        { subst acc'. destruct acc as [a|]; [apply (Z.le_trans _ (Z.max a p)); [lia|]|];
            apply Hacc; reflexivity. }
        split; [|split].
        -- destruct Hwit as [Hw|[c' [Hin Hact]]].
           ++ subst acc'. destruct acc as [a|]; injection Hw as Hw.
              ** destruct (Z.max_spec a p) as [[_ Hm]|[_ Hm]]; rewrite Hm in Hw.
                 --- right. exists c. subst m. split; [now left|exact Ec].
                 --- left. now subst m.
              ** right. exists c. subst m. split; [now left|exact Ec].
           ++ right. exists c'. split; [now right|exact Hact].
        -- intros a Ha. subst acc acc'.
           apply (Z.le_trans _ (Z.max a p)); [lia|]. now apply Hacc.
        -- intros c' p' [[= <- <-]|Hin] Hact; [exact Hp|]. now apply (Hall c' p').
      * destruct IH as [Hacc _]. subst acc'. destruct acc; discriminate.
    + specialize (IH acc). destruct (fold_left _ l acc) as [m|].
      * destruct IH as [Hwit [Hacc Hall]]. split; [|split].
        -- destruct Hwit as [Hw|[c' [Hin Hact]]]; [now left|].
           right. exists c'. split; [now right|exact Hact].
        -- exact Hacc.
        -- intros c' p' [[= <- <-]|Hin] Hact.
           ++ unfold active in Hact. congruence.
           ++ now apply (Hall c' p').
      * destruct IH as [Hacc Hall]. split; [exact Hacc|].
        intros c' p' [[= <- <-]|Hin]; [exact Ec|]. now apply (Hall c' p').
Qed.

(** X12: the priority of a row is the largest priority among the
    categories of the priority map of which the row has news, and it is
    missing exactly when the row has news of none of them. *)
Theorem news_prio_is_max (r : obs F) :
  match news_prio prio_map r with
  | None => forall c p, In (c, p) prio_map -> (int_col r (cat_col c) <= 0)%Z
  | Some m =>
    (exists c, In (c, m) prio_map /\ (0 < int_col r (cat_col c))%Z)
    /\ forall c p, In (c, p) prio_map -> (0 < int_col r (cat_col c))%Z -> (p <= m)%Z
  end.
Proof.
  pose proof (news_prio_fold r prio_map None) as Hf.
  unfold news_prio. destruct (fold_left _ prio_map None) as [m|].
  - destruct Hf as [Hwit [_ Hall]]. split.
    + destruct Hwit as [Hw|[c [Hin Hact]]]; [discriminate|].
      exists c. split; [exact Hin|]. unfold active in Hact. lia.
    + intros c p Hin Hpos. apply (Hall c p Hin). unfold active. lia.
  - destruct Hf as [_ Hall]. intros c p Hin.
    specialize (Hall c p Hin). unfold active in Hall. lia.
Qed.

Lemma priority_groups_value (absret_threshold : threshold F) :
  priority_groups absret_threshold
  = map (fun prio =>
           map (HighAbsRet df return_col
                           (high_threshold df top_times return_col time_col
                                           absret_threshold))
               (filter (has_prio prio_map prio) slot_rows))
        (np_unique (flat_map prio_of slot_rows)).
Proof.
  unfold wrapper.priority_groups.
  set (thr := high_threshold df top_times return_col time_col absret_threshold).
  assert (Hprios :
            forall l : list (obs F),
              flat_map (fun rh : obs F * Z =>
                          match news_prio prio_map (fst rh) with
                          | Some p => [p] | None => [] end)
                       (filter (fun rh : obs F * Z =>
                                  match news_prio prio_map (fst rh) with
                                  | Some _ => true | None => false end)
                               (map (fun r => (r, HighAbsRet df return_col thr r)) l))
              = flat_map prio_of l).
  { intros l. unfold prio_of. induction l as [|r l IH]; simpl; [reflexivity|].
    destruct (news_prio prio_map r) eqn:E; simpl; rewrite ?E, IH; reflexivity. }
  rewrite Hprios. apply map_ext. intros prio.
  rewrite (@filter_filter_pair (obs F) Z
             (fun r => match news_prio prio_map r with
                       | Some _ => true | None => false end)
             (has_prio prio_map prio)).
  - apply (filter_map_pair (HighAbsRet df return_col thr) (has_prio prio_map prio)).
  - intros r. unfold has_prio. destruct (news_prio prio_map r); congruence.
Qed.

Lemma count_has_prio (prio : Z) (rows : list (obs F)) :
  Z.of_nat (length (filter (has_prio prio_map prio) rows))
  = count_label prio (flat_map prio_of rows).
Proof.
  induction rows as [|r rows IH]; [reflexivity|].
  cbn [filter flat_map]. unfold has_prio at 1, prio_of at 1.
  destruct (news_prio prio_map r) as [p|]; cbn [app].
  - rewrite count_label_cons, <- IH, (Z.eqb_sym prio p).
    destruct (p =? prio)%Z; cbn [length b2z]; lia.
  - exact IH.
Qed.

Lemma length_prio_of (rows : list (obs F)) :
  length (flat_map prio_of rows) = length (filter prioritized rows).
Proof.
  induction rows as [|r rows IH]; [reflexivity|].
  cbn [flat_map filter]. unfold prio_of at 1, prioritized at 1.
  destruct (news_prio prio_map r); cbn [app length]; now rewrite IH.
Qed.

Lemma priority_groups_nonempty (absret_threshold : threshold F) :
  Forall (fun g => g <> []) (priority_groups absret_threshold).
Proof.
  rewrite priority_groups_value. apply Forall_forall. intros g Hg.
  apply in_map_iff in Hg. destruct Hg as [prio [<- Hprio]].
  apply (proj1 (np_unique_In _ _)) in Hprio.
  assert (Hpos := count_label_pos _ _ Hprio).
  rewrite <- count_has_prio in Hpos.
  destruct (filter (has_prio prio_map prio) slot_rows); simpl in *; [lia|congruence].
Qed.

Lemma priority_groups_length (absret_threshold : threshold F) :
  length (concat (priority_groups absret_threshold))
  = length (filter prioritized slot_rows).
Proof.
  apply Nat2Z.inj. rewrite <- zsum_lengths.
  rewrite priority_groups_value, map_map.
  rewrite (map_ext _ (fun prio => count_label prio (flat_map prio_of slot_rows)))
    by (intros prio; rewrite length_map; apply count_has_prio).
  rewrite zsum_counts.
  - now rewrite length_prio_of.
  - apply np_unique_sorted.
  - intros x Hx. now apply np_unique_In.
Qed.

Lemma priority_groups_empty_iff (absret_threshold : threshold F) :
  priority_groups absret_threshold = [] <-> filter prioritized slot_rows = [].
Proof.
  pose proof (priority_groups_length absret_threshold) as Hlen.
  pose proof (priority_groups_nonempty absret_threshold) as Hne.
  split; intros E; rewrite E in Hlen; simpl in Hlen.
  - destruct (filter prioritized slot_rows); [reflexivity|discriminate].
  - destruct (priority_groups absret_threshold) as [|g gs]; [reflexivity|].
    apply Forall_inv in Hne. destruct g; [congruence|discriminate].
Qed.

(** X13: the groups handed to the chi-square test partition the rows of
    the target slots that have a priority: no group is empty, the groups
    together hold one outcome per such row, every outcome is 0 or 1, and
    there is no group at all exactly when no row has a priority. *)
Theorem priority_groups_partition (absret_threshold : threshold F) :
  let groups := priority_groups absret_threshold in
  Forall (fun g => g <> []) groups
  /\ length (concat groups) = length (filter prioritized slot_rows)
  /\ Forall (Forall (fun z => z = 0%Z \/ z = 1%Z)) groups
  /\ (groups = [] <-> filter prioritized slot_rows = []).
Proof.
  intros groups.
  split; [apply priority_groups_nonempty|].
  split; [apply priority_groups_length|]. split.
  - subst groups. rewrite priority_groups_value.
    apply Forall_forall. intros g Hg. apply in_map_iff in Hg.
    destruct Hg as [prio [<- _]]. apply Forall_forall. intros z Hz.
    apply in_map_iff in Hz. destruct Hz as [r [<- _]].
    unfold HighAbsRet, b2z. destruct (_ >=? _); auto.
  - apply priority_groups_empty_iff.
Qed.

(** X14: [show_priority_return_chi2] returns whenever some row of the
    target slots has a priority and the number of permutations is not zero,
    given that [chi2_contingency] accepts every table of non-negative counts
    without an empty row or column; when the target slots have rows but none
    with a priority, it raises the [ValueError] of [np.concatenate] and
    leaves the generator untouched. *)
Theorem show_priority_return_chi2_returns
        (absret_threshold : threshold F) (random_seed : option Z) (s : rng) :
  (forall table, positive_margins table ->
                 exists r, chi2_contingency table = Ok r) ->
  slot_rows <> [] ->
  (filter prioritized slot_rows = [] ->
   show_priority_return_chi2 df top_times return_col time_col num_permutations
                             prio_map absret_threshold random_seed s
   = (Raise (ValueError "need at least one array to concatenate"), s))
  /\ (filter prioritized slot_rows <> [] ->
      num_permutations <> 0%Z ->
      exists res s',
        show_priority_return_chi2 df top_times return_col time_col
                                  num_permutations prio_map absret_threshold
                                  random_seed s = (Ok res, s')).
Proof.
  intros Hacc Hrows.
  pose proof (priority_groups_empty_iff absret_threshold) as Hempty.
  pose proof (priority_groups_nonempty absret_threshold) as Hne.
  unfold show_priority_return_chi2. split.
  - intros Hnone. apply Hempty in Hnone. rewrite Hnone. reflexivity.
  - intros Hsome Hn.
    assert (Hg : priority_groups absret_threshold <> [])
      by (intros E; apply Hsome, Hempty, E).
    destruct (@chi2_independence_value F _ _ _ (priority_groups absret_threshold)
                num_permutations random_seed s Hacc Hg Hne Hn) as [table [chi2 [p [hits [s' [_ [_ [_ Hrun]]]]]]]].
    eauto.
Qed.
End PriorityTests.

Section WrapperRuns.
Import Binary64 Rotation Reference Sample.
Import bootstrap tests wrapper.
Local Open Scope float_scope.

(** X8, witness: one slot, three permutations. *)
Lemma show_news_ttests_slots_witness :
  exists res sig_times s',
    show_news_ttests news_table ["09:00"] "|Return|" "event_count" "time"
                     3 false 0.05 3%Z
    = (Ok (res, sig_times), s')
    /\ map (@Time float) res = ["09:00"; "All Times"]
    /\ incl sig_times ["09:00"].
Proof.
  destruct (@show_news_ttests_slots float Binary64.float64 Rotation.random_state
              Reference.scipy_stats news_table ["09:00"] "|Return|"
              "event_count" "time" false 3 0.05 3%Z)
    as [res [sig_times [s' [Hrun [Htimes [_ [_ [Hincl _]]]]]]]]; [discriminate|].
  exists res, sig_times, s'. split; [exact Hrun|]. split; [exact Htimes|exact Hincl].
Defined.


(** X11, witness: five rows with macro news against a baseline of seven. *)
Lemma show_category_ttests_table_witness :
  exists res sig_cats s',
    show_category_ttests news_table ["09:00"] "|Return|" "event_count" "time"
                         10 false ["macro"] 0.05 3%Z
    = (Ok (res, sig_cats), s')
    /\ incl sig_cats ["macro"]
    /\ (length sig_cats <= length res <= 1)%nat.
Proof.
  destruct (@show_category_ttests_table float Binary64.float64
              Rotation.random_state Reference.scipy_stats Binary64.sqrt
              news_table ["09:00"] "|Return|" "event_count" "time" 10 false
              ["macro"] 0.05 3%Z "macro")
    as [res [sig_cats [s' [Hrun [_ [_ [_ [Hincl Hlen]]]]]]]].
  - discriminate.
  - simpl. auto.
  - vm_compute. lia.
  - vm_compute. lia.
  - exists res, sig_cats, s'. split; [exact Hrun|]. split; [exact Hincl|exact Hlen].
Defined.

(** X14, witness: two rows with a priority among five. *)
Lemma show_priority_return_chi2_returns_witness :
  exists res s',
    show_priority_return_chi2 priority_table ["09:00"] "|Return|" "time" 3
                              [("macro", 2%Z)] Median None 5%Z
    = (Ok res, s').
Proof.
  apply (@show_priority_return_chi2_returns float Binary64.float64
           Rotation.random_state Reference.scipy_stats priority_table ["09:00"]
           "|Return|" "time" 3 [("macro", 2%Z)] Median None 5%Z).
  - intros table Hpos. apply (textbook_chi2_accepts Hpos).
  - vm_compute. discriminate.
  - vm_compute. discriminate.
  - discriminate.
Defined.
End WrapperRuns.

Section MoreExactRuns.
Import Exact ExactFacts Rotation.
Import bootstrap.
Local Open Scope Q_scope.

(** The difference of the means of the first two groups, a statistic with
    a sign. *)
Definition mean_diff (groups : list (list xq)) : result xq :=
  match groups with
  | g0 :: g1 :: _ => Ok (f_sub (np_mean g0) (np_mean g1))
  | _ => Raise IndexError
  end.

(** X4, witness: four permutations of two groups of three; one reshuffle
    reaches the observed difference, another its opposite. *)
Lemma two_sided_pvalue_at_least_one_sided_witness :
  fst (permutation_pvalue mean_diff
         [[Fin 4; Fin 5; Fin 6]; [Fin 1; Fin 2; Fin 3]] 4 false None 3%Z)
  = Ok (Fin (1 # 4))
  /\ fst (permutation_pvalue mean_diff
            [[Fin 4; Fin 5; Fin 6]; [Fin 1; Fin 2; Fin 3]] 4 true None 3%Z)
     = Ok (Fin (1 # 2))
  /\ le (Fin (1 # 4)) (Fin (1 # 2)).
Proof.
  assert (H1 : fst (permutation_pvalue mean_diff
                      [[Fin 4; Fin 5; Fin 6]; [Fin 1; Fin 2; Fin 3]] 4 false
                      None 3%Z) = Ok (Fin (1 # 4)))
    by (vm_compute; reflexivity).
  assert (H2 : fst (permutation_pvalue mean_diff
                      [[Fin 4; Fin 5; Fin 6]; [Fin 1; Fin 2; Fin 3]] 4 true
                      None 3%Z) = Ok (Fin (1 # 2)))
    by (vm_compute; reflexivity).
  split; [exact H1|]. split; [exact H2|].
  apply (@two_sided_pvalue_at_least_one_sided Rotation.random_state xq mean_diff
           [[Fin 4; Fin 5; Fin 6]; [Fin 1; Fin 2; Fin 3]] 4 None 3%Z 3
           (Fin (1 # 4)) (Fin (1 # 2))).
  - lia.
  - vm_compute. reflexivity.
  - unfold Qle. simpl. lia.
  - exact H1.
  - exact H2.
Defined.
End MoreExactRuns.

(* ================================================================== *)
(** * Further properties of the confidence intervals *)

Section IntervalTable.
Context {F : Type} `{Float64 F} {RS : RandomState} `{Sqrt F}
        {RE : @Resampling F RS}.
Import calculate.

Variable df : DataFrame F.
Variable top_times : list string.
Variables event_col time_col : string.
Variable confidence : F.
Variable n_bootstrap : Z.

Notation _classic_ci := (_classic_ci confidence).
Notation _bootstrap_ci := (_bootstrap_ci confidence n_bootstrap).
Notation ci_rows := (ci_rows df confidence n_bootstrap).
Notation column_data := (column_data df).
Notation masks := (@masks F top_times event_col time_col).
Notation visits := (@visits F top_times event_col time_col).

(** The table has a row of the given group, column and method that
    reports [n] observations. *)
Definition reports (table : list (CIRow F)) (grp col meth : string) (n : nat) : Prop :=
  exists r, In r table /\ Group r = grp /\ series r = col /\ method r = meth
            /\ n_obs (ci r) = n.

Lemma classic_ci_n_obs (arr : list F) : n_obs (_classic_ci arr) = length arr.
Proof.
  unfold calculate._classic_ci. destruct (Nat.ltb (length arr) 2); reflexivity.
Qed.

Lemma bootstrap_ci_n_obs (arr : list F) (s s' : rng) (b : CI F) :
  _bootstrap_ci arr s = (Ok b, s') -> n_obs b = length arr.
Proof.
  unfold calculate._bootstrap_ci.
  destruct (Nat.eqb_spec (length arr) 0) as [E|E].
  - intros [= <- _]. now rewrite E.
  - unfold bind, lift, ret, raise, lift.
    destruct (np_random_choice arr n_bootstrap (length arr) s) as [[samples|e] s1];
      [|discriminate].
    destruct (np_quantile _ _) as [q|e]; [|discriminate].
    destruct q as [|low [|high [|x q]]]; try discriminate.
    now intros [= <- _].
Qed.

Lemma ci_rows_spec (todo : list ((string * (obs F -> bool)) * string)) :
  forall s rows s',
    ci_rows todo s = (Ok rows, s') ->
    length rows = 2 * length todo
    /\ forall grp mask col,
        In ((grp, mask), col) todo ->
        reports rows grp col "Classical" (length (column_data mask col))
        /\ reports rows grp col (bootstrap_label n_bootstrap)
                   (length (column_data mask col)).
Proof.
  induction todo as [|[[g m] c] rest IH]; intros s rows s' Hrun.
  - injection Hrun as <- _. split; [reflexivity|]. intros grp mask col [].
  - cbn [calculate.ci_rows] in Hrun. unfold bind at 1 in Hrun.
    destruct (_bootstrap_ci (column_data m c) s) as [[b|e] s1] eqn:Eb;
      [|discriminate].
    unfold bind at 1 in Hrun.
    destruct (ci_rows rest s1) as [[rows'|e] s2] eqn:Er; [|discriminate].
    injection Hrun as <- _.
    destruct (IH _ _ _ Er) as [Hlen Hin].
    split; [cbn [length]; lia|].
    intros grp mask col [[= <- <- <-]|Hrest].
    + split.
      * eexists. split; [left; reflexivity|]. cbn.
        repeat split. apply classic_ci_n_obs.
      * eexists. split; [right; left; reflexivity|]. cbn.
        repeat split. apply (bootstrap_ci_n_obs _ _ Eb).
    + destruct (Hin grp mask col Hrest) as [[r1 [H1 P1]] [r2 [H2 P2]]].
      split; [exists r1|exists r2]; (split; [right; right; assumption|assumption]).
Qed.

Lemma length_visits (cols : list string) : length (visits cols) = 3 * length cols.
Proof.
  unfold calculate.visits, calculate.masks. cbn [flat_map].
  rewrite !length_app, !length_map. simpl. lia.
Qed.

Lemma in_visits (gm : string * (obs F -> bool)) (col : string) (cols : list string) :
  In gm masks -> In col cols -> In (gm, col) (visits cols).
Proof.
  intros Hgm Hcol. unfold calculate.visits. apply in_flat_map.
  exists gm. split; [exact Hgm|]. now apply in_map.
Qed.

Lemma reports_sorted_rounded (rows : list (CIRow F)) (grp col meth : string) (n : nat) :
  reports rows grp col meth n ->
  reports (insertion_sort (@row_le F) (map (round_ci_row 4) rows)) grp col meth n.
Proof.
  intros [r [Hr P]]. exists (round_ci_row 4 r). split.
  - eapply Permutation_in; [symmetry; apply insertion_sort_Permutation|].
    now apply in_map.
  - exact P.
Qed.

(** X15: a table returned by [confidence_intervals] has six rows per
    column: for each of the groups "With News", "Without News" and
    "All Times" a classical and a bootstrap row, and both report as [n_obs]
    the number of non-missing values of the column in the group. *)
Theorem confidence_intervals_rows
        (cols : list string) (s s' : rng) (table : list (CIRow F)) :
  confidence_intervals df top_times event_col time_col confidence n_bootstrap
                       cols s = (Ok table, s') ->
  length table = 6 * length cols
  /\ forall grp mask col,
      In (grp, mask) masks -> In col cols ->
      reports table grp col "Classical" (length (column_data mask col))
      /\ reports table grp col (bootstrap_label n_bootstrap)
                 (length (column_data mask col)).
Proof.
  unfold confidence_intervals, bind, ret. intros Hrun.
  destruct (ci_rows (visits cols) s) as [[rows|e] s1] eqn:Er; [|discriminate].
  injection Hrun as <- _.
  destruct (ci_rows_spec _ _ Er) as [Hlen Hin].
  split.
  - rewrite (Permutation_length (insertion_sort_Permutation _ _)), length_map.
    rewrite Hlen, length_visits. lia.
  - intros grp mask col Hgm Hcol.
    destruct (Hin grp mask col (in_visits _ _ Hgm Hcol)) as [Hc Hb].
    split; now apply reports_sorted_rounded.
Qed.

(** X16: when no row has a negative event count, the samples of the
    groups "With News" and "Without News" split the sample of "All Times":
    their sizes add up to its size, for every column. *)
Theorem news_groups_split_all_times (col : string) :
  Forall (fun r => (0 <= int_col r event_col)%Z) (records df) ->
  length (column_data
            (fun r => isin time_col top_times r && (int_col r event_col >? 0)%Z) col)
  + length (column_data
              (fun r => isin time_col top_times r && (int_col r event_col =? 0)%Z) col)
  = length (column_data (isin time_col top_times) col).
Proof.
  unfold calculate.column_data, dropna.
  induction 1 as [|r rows Hr _ IH]; [reflexivity|].
  cbn [filter]. destruct (isin time_col top_times r); cbn [andb]; [|exact IH].
  destruct (Z.gtb_spec (int_col r event_col) 0) as [Hpos|Hle];
    destruct (Z.eqb_spec (int_col r event_col) 0) as [Hz|Hnz]; try lia;
    cbn [map filter]; destruct (negb (f_isnan (num_col r col)));
    cbn [length]; lia.
Qed.
End IntervalTable.

Section IntervalRuns.
Import Binary64 Rotation Reference Sample.
Import calculate.
Local Open Scope float_scope.

(** X15, witness: one column of a table with three rows in the slot. *)
Lemma confidence_intervals_rows_witness :
  exists (table : list (CIRow float)) (s' : Z),
    @confidence_intervals float Binary64.float64 Rotation.random_state
      Binary64.sqrt Reference.resampling
      quiet_table ["09:00"] "event_count" "time" 0.95 4 ["|Return|"] 3%Z
    = (Ok table, s')
    /\ length table = 6%nat.
Proof.
  destruct (@confidence_intervals float Binary64.float64 Rotation.random_state
              Binary64.sqrt Reference.resampling
              quiet_table ["09:00"] "event_count" "time" 0.95 4 ["|Return|"] 3%Z)
    as [[table|e] s'] eqn:Hrun.
  - exists table, s'. split; [reflexivity|].
    apply (proj1 (@confidence_intervals_rows float Binary64.float64
                    Rotation.random_state Binary64.sqrt Reference.resampling
                    quiet_table ["09:00"] "event_count" "time" 0.95 4
                    ["|Return|"] 3%Z s' table Hrun)).
  - vm_compute in Hrun. discriminate.
Defined.

(** X16, witness: five rows with news and seven without. *)
Lemma news_groups_split_all_times_witness :
  (length (column_data news_table
             (fun r => isin "time" ["09:00"] r && (int_col r "event_count" >? 0)%Z)
             "|Return|")
   + length (column_data news_table
               (fun r => isin "time" ["09:00"] r && (int_col r "event_count" =? 0)%Z)
               "|Return|")
   = length (column_data news_table (isin "time" ["09:00"]) "|Return|"))%nat.
Proof.
  apply (@news_groups_split_all_times float Binary64.float64 news_table
           ["09:00"] "event_count" "time" "|Return|").
  vm_compute. repeat (constructor; [discriminate|]). constructor.
Defined.
End IntervalRuns.

(* ================================================================== *)
(** * Properties of the data preparation *)

Section RoundingFacts.
Import data_prep_utils.
Local Open Scope Z_scope.

Variables min_value max_value : Z.

Notation round_up := (round_up_to_next_half_hour min_value max_value).

Definition half_hour : Z := 30 * ns_per_minute.

(** The timestamp is exactly on a half or full hour, as the code tests it
    (the nanoseconds are not looked at). *)
Definition on_half_hour (v : Z) : Prop :=
  (minute v = 0 \/ minute v = 30) /\ second v = 0 /\ microsecond v = 0.

Ltac fields :=
  unfold half_hour, replace_minute, minute, second, microsecond, nanosecond,
    ns_per_hour, ns_per_minute, ns_per_second, ns_per_us in *.

Ltac euclid := fields; Z.to_euclidean_division_equations; lia.

Lemma field_bounds (v : Z) :
  0 <= minute v < 60 /\ 0 <= second v < 60
  /\ 0 <= microsecond v < 1000000 /\ 0 <= nanosecond v < 1000.
Proof. euclid. Qed.

(** The time within the hour, from the fields. *)
Lemma fields_sum (v : Z) :
  v mod ns_per_hour
  = minute v * ns_per_minute + second v * ns_per_second
    + microsecond v * ns_per_us + nanosecond v.
Proof. euclid. Qed.

Lemma replace_minute_value (m v : Z) :
  replace_minute m v = v - v mod ns_per_hour + m * ns_per_minute + nanosecond v.
Proof. unfold replace_minute. rewrite fields_sum. lia. Qed.

Lemma replace_minute_fields (m v : Z) :
  0 <= m < 60 ->
  minute (replace_minute m v) = m
  /\ second (replace_minute m v) = 0
  /\ microsecond (replace_minute m v) = 0
  /\ nanosecond (replace_minute m v) = nanosecond v.
Proof.
  intros Hm. rewrite replace_minute_value.
  assert (Hh : exists h, v - v mod ns_per_hour = h * ns_per_hour).
  { exists (v / ns_per_hour). euclid. }
  destruct Hh as [h Hh]. rewrite Hh.
  pose proof (field_bounds v) as [_ [_ [_ Hn]]].
  generalize dependent (nanosecond v). intros n Hn.
  clear Hh. euclid.
Qed.
Lemma add_hour_fields (w : Z) :
  minute (w + ns_per_hour) = minute w
  /\ second (w + ns_per_hour) = second w
  /\ microsecond (w + ns_per_hour) = microsecond w
  /\ nanosecond (w + ns_per_hour) = nanosecond w.
Proof. euclid. Qed.

Lemma on_half_hour_test (v : Z) :
  ((minute v =? 0) || (minute v =? 30)) && (second v =? 0) && (microsecond v =? 0)
  = true <-> on_half_hour v.
Proof.
  unfold on_half_hour.
  rewrite !andb_true_iff, orb_true_iff, !Z.eqb_eq. tauto.
Qed.

(** What the function returns, when it returns a time. *)
Lemma round_up_value (v r : Z) :
  round_up (At v) = Some (At r) ->
  (on_half_hour v /\ r = v)
  \/ (~ on_half_hour v /\ minute v < 30 /\ r = replace_minute 30 v)
  \/ (~ on_half_hour v /\ 30 <= minute v /\ r = replace_minute 0 v + ns_per_hour).
Proof.
  cbn [round_up_to_next_half_hour].
  destruct (((minute v =? 0) || (minute v =? 30)) && (second v =? 0)
            && (microsecond v =? 0)) eqn:Etest.
  - intros [= <-]. left. split; [now apply on_half_hour_test|reflexivity].
  - assert (Hoff : ~ on_half_hour v).
    { intros Hon. apply on_half_hour_test in Hon. congruence. }
    clear Etest.
    destruct (Z.ltb_spec (minute v) 30) as [Hlt|Hge].
    + cbv iota. unfold checked. destruct (_ && _); [|intros [=]].
      intros [= <-]. right. left. auto.
    + cbv iota. unfold checked. destruct (_ && _); [|intros [=]].
      destruct (_ && _); [|intros [=]].
      intros [= <-]. right. right. auto.
Qed.

Lemma round_up_on_half_hour (v : Z) :
  on_half_hour v -> round_up (At v) = Some (At v).
Proof.
  intros Hon. apply on_half_hour_test in Hon.
  cbn [round_up_to_next_half_hour]. now rewrite Hon.
Qed.

Lemma round_up_result_on_half_hour (v r : Z) :
  round_up (At v) = Some (At r) ->
  on_half_hour r /\ nanosecond r = nanosecond v.
Proof.
  intros Hr. apply round_up_value in Hr.
  destruct Hr as [[Hon ->]|[[_ [_ ->]]|[_ [_ ->]]]].
  - split; [exact Hon|reflexivity].
  - destruct (@replace_minute_fields 30 v) as [Hm [Hs [Hu Hn]]]; [lia|].
    unfold on_half_hour. rewrite Hm, Hs, Hu. auto.
  - destruct (@replace_minute_fields 0 v) as [Hm [Hs [Hu Hn]]]; [lia|].
    destruct (add_hour_fields (replace_minute 0 v)) as [Hm' [Hs' [Hu' Hn']]].
    unfold on_half_hour. rewrite Hm', Hs', Hu', Hn', Hm, Hs, Hu. auto.
Qed.

Lemma round_up_distance (v r : Z) :
  round_up (At v) = Some (At r) ->
  v <= r < v + half_hour /\ (r = v <-> on_half_hour v).
Proof.
  intros Hr. apply round_up_value in Hr.
  pose proof (field_bounds v) as [Hm [Hs [Hu Hn]]].
  pose proof (fields_sum v) as Hsum.
  destruct Hr as [[Hon ->]|[[Hoff [Hlt ->]]|[Hoff [Hge ->]]]].
  - split; [unfold half_hour, ns_per_minute; lia|tauto].
  - rewrite replace_minute_value.
    assert (Hpos : 0 < minute v * ns_per_minute + second v * ns_per_second
                       + microsecond v * ns_per_us).
    { unfold on_half_hour in Hoff. unfold ns_per_minute, ns_per_second, ns_per_us.
      destruct (Z.eq_dec (minute v) 0); [|lia].
      destruct (Z.eq_dec (second v) 0); [|lia].
      destruct (Z.eq_dec (microsecond v) 0); [|lia]. tauto. }
    unfold half_hour, ns_per_minute, ns_per_second, ns_per_us in *.
    split; [lia|]. split; [lia|tauto].
  - rewrite replace_minute_value.
    assert (Hpos : 30 * ns_per_minute
                   < minute v * ns_per_minute + second v * ns_per_second
                     + microsecond v * ns_per_us).
    { unfold on_half_hour in Hoff. unfold ns_per_minute, ns_per_second, ns_per_us.
      destruct (Z.eq_dec (minute v) 30); [|lia].
      destruct (Z.eq_dec (second v) 0); [|lia].
      destruct (Z.eq_dec (microsecond v) 0); [|lia]. tauto. }
    unfold half_hour, ns_per_hour, ns_per_minute, ns_per_second, ns_per_us in *.
    split; [lia|]. split; [lia|tauto].
Qed.

Lemma round_up_defined (v : Z) :
  min_value + ns_per_hour <= v <= max_value - ns_per_hour ->
  exists r, round_up (At v) = Some (At r).
Proof.
  intros Hrange.
  pose proof (field_bounds v) as [Hm [Hs [Hu Hn]]].
  pose proof (fields_sum v) as Hsum.
  cbn [round_up_to_next_half_hour].
  destruct (_ && _ && _); [eauto|].
  assert (Hmod : 0 <= v mod ns_per_hour < ns_per_hour)
    by (apply Z.mod_pos_bound; reflexivity).
  destruct (Z.ltb_spec (minute v) 30) as [Hlt|Hge]; cbv iota; unfold checked.
  - rewrite replace_minute_value.
    destruct (Z.leb_spec min_value
                (v - v mod ns_per_hour + 30 * ns_per_minute + nanosecond v));
      [|unfold ns_per_hour, ns_per_minute in *; lia].
    destruct (Z.leb_spec
                (v - v mod ns_per_hour + 30 * ns_per_minute + nanosecond v)
                max_value);
      [eexists; reflexivity|].
    unfold ns_per_hour, ns_per_minute, ns_per_second, ns_per_us in *. lia.
  - rewrite replace_minute_value.
    destruct (Z.leb_spec min_value
                (v - v mod ns_per_hour + 0 * ns_per_minute + nanosecond v));
      [|unfold ns_per_hour, ns_per_minute in *; lia].
    destruct (Z.leb_spec
                (v - v mod ns_per_hour + 0 * ns_per_minute + nanosecond v)
                max_value);
      [|unfold ns_per_hour, ns_per_minute, ns_per_second, ns_per_us in *; lia].
    cbn [andb].
    destruct (Z.leb_spec min_value
                (v - v mod ns_per_hour + 0 * ns_per_minute + nanosecond v
                 + ns_per_hour));
      [|unfold ns_per_hour, ns_per_minute in *; lia].
    destruct (Z.leb_spec
                (v - v mod ns_per_hour + 0 * ns_per_minute + nanosecond v
                 + ns_per_hour) max_value);
      [eexists; reflexivity|].
    unfold ns_per_hour, ns_per_minute, ns_per_second, ns_per_us in *. lia.
Qed.

(** X17: a timestamp at least one hour inside the bounds is rounded to a
    time that is not earlier and less than 30 minutes later; the result
    has minute 0 or 30 and no seconds or microseconds, it keeps the
    nanoseconds of the input, and it is the input itself exactly when the
    input already has minute 0 or 30 and no seconds or microseconds. *)
Theorem round_up_within_half_hour (v : Z) :
  min_value + ns_per_hour <= v <= max_value - ns_per_hour ->
  exists r,
    round_up (At v) = Some (At r)
    /\ v <= r < v + 30 * ns_per_minute
    /\ (minute r = 0 \/ minute r = 30)
    /\ second r = 0
    /\ microsecond r = 0
    /\ nanosecond r = nanosecond v
    /\ (r = v <-> (minute v = 0 \/ minute v = 30)
                  /\ second v = 0 /\ microsecond v = 0).
Proof.
  intros Hrange. destruct (@round_up_defined v Hrange) as [r Hr].
  destruct (@round_up_result_on_half_hour v r Hr) as [[Hm [Hs Hu]] Hn].
  destruct (@round_up_distance v r Hr) as [Hd Hfix].
  exists r. repeat (split; [assumption|]). exact Hfix.
Qed.

Lemma on_half_hour_grid (v : Z) :
  nanosecond v = 0 -> (on_half_hour v <-> v mod half_hour = 0).
Proof.
  unfold on_half_hour. intros Hn. euclid.
Qed.

Lemma round_up_least (v r : Z) :
  nanosecond v = 0 ->
  round_up (At v) = Some (At r) ->
  r mod half_hour = 0
  /\ forall b, b mod half_hour = 0 -> v <= b -> r <= b.
Proof.
  intros Hn Hr.
  destruct (@round_up_result_on_half_hour v r Hr) as [Hon Hnr].
  destruct (@round_up_distance v r Hr) as [Hd _].
  rewrite Hn in Hnr.
  apply (@on_half_hour_grid r Hnr) in Hon.
  split; [exact Hon|].
  intros b Hb Hvb. unfold half_hour, ns_per_minute in *.
  Z.to_euclidean_division_equations. lia.
Qed.

(** X18: a timestamp without nanoseconds is rounded to the earliest half
    or full hour that is not before it; so rounding keeps the order of such
    timestamps. *)
Theorem round_up_is_least_half_hour (v r : Z) :
  nanosecond v = 0 ->
  round_up (At v) = Some (At r) ->
  r mod (30 * ns_per_minute) = 0
  /\ (forall b, b mod (30 * ns_per_minute) = 0 -> v <= b -> r <= b)
  /\ forall v' r',
      nanosecond v' = 0 -> v <= v' ->
      round_up (At v') = Some (At r') -> r <= r'.
Proof.
  intros Hn Hr. destruct (@round_up_least v r Hn Hr) as [Hgrid Hleast].
  split; [exact Hgrid|]. split; [exact Hleast|].
  intros v' r' Hn' Hle Hr'.
  destruct (@round_up_least v' r' Hn' Hr') as [Hgrid' _].
  destruct (@round_up_distance v' r' Hr') as [Hd' _].
  apply Hleast; [exact Hgrid'|lia].
Qed.

(** X19: rounding is idempotent: a rounded timestamp is returned as it
    is, also [NaT], so rounding a column a second time changes nothing. *)
Theorem round_up_idempotent (t r : Timestamp) :
  round_up t = Some r -> round_up r = Some r.
Proof.
  destruct t as [|v].
  - intros [= <-]. reflexivity.
  - destruct r as [|r].
    + cbn [round_up_to_next_half_hour]. unfold checked.
      repeat (destruct_match; try discriminate).
    + intros Hr. apply round_up_result_on_half_hour in Hr.
      apply round_up_on_half_hour, Hr.
Qed.
End RoundingFacts.

Section ChartReturn.
Import Exact ExactFacts data_prep_utils.
Local Open Scope Q_scope.

(** The value is the finite number [q], up to the representation of the
    fraction. *)
Definition is_fin (x : xq) (q : Q) : Prop := exists q', x = Fin q' /\ q' == q.

Lemma is_fin_sub (x y : xq) (a b : Q) :
  is_fin x a -> is_fin y b -> is_fin (f_sub x y) (a - b).
Proof.
  intros [a' [-> Ha]] [b' [-> Hb]]. eexists. split; [reflexivity|].
  rewrite !Qred_correct, Ha, Hb. reflexivity.
Qed.

Lemma is_fin_abs (x : xq) (a : Q) : is_fin x a -> is_fin (f_abs x) (Qabs a).
Proof.
  intros [a' [-> Ha]]. eexists. split; [reflexivity|].
  rewrite Qred_correct, Ha. reflexivity.
Qed.

Lemma is_fin_mul (x y : xq) (a b : Q) :
  is_fin x a -> is_fin y b -> is_fin (f_mul x y) (a * b).
Proof.
  intros [a' [-> Ha]] [b' [-> Hb]]. eexists. split; [reflexivity|].
  rewrite Qred_correct, Ha, Hb. reflexivity.
Qed.

Lemma is_fin_div (x y : xq) (a b : Q) :
  ~ b == 0 -> is_fin x a -> is_fin y b -> is_fin (f_div x y) (a / b).
Proof.
  intros Hb0 [a' [-> Ha]] [b' [-> Hb]].
  exists (Qred (a' / b')). split.
  - cbn. destruct (Qeq_bool b' 0) eqn:E; [|reflexivity].
    apply Qeq_bool_eq in E. rewrite Hb in E. contradiction.
  - rewrite Qred_correct, Ha, Hb. reflexivity.
Qed.

Lemma is_fin_lt (x y : xq) (a b : Q) :
  is_fin x a -> is_fin y b -> (f_lt x y = true <-> a < b).
Proof.
  intros [a' [-> Ha]] [b' [-> Hb]]. cbn. rewrite negb_true_iff.
  rewrite <- Ha, <- Hb. split.
  - intros Hle. apply Qnot_le_lt. intros Hc.
    apply Qle_bool_iff in Hc. congruence.
  - intros Hlt. destruct (Qle_bool b' a') eqn:E; [|reflexivity].
    apply Qle_bool_iff in E. exfalso. now apply (Qlt_not_le _ _ Hlt).
Qed.

Lemma is_fin_refl (q : Q) : is_fin (Fin q) q.
Proof. exists q. split; reflexivity. Qed.

(** X20: for a positive opening price between the low and the high, the
    return of a row is the larger of the two moves away from the opening
    price, in percent of it: the move down, with a negative sign, when it is
    strictly larger than the move up, and the move up otherwise; its
    magnitude is the column [|Return|]. *)
Theorem chart_return_largest_move (open high low : Q) :
  0 < open -> low <= open -> open <= high ->
  exists q,
    is_fin (chart_return (Fin open) (Fin high) (Fin low)) q
    /\ is_fin (chart_abs_return (Fin open) (Fin high) (Fin low)) (Qabs q)
    /\ (high - open < open - low ->
        q == (low - open) / open * 100 /\ q < 0)
    /\ (open - low <= high - open ->
        q == (high - open) / open * 100 /\ 0 <= q).
Proof.
  intros Ho Hl Hh.
  assert (Ho0 : ~ open == 0) by (intros E; rewrite E in Ho; discriminate).
  assert (Hdown : Qabs (open - low) == open - low)
    by (apply Qabs_pos; lra).
  assert (Hup : Qabs (high - open) == high - open)
    by (apply Qabs_pos; lra).
  pose proof (is_fin_abs (is_fin_sub (is_fin_refl open) (is_fin_refl low)))
    as Hpd.
  pose proof (is_fin_abs (is_fin_sub (is_fin_refl high) (is_fin_refl open)))
    as Hpu.
  pose proof (is_fin_lt Hpu Hpd) as Hlt. rewrite Hdown, Hup in Hlt.
  pose proof (is_fin_mul
                (is_fin_div Ho0 (is_fin_sub (is_fin_refl low) (is_fin_refl open))
                            (is_fin_refl open))
                (is_fin_refl (inject_Z 100))) as Hlow.
  pose proof (is_fin_mul
                (is_fin_div Ho0 (is_fin_sub (is_fin_refl high) (is_fin_refl open))
                            (is_fin_refl open))
                (is_fin_refl (inject_Z 100))) as Hhigh.
  assert (Hinv : 0 < / open) by now apply Qinv_lt_0_compat.
  unfold chart_abs_return, chart_return. cbv zeta.
  destruct (f_lt (f_abs (f_sub (Fin high) (Fin open)))
                 (f_abs (f_sub (Fin open) (Fin low)))) eqn:E.
  - pose proof (proj1 Hlt eq_refl) as Hlt'.
    assert (Hneg : (low - open) / open * inject_Z 100 < 0).
    { unfold Qdiv. change (inject_Z 100) with 100. nra. }
    exists ((low - open) / open * inject_Z 100).
    split; [exact Hlow|]. split; [apply is_fin_abs, Hlow|].
    split; [intros _; split; [reflexivity|exact Hneg]|].
    intros Hc; lra.
  - assert (Hge : open - low <= high - open).
    { apply Qnot_lt_le. intros Hc. apply Hlt in Hc. discriminate. }
    assert (Hpos : 0 <= (high - open) / open * inject_Z 100).
    { unfold Qdiv. change (inject_Z 100) with 100. nra. }
    exists ((high - open) / open * inject_Z 100).
    split; [exact Hhigh|]. split; [apply is_fin_abs, Hhigh|].
    split; [intros Hc; lra|].
    intros _; split; [reflexivity|exact Hpos].
Qed.

End ChartReturn.

(** ** Concrete runs of the data preparation *)

Section PreparationRuns.
Import Exact ExactFacts data_prep_utils.
Local Open Scope Z_scope.

(** The bounds of a timestamp at nanosecond resolution. *)
Definition ns_min_value : Z := -9223372036854775807.
Definition ns_max_value : Z := 9223372036854775807.

(** X17, witness: 2023-11-14 22:13:20 is rounded to 22:30:00. *)
Lemma round_up_within_half_hour_witness :
  exists r,
    round_up_to_next_half_hour ns_min_value ns_max_value (At 1700000000000000000)
    = Some (At r)
    /\ 1700000000000000000 <= r < 1700000000000000000 + 30 * ns_per_minute
    /\ (minute r = 0 \/ minute r = 30)
    /\ second r = 0
    /\ microsecond r = 0
    /\ nanosecond r = nanosecond 1700000000000000000
    /\ (r = 1700000000000000000
        <-> (minute 1700000000000000000 = 0 \/ minute 1700000000000000000 = 30)
            /\ second 1700000000000000000 = 0
            /\ microsecond 1700000000000000000 = 0).
Proof.
  apply (@round_up_within_half_hour ns_min_value ns_max_value 1700000000000000000).
  unfold ns_min_value, ns_max_value, ns_per_hour. lia.
Defined.

(** X18, witness: the same timestamp. *)
Lemma round_up_is_least_half_hour_witness :
  round_up_to_next_half_hour ns_min_value ns_max_value (At 1700000000000000000)
  = Some (At 1700001000000000000)
  /\ 1700001000000000000 mod (30 * ns_per_minute) = 0.
Proof.
  assert (Hrun : round_up_to_next_half_hour ns_min_value ns_max_value
                   (At 1700000000000000000) = Some (At 1700001000000000000))
    by (vm_compute; reflexivity).
  split; [exact Hrun|].
  apply (@round_up_is_least_half_hour ns_min_value ns_max_value
           1700000000000000000 1700001000000000000).
  - vm_compute. reflexivity.
  - exact Hrun.
Defined.

(** X19, witness: the rounded timestamp is rounded to itself. *)
Lemma round_up_idempotent_witness :
  round_up_to_next_half_hour ns_min_value ns_max_value (At 1700001000000000000)
  = Some (At 1700001000000000000).
Proof.
  apply (@round_up_idempotent ns_min_value ns_max_value
           (At 1700000000000000000) (At 1700001000000000000)).
  vm_compute. reflexivity.
Defined.

(** X20, witness: open 100, high 101, low 97: the move down of 3 is the
    larger one. *)
Lemma chart_return_largest_move_witness :
  exists q,
    is_fin (chart_return (Fin 100) (Fin 101) (Fin 97)) q
    /\ is_fin (chart_abs_return (Fin 100) (Fin 101) (Fin 97)) (Qabs q)
    /\ (101 - 100 < 100 - 97 -> q == (97 - 100) / 100 * 100 /\ q < 0)%Q
    /\ (100 - 97 <= 101 - 100 -> q == (101 - 100) / 100 * 100 /\ 0 <= q)%Q.
Proof.
  apply (@chart_return_largest_move 100 101 97).
  - reflexivity.
  - discriminate.
  - discriminate.
Defined.
End PreparationRuns.

(* ================================================================== *)
(** * Seeds *)

Section Reproducible.
Context {F : Type} `{Float64 F} `{RandomState} `{SciPyStats F} `{Sqrt F}.
Import bootstrap tests wrapper.


End Reproducible.

(* ================================================================== *)
(** * The groups of the ANOVA *)

Section DictFacts.
Context {V : Type} (f : string -> V).

Lemma dict_set_map (k : string) (ks : list string) :
  dict_set k (f k) (map (fun k => (k, f k)) ks)
  = map (fun k => (k, f k))
        (if existsb (String.eqb k) ks then ks else ks ++ [k]).
Proof.
  induction ks as [|k' ks IH]; [reflexivity|].
  cbn [map dict_set existsb].
  destruct (String.eqb_spec k k') as [->|Hne]; [reflexivity|].
  cbn [orb]. rewrite IH.
  destruct (existsb (String.eqb k) ks); reflexivity.
Qed.

Lemma dict_fold_spec (keys : list string) :
  forall ks0,
    NoDup ks0 ->
    exists ks,
      fold_left (fun d k => dict_set k (f k) d) keys (map (fun k => (k, f k)) ks0)
      = map (fun k => (k, f k)) ks
      /\ NoDup ks
      /\ forall k, In k ks <-> In k ks0 \/ In k keys.
Proof.
  induction keys as [|k keys IH]; intros ks0 Hnd.
  - exists ks0. split; [reflexivity|]. split; [exact Hnd|]. intros k. simpl. tauto.
  - cbn [fold_left]. rewrite dict_set_map.
    destruct (existsb (String.eqb k) ks0) eqn:E.
    + destruct (IH ks0 Hnd) as [ks [Hfold [Hnd' Hin]]].
      exists ks. split; [exact Hfold|]. split; [exact Hnd'|].
      intros x. rewrite Hin. simpl.
      apply existsb_exists in E. destruct E as [y [Hy Heq]].
      apply String.eqb_eq in Heq. subst y.
      split; [tauto|]. intros [Hx|[<-|Hx]]; auto.
    + assert (Hnot : ~ In k ks0).
      { intros Hk. assert (existsb (String.eqb k) ks0 = true); [|congruence].
        apply existsb_exists. exists k. split; [exact Hk|apply String.eqb_refl]. }
      destruct (IH (ks0 ++ [k])) as [ks [Hfold [Hnd' Hin]]].
      { apply NoDup_app; [exact Hnd|repeat constructor; intros []|].
        intros x Hx [<-|[]]. contradiction. }
      exists ks. split; [exact Hfold|]. split; [exact Hnd'|].
      intros x. rewrite Hin, in_app_iff. simpl. tauto.
Qed.

Lemma dict_comprehension_spec (keys : list string) :
  exists ks,
    dict_comprehension f keys = map (fun k => (k, f k)) ks
    /\ NoDup ks
    /\ forall k, In k ks <-> In k keys.
Proof.
  destruct (dict_fold_spec keys (NoDup_nil string)) as [ks [Hfold [Hnd Hin]]].
  exists ks. split; [exact Hfold|]. split; [exact Hnd|].
  intros k. rewrite Hin. simpl. tauto.
Qed.
End DictFacts.

Section AnovaGroups.
Context {F : Type} `{Float64 F}.
Import wrapper.

Variable df : DataFrame F.
Variable top_times : list string.
Variables return_col event_col time_col : string.

(** The rows of the target slots with news of exactly one of the
    categories. *)
Definition single_category_rows (categories : list string) : list (obs F) :=
  filter (fun r => Nat.eqb (n_cat_active categories r) 1)
         (filter (fun r => isin time_col top_times r
                           && (int_col r event_col >? 0)%Z) (records df)).

Lemma is_dominant_unique (categories : list string) (r : obs F) (k k' : string) :
  is_dominant categories k r = true -> is_dominant categories k' r = true -> k = k'.
Proof.
  unfold is_dominant. destruct (_dominant categories r) as [c|]; [|discriminate].
  intros Hk Hk'. apply String.eqb_eq in Hk, Hk'. congruence.
Qed.

Lemma dominant_at_most_once (categories : list string) (r : obs F) (ks : list string) :
  NoDup ks ->
  sum_sizes (map (fun k => if is_dominant categories k r then 1 else 0) ks) <= 1.
Proof.
  induction 1 as [|k ks Hnot Hnd IH]; cbn [map sum_sizes fold_right]; [lia|].
  fold (sum_sizes (map (fun k => if is_dominant categories k r then 1 else 0) ks)).
  destruct (is_dominant categories k r) eqn:Ek; [|lia].
  assert (Hzero : sum_sizes (map (fun k => if is_dominant categories k r
                                           then 1 else 0) ks) = 0).
  { clear IH Hnd. induction ks as [|k' ks IHk]; [reflexivity|].
    cbn [map sum_sizes fold_right].
    destruct (is_dominant categories k' r) eqn:Ek'.
    - exfalso. apply Hnot. left. now apply (is_dominant_unique categories r).
    - apply IHk. intros Hin. apply Hnot. now right. }
  lia.
Qed.

Lemma sum_sizes_add {X} (a b : X -> nat) (l : list X) :
  sum_sizes (map (fun x => a x + b x) l)
  = sum_sizes (map a l) + sum_sizes (map b l).
Proof.
  induction l as [|x l IH]; [reflexivity|].
  cbn [map]. unfold sum_sizes in *. cbn [fold_right]. rewrite IH. lia.
Qed.

Lemma dominant_groups_disjoint (categories : list string) (ks : list string)
      (rows : list (obs F)) :
  NoDup ks ->
  sum_sizes (map (fun k => length (filter (is_dominant categories k) rows)) ks)
  <= length rows.
Proof.
  intros Hnd. induction rows as [|r rows IH].
  - cbn [filter length]. clear Hnd. induction ks; simpl; auto.
  - pose proof (dominant_at_most_once categories r Hnd) as Hone.
    rewrite (map_ext _ (fun k => (if is_dominant categories k r then 1 else 0)
                                 + length (filter (is_dominant categories k) rows))).
    + rewrite sum_sizes_add. cbn [length]. lia.
    + intros k. cbn [filter].
      destruct (is_dominant categories k r); reflexivity.
Qed.

Lemma length_returns_where (mask : obs F -> bool) (rows : list (obs F)) :
  length (returns_where return_col mask rows) <= length (filter mask rows).
Proof.
  unfold returns_where, dropna.
  etransitivity; [apply filter_length_le|]. now rewrite length_map.
Qed.

Lemma sum_sizes_le {X} (g h : X -> nat) (l : list X) :
  (forall x, In x l -> g x <= h x) ->
  sum_sizes (map g l) <= sum_sizes (map h l).
Proof.
  induction l as [|x l IH]; intros Hle; [reflexivity|].
  cbn [map sum_sizes fold_right].
  fold (sum_sizes (map g l)). fold (sum_sizes (map h l)).
  specialize (Hle x (or_introl eq_refl)) as Hx.
  assert (sum_sizes (map g l) <= sum_sizes (map h l))
    by (apply IH; intros y Hy; apply Hle; now right).
  lia.
Qed.

Lemma sum_sizes_filter {X} (g : X -> nat) (keep : X -> bool) (l : list X) :
  sum_sizes (map g (filter keep l)) <= sum_sizes (map g l).
Proof.
  induction l as [|x l IH]; [reflexivity|].
  cbn [filter]. destruct (keep x); cbn [map sum_sizes fold_right];
    fold (sum_sizes (map g l)); fold (sum_sizes (map g (filter keep l))); lia.
Qed.

(** X21: the groups that [show_category_anova] hands to the ANOVA are
    disjoint samples: they are keyed by distinct categories of the list,
    each group holds the non-missing returns of the single-category rows
    whose dominant category is its key, and together the groups hold at most
    as many observations as there are such rows, so no row is counted
    twice. *)
Theorem anova_groups_disjoint
        (categories : list string) (groups_dict : list (string * list F)) :
  anova_groups df top_times return_col event_col time_col categories
  = Ok groups_dict ->
  NoDup (map fst groups_dict)
  /\ incl (map fst groups_dict) categories
  /\ Forall (fun kv =>
               snd kv = returns_where return_col
                                      (is_dominant categories (fst kv))
                                      (single_category_rows categories))
            groups_dict
  /\ sum_sizes (map (fun kv => length (snd kv)) groups_dict)
     <= length (single_category_rows categories).
Proof.
  unfold anova_groups. fold (single_category_rows categories).
  set (g := fun cat => returns_where return_col (is_dominant categories cat)
                                     (single_category_rows categories)).
  destruct (dict_comprehension_spec g categories) as [ks [Hd [Hnd Hin]]].
  rewrite Hd.
  set (kept := filter (fun kv : string * list F => Nat.ltb 1 (length (snd kv)))
                      (map (fun k => (k, g k)) ks)).
  destruct (Nat.ltb (length kept) 2); [discriminate|].
  intros [= <-].
  assert (Hkeys : map fst kept
                  = filter (fun k => Nat.ltb 1 (length (g k))) ks).
  { subst kept. clear. induction ks as [|k ks IH]; [reflexivity|].
    cbn [map filter fst snd]. destruct (Nat.ltb 1 (length (g k)));
      cbn [map fst]; now rewrite IH. }
  split; [rewrite Hkeys; now apply NoDup_filter|]. split.
  { rewrite Hkeys. intros k Hk. apply filter_In in Hk. now apply Hin. }
  split.
  { apply Forall_forall. intros kv Hkv. subst kept.
    apply filter_In in Hkv. destruct Hkv as [Hkv _].
    apply in_map_iff in Hkv. destruct Hkv as [k [<- _]]. reflexivity. }
  subst kept.
  etransitivity; [apply sum_sizes_filter|].
  rewrite map_map. cbn [snd].
  etransitivity; [|apply (dominant_groups_disjoint categories
                            (single_category_rows categories) Hnd)].
  apply sum_sizes_le. intros k _. subst g. apply length_returns_where.
Qed.
End AnovaGroups.

Section LastRuns.
Import Binary64 Rotation Reference Sample.
Import bootstrap tests wrapper.
Local Open Scope float_scope.

(** X21, witness: three single-category rows of each of two categories;
    the category with a single row is left out. *)
Lemma anova_groups_disjoint_witness :
  exists groups_dict : list (string * list float),
    anova_groups category_table ["09:00"] "|Return|" "event_count" "time"
                 ["macro"; "earnings"; "rumor"] = Ok groups_dict
    /\ NoDup (map fst groups_dict)
    /\ (sum_sizes (map (fun kv => length (snd kv)) groups_dict)
        <= length (single_category_rows category_table ["09:00"] "event_count"
                                        "time" ["macro"; "earnings"; "rumor"]))%nat.
Proof.
  destruct (anova_groups category_table ["09:00"] "|Return|" "event_count" "time"
                         ["macro"; "earnings"; "rumor"])
    as [groups_dict|e] eqn:Hrun.
  - exists groups_dict. split; [reflexivity|].
    destruct (@anova_groups_disjoint float Binary64.float64 category_table
                ["09:00"] "|Return|" "event_count" "time"
                ["macro"; "earnings"; "rumor"] groups_dict Hrun)
      as [Hnd [_ [_ Hsum]]].
    split; [exact Hnd|exact Hsum].
  - vm_compute in Hrun. discriminate.
Defined.

(** A statistic that fails on a sample whose first group starts with the
    label 1. *)
Definition picky (groups : list (list Z)) : result float :=
  match groups with
  | (1%Z :: _) :: _ => Raise IndexError
  | _ => Ok 0
  end.

(** X2, witness: the first reshuffle swaps the two labels. *)
Lemma permutation_pvalue_exceptions_witness :
  fst (permutation_pvalue picky [[0%Z]; [1%Z]] 2 false None 1%Z) = Raise IndexError.
Proof.
  apply (proj2 (proj2 (@permutation_pvalue_exceptions float Binary64.float64
                         Rotation.random_state Z picky [[0%Z]; [1%Z]] 2 false
                         None 1%Z)) 0 IndexError).
  - reflexivity.
  - discriminate.
  - lia.
  - vm_compute. reflexivity.
Defined.
End LastRuns.
